(** * Todoist -> Capacities webhook relay: a shallow embedding

    The development follows the TypeScript sources:
    - [lib/todoist.ts]     signature verification, header lookup, priority labels;
    - [lib/capacities.ts]  the markdown formatter and the outbound call;
    - [api/webhook.ts]     the Node handler and the Edge handler.

    JavaScript strings are identified with their UTF-8 encoding: a [string]
    below is the byte sequence a [Buffer] or a [TextEncoder] would produce for
    it.  Byte buffers are lists of integers in [0, 256); reading a buffer as
    text ([toString_utf8]) replaces what is not well-formed UTF-8.  Where a
    property is about strings that hold lone surrogates, strings are
    sequences of UTF-16 code units (module [Units]). *)

From Stdlib Require Import ZArith List String Ascii Bool Lia.
Import ListNotations.
Local Open Scope Z_scope.
Local Open Scope string_scope.
Set Warnings "-register-all".

(** ** Exceptions

    A computation either returns or throws; [try_catch] is the
    [try { ... } catch { ... }] block. *)

Inductive error : Type :=
| RangeError (message : string)
| SyntaxError (message : string)
| TypeError (message : string)
| Error (message : string)
| DOMException (name message : string).

Inductive result (A : Type) : Type :=
| Ok (a : A)
| Throw (e : error).
Arguments Ok {A} a.
Arguments Throw {A} e.

Definition bind {A B : Type} (m : result A) (k : A -> result B) : result B :=
  match m with
  | Ok a => k a
  | Throw e => Throw e
  end.

Notation "x <- m ;; k" := (bind m (fun x => k))
  (at level 61, m at next level, right associativity).

Definition try_catch {A : Type} (m : result A) (handler : error -> A) : A :=
  match m with
  | Ok a => a
  | Throw e => handler e
  end.

(** ** Strings and bytes *)

Definition byte_of_ascii (c : ascii) : Z := Z.of_N (N_of_ascii c).
Definition ascii_of_byte (b : Z) : ascii := ascii_of_N (Z.to_N b).

Fixpoint bytes_of_string (s : string) : list Z :=
  match s with
  | EmptyString => []
  | String c r => byte_of_ascii c :: bytes_of_string r
  end.

Fixpoint string_of_bytes (l : list Z) : string :=
  match l with
  | [] => EmptyString
  | b :: r => String (ascii_of_byte b) (string_of_bytes r)
  end.

Definition is_byte (b : Z) : Prop := 0 <= b < 256.

(** JavaScript truthiness of a string and of an optional string: [undefined],
    [null] and the empty string are falsy. *)
Definition truthy (s : string) : bool :=
  match s with
  | EmptyString => false
  | String _ _ => true
  end.

Definition truthy_opt (o : option string) : bool :=
  match o with
  | Some s => truthy s
  | None => false
  end.

(** ** Reading bytes as text

    [buf.toString('utf-8')] decodes as the Encoding Standard prescribes:
    a well-formed sequence is read as its character, and every maximal
    ill-formed run (a byte that cannot start a sequence, or a sequence cut
    short by a byte that cannot continue it or by the end of the buffer) is
    read as U+FFFD.  [utf8_replace] gives the UTF-8 encoding of the string so
    read: well-formed sequences as they are, EF BF BD for each ill-formed
    run. *)

Definition between (lo hi b : Z) : bool := ((lo <=? b) && (b <=? hi))%Z.

Definition continuation (b : Z) : bool := between 0x80 0xBF b.

(** The second byte the lead byte of a three-byte sequence admits: E0
    excludes the overlong forms, ED the surrogates. *)
Definition second_of_three (b0 b1 : Z) : bool :=
  if (b0 =? 0xE0)%Z then between 0xA0 0xBF b1
  else if (b0 =? 0xED)%Z then between 0x80 0x9F b1
  else continuation b1.

(** The same for a four-byte sequence: F0 excludes the overlong forms, F4
    what lies above U+10FFFF. *)
Definition second_of_four (b0 b1 : Z) : bool :=
  if (b0 =? 0xF0)%Z then between 0x90 0xBF b1
  else if (b0 =? 0xF4)%Z then between 0x80 0x8F b1
  else continuation b1.

(** U+FFFD in UTF-8. *)
Definition REPLACEMENT : list Z := [0xEF; 0xBF; 0xBD].

Fixpoint utf8_replace (l : list Z) : list Z :=
  match l with
  | [] => []
  | b0 :: r0 =>
      if between 0x00 0x7F b0 then b0 :: utf8_replace r0
      else if between 0xC2 0xDF b0 then
        match r0 with
        | b1 :: r1 =>
            if continuation b1 then b0 :: b1 :: utf8_replace r1
            else (REPLACEMENT ++ utf8_replace r0)%list
        | [] => REPLACEMENT
        end
      else if between 0xE0 0xEF b0 then
        match r0 with
        | b1 :: r1 =>
            if second_of_three b0 b1 then
              match r1 with
              | b2 :: r2 =>
                  if continuation b2 then b0 :: b1 :: b2 :: utf8_replace r2
                  else (REPLACEMENT ++ utf8_replace r1)%list
              | [] => REPLACEMENT
              end
            else (REPLACEMENT ++ utf8_replace r0)%list
        | [] => REPLACEMENT
        end
      else if between 0xF0 0xF4 b0 then
        match r0 with
        | b1 :: r1 =>
            if second_of_four b0 b1 then
              match r1 with
              | b2 :: r2 =>
                  if continuation b2 then
                    match r2 with
                    | b3 :: r3 =>
                        if continuation b3 then b0 :: b1 :: b2 :: b3 :: utf8_replace r3
                        else (REPLACEMENT ++ utf8_replace r2)%list
                    | [] => REPLACEMENT
                    end
                  else (REPLACEMENT ++ utf8_replace r1)%list
              | [] => REPLACEMENT
              end
            else (REPLACEMENT ++ utf8_replace r0)%list
        | [] => REPLACEMENT
        end
      else (REPLACEMENT ++ utf8_replace r0)%list
  end.

(** [buf.toString('utf-8')]. *)
Definition toString_utf8 (buf : list Z) : string := string_of_bytes (utf8_replace buf).

(** ** SHA-256 (FIPS 180-4) and HMAC (RFC 2104), as [crypto.createHmac]
    and [crypto.subtle.sign] compute them. *)

Module SHA256.

Definition wrap32 (x : Z) : Z := x mod 2 ^ 32.
Definition add32 (x y : Z) : Z := wrap32 (x + y).
Definition rotr (n x : Z) : Z :=
  Z.lor (Z.shiftr x n) (wrap32 (Z.shiftl x (32 - n))).
Definition not32 (x : Z) : Z := Z.lxor x 0xFFFFFFFF.

Definition Ch (x y z : Z) : Z := Z.lxor (Z.land x y) (Z.land (not32 x) z).
Definition Maj (x y z : Z) : Z :=
  Z.lxor (Z.lxor (Z.land x y) (Z.land x z)) (Z.land y z).
Definition bsig0 (x : Z) : Z := Z.lxor (Z.lxor (rotr 2 x) (rotr 13 x)) (rotr 22 x).
Definition bsig1 (x : Z) : Z := Z.lxor (Z.lxor (rotr 6 x) (rotr 11 x)) (rotr 25 x).
Definition ssig0 (x : Z) : Z := Z.lxor (Z.lxor (rotr 7 x) (rotr 18 x)) (Z.shiftr x 3).
Definition ssig1 (x : Z) : Z := Z.lxor (Z.lxor (rotr 17 x) (rotr 19 x)) (Z.shiftr x 10).

Definition round_constants : list Z :=
  [ 0x428A2F98; 0x71374491; 0xB5C0FBCF; 0xE9B5DBA5;
    0x3956C25B; 0x59F111F1; 0x923F82A4; 0xAB1C5ED5;
    0xD807AA98; 0x12835B01; 0x243185BE; 0x550C7DC3;
    0x72BE5D74; 0x80DEB1FE; 0x9BDC06A7; 0xC19BF174;
    0xE49B69C1; 0xEFBE4786; 0x0FC19DC6; 0x240CA1CC;
    0x2DE92C6F; 0x4A7484AA; 0x5CB0A9DC; 0x76F988DA;
    0x983E5152; 0xA831C66D; 0xB00327C8; 0xBF597FC7;
    0xC6E00BF3; 0xD5A79147; 0x06CA6351; 0x14292967;
    0x27B70A85; 0x2E1B2138; 0x4D2C6DFC; 0x53380D13;
    0x650A7354; 0x766A0ABB; 0x81C2C92E; 0x92722C85;
    0xA2BFE8A1; 0xA81A664B; 0xC24B8B70; 0xC76C51A3;
    0xD192E819; 0xD6990624; 0xF40E3585; 0x106AA070;
    0x19A4C116; 0x1E376C08; 0x2748774C; 0x34B0BCB5;
    0x391C0CB3; 0x4ED8AA4A; 0x5B9CCA4F; 0x682E6FF3;
    0x748F82EE; 0x78A5636F; 0x84C87814; 0x8CC70208;
    0x90BEFFFA; 0xA4506CEB; 0xBEF9A3F7; 0xC67178F2 ].

Record state : Type := mkState {
  ha : Z; hb : Z; hc : Z; hd : Z; he : Z; hf : Z; hg : Z; hh : Z
}.

Definition initial : state :=
  mkState 0x6A09E667 0xBB67AE85 0x3C6EF372 0xA54FF53A
          0x510E527F 0x9B05688C 0x1F83D9AB 0x5BE0CD19.

(** Big-endian packing of bytes into 32-bit words. *)
Fixpoint words_of_bytes (l : list Z) : list Z :=
  match l with
  | b3 :: b2 :: b1 :: b0 :: r =>
      (b3 * 2 ^ 24 + b2 * 2 ^ 16 + b1 * 2 ^ 8 + b0) :: words_of_bytes r
  | _ => []
  end.

Definition bytes_of_word (w : Z) : list Z :=
  [ Z.land (Z.shiftr w 24) 255; Z.land (Z.shiftr w 16) 255;
    Z.land (Z.shiftr w 8) 255; Z.land w 255 ].

(** The message schedule, most recent word first: from
    [W(t-1), ..., W(t-16)] compute [W(t)]. *)
Definition next_word (rev_w : list Z) : Z :=
  add32 (add32 (ssig1 (nth 1 rev_w 0)) (nth 6 rev_w 0))
        (add32 (ssig0 (nth 14 rev_w 0)) (nth 15 rev_w 0)).

Fixpoint extend (n : nat) (rev_w : list Z) : list Z :=
  match n with
  | O => rev_w
  | S n' => extend n' (next_word rev_w :: rev_w)
  end.

Definition schedule (block : list Z) : list Z :=
  rev (extend 48 (rev block)).

Definition round (s : state) (kw : Z * Z) : state :=
  let '(k, w) := kw in
  let t1 := add32 (add32 (add32 (add32 (hh s) (bsig1 (he s)))
                                (Ch (he s) (hf s) (hg s))) k) w in
  let t2 := add32 (bsig0 (ha s)) (Maj (ha s) (hb s) (hc s)) in
  mkState (add32 t1 t2) (ha s) (hb s) (hc s)
          (add32 (hd s) t1) (he s) (hf s) (hg s).

Definition compress (h : state) (block : list Z) : state :=
  let s := fold_left round (combine round_constants (schedule block)) h in
  mkState (add32 (ha h) (ha s)) (add32 (hb h) (hb s))
          (add32 (hc h) (hc s)) (add32 (hd h) (hd s))
          (add32 (he h) (he s)) (add32 (hf h) (hf s))
          (add32 (hg h) (hg s)) (add32 (hh h) (hh s)).

(** Padding: a one bit, zeros up to 56 mod 64 bytes, the bit length on
    eight bytes. *)
Definition pad (msg : list Z) : list Z :=
  let len := Z.of_nat (List.length msg) in
  let zeros := Z.to_nat ((55 - len) mod 64) in
  let bits := len * 8 in
  (msg ++ [0x80] ++ repeat 0 zeros
       ++ bytes_of_word (Z.shiftr bits 32) ++ bytes_of_word (wrap32 bits))%list.

Fixpoint blocks (fuel : nat) (ws : list Z) : list (list Z) :=
  match fuel, ws with
  | S fuel', _ :: _ => firstn 16 ws :: blocks fuel' (skipn 16 ws)
  | _, _ => []
  end.

Definition digest_bytes (s : state) : list Z :=
  (bytes_of_word (ha s) ++ bytes_of_word (hb s) ++ bytes_of_word (hc s)
     ++ bytes_of_word (hd s) ++ bytes_of_word (he s) ++ bytes_of_word (hf s)
     ++ bytes_of_word (hg s) ++ bytes_of_word (hh s))%list.

Definition hash (msg : list Z) : list Z :=
  let ws := words_of_bytes (pad msg) in
  digest_bytes (fold_left compress (blocks (List.length ws) ws) initial).

Definition block_size : nat := 64.

Definition hmac_key (key : list Z) : list Z :=
  let k := if Nat.ltb block_size (List.length key) then hash key else key in
  (k ++ repeat 0 (block_size - List.length k))%list.

Definition hmac (key msg : list Z) : list Z :=
  let k := hmac_key key in
  hash (map (Z.lxor 0x5C) k ++ hash (map (Z.lxor 0x36) k ++ msg))%list.

End SHA256.

Definition hex_digit (d : Z) : ascii :=
  nth (Z.to_nat d) (list_ascii_of_string "0123456789abcdef") "0"%char.

Fixpoint hex_of_bytes (l : list Z) : string :=
  match l with
  | [] => EmptyString
  | b :: r => String (hex_digit (b / 16)) (String (hex_digit (b mod 16)) (hex_of_bytes r))
  end.

(** ** Base64

    [base64_encode] is the standard alphabet with padding, as
    [digest('base64')] and [btoa] produce it.  [Buffer_from_base64] is
    [Buffer.from(s, 'base64')]: Node decodes leniently, it never throws on a
    string; characters outside the alphabet (the URL-safe [-] and [_] are
    inside) are skipped, decoding stops at the first [=], and the bits of an
    incomplete final group that do not fill a byte are dropped.  The string
    is one whose code units are below U+0100, as in every header value; a
    higher code unit is read by its low byte ([Units.Buffer_from_base64]). *)

Definition base64_alphabet : list ascii :=
  list_ascii_of_string
    "ABCDEFGHIJKLMNOPQRSTUVWXYZabcdefghijklmnopqrstuvwxyz0123456789+/".

Definition base64_char (v : Z) : ascii :=
  nth (Z.to_nat v) base64_alphabet "="%char.

Fixpoint base64_encode (l : list Z) : string :=
  match l with
  | [] => EmptyString
  | [a] =>
      String (base64_char (a / 4))
        (String (base64_char ((a mod 4) * 16)) "==")
  | [a; b] =>
      String (base64_char (a / 4))
        (String (base64_char ((a mod 4) * 16 + b / 16))
           (String (base64_char ((b mod 16) * 4)) "="))
  | a :: b :: c :: r =>
      String (base64_char (a / 4))
        (String (base64_char ((a mod 4) * 16 + b / 16))
           (String (base64_char ((b mod 16) * 4 + c / 64))
              (String (base64_char (c mod 64)) (base64_encode r))))
  end.

Definition in_range (lo hi c : ascii) : bool :=
  N.leb (N_of_ascii lo) (N_of_ascii c) && N.leb (N_of_ascii c) (N_of_ascii hi).

Definition unbase64 (c : ascii) : option Z :=
  let n := byte_of_ascii c in
  if in_range "A" "Z" c then Some (n - 65)
  else if in_range "a" "z" c then Some (n - 97 + 26)
  else if in_range "0" "9" c then Some (n - 48 + 52)
  else if (Ascii.eqb c "+" || Ascii.eqb c "-")%bool then Some 62
  else if (Ascii.eqb c "/" || Ascii.eqb c "_")%bool then Some 63
  else None.

Fixpoint sextets (s : string) : list Z :=
  match s with
  | EmptyString => []
  | String c r =>
      if Ascii.eqb c "=" then []
      else match unbase64 c with
           | Some v => v :: sextets r
           | None => sextets r
           end
  end.

Fixpoint bytes_of_sextets (l : list Z) : list Z :=
  match l with
  | s1 :: s2 :: s3 :: s4 :: r =>
      (s1 * 4 + s2 / 16) :: ((s2 mod 16) * 16 + s3 / 4)
        :: ((s3 mod 4) * 64 + s4) :: bytes_of_sextets r
  | [s1; s2; s3] => [s1 * 4 + s2 / 16; (s2 mod 16) * 16 + s3 / 4]
  | [s1; s2] => [s1 * 4 + s2 / 16]
  | _ => []
  end.

Definition Buffer_from_base64 (s : string) : result (list Z) :=
  Ok (bytes_of_sextets (sextets s)).

(** [crypto.timingSafeEqual]: throws a [RangeError] on buffers of different
    lengths, otherwise tells whether they hold the same bytes. *)
Fixpoint bytes_eqb (a b : list Z) : bool :=
  match a, b with
  | [], [] => true
  | x :: a', y :: b' => Z.eqb x y && bytes_eqb a' b'
  | _, _ => false
  end.

Definition timingSafeEqual (a b : list Z) : result bool :=
  if Nat.eqb (List.length a) (List.length b) then Ok (bytes_eqb a b)
  else Throw (RangeError "Input buffers must have the same byte length").

(** ** lib/todoist.ts *)

Definition TODOIST_HEADER : string := "x-todoist-hmac-sha256".

(** [createHmac('sha256', secret).update(body).digest('base64')]. *)
Definition hmac_sha256_base64 (secret body : string) : string :=
  base64_encode (SHA256.hmac (bytes_of_string secret) (bytes_of_string body)).

(** The body of the [try] block. *)
Definition compare_signatures (signature expectedSignature : string) : result bool :=
  sigBuffer <- Buffer_from_base64 signature ;;
  expectedBuffer <- Buffer_from_base64 expectedSignature ;;
  if negb (Nat.eqb (List.length sigBuffer) (List.length expectedBuffer))
  then Ok false
  else timingSafeEqual sigBuffer expectedBuffer.

Definition verifyTodoistSignature
    (rawBody : string) (signature : option string) (clientSecret : string) : bool :=
  match signature with
  | None => false
  | Some signature =>
      if negb (truthy signature) then false
      else
        let expectedSignature := hmac_sha256_base64 clientSecret rawBody in
        try_catch (compare_signatures signature expectedSignature) (fun _ => false)
  end.

(** A header value is a string or an array of strings; the header record
    maps a name to [undefined] ([None]) or to a value. *)
Inductive header_value : Type :=
| HString (s : string)
| HArray (l : list string).

Definition headers : Type := string -> option header_value.

(** [a || b] on header values: an array, even empty, is truthy. *)
Definition header_truthy (v : option header_value) : bool :=
  match v with
  | Some (HString s) => truthy s
  | Some (HArray _) => true
  | None => false
  end.

Definition header_or (a b : option header_value) : option header_value :=
  if header_truthy a then a else b.

Definition getSignatureFromHeaders (h : headers) : option string :=
  let headerValue :=
    header_or (h TODOIST_HEADER)
      (header_or (h "X-Todoist-Hmac-SHA256") (h "X-TODOIST-HMAC-SHA256")) in
  match headerValue with
  | Some (HArray l) => nth_error l 0
  | Some (HString s) => Some s
  | None => None
  end.

(** ** api/webhook.ts, Edge runtime: [verifySignature]

    [btoa(String.fromCharCode(...bytes))] is the padded base64 text of the
    digest; the comparison is on the texts.  The secret is not empty, as in
    every call the handler makes ([importKey] refuses an empty key, see
    [Units.verifySignature]). *)
Definition verifySignature
    (rawBody : string) (signature : option string) (secret : string) : bool :=
  match signature with
  | None => false
  | Some signature =>
      if negb (truthy signature) then false
      else
        let expected := hmac_sha256_base64 secret rawBody in
        String.eqb expected signature
  end.

(** ** Strings that hold lone surrogates

    The verifiers take any JavaScript string, and a JavaScript string is a
    sequence of UTF-16 code units.  One that holds a lone surrogate has no
    UTF-8 form of its own: [hmac.update(s)], [createHmac(..., s)] and
    [TextEncoder.encode(s)] write U+FFFD in its place.  [Units] gives the
    two verifiers on code units, each in [0, 65536). *)

Module Units.

Definition code_units : Type := list Z.

Definition high_surrogate (u : Z) : bool := between 0xD800 0xDBFF u.
Definition low_surrogate (u : Z) : bool := between 0xDC00 0xDFFF u.

(** UTF-8 of a scalar value. *)
Definition utf8_of_scalar (c : Z) : list Z :=
  if (c <? 0x80)%Z then [c]
  else if (c <? 0x800)%Z then [0xC0 + c / 64; 0x80 + c mod 64]
  else if (c <? 0x10000)%Z then
    [0xE0 + c / 4096; 0x80 + (c / 64) mod 64; 0x80 + c mod 64]
  else [0xF0 + c / 262144; 0x80 + (c / 4096) mod 64; 0x80 + (c / 64) mod 64;
        0x80 + c mod 64].

(** The bytes a string is hashed as: a high surrogate followed by a low
    one is one scalar value, any other surrogate is written as U+FFFD. *)
Fixpoint utf8_encode (s : code_units) : list Z :=
  match s with
  | [] => []
  | u :: r =>
      if high_surrogate u then
        match r with
        | v :: r' =>
            if low_surrogate v then
              (utf8_of_scalar (0x10000 + (u - 0xD800) * 1024 + (v - 0xDC00))
                 ++ utf8_encode r')%list
            else (REPLACEMENT ++ utf8_encode r)%list
        | [] => REPLACEMENT
        end
      else if low_surrogate u then (REPLACEMENT ++ utf8_encode r)%list
      else (utf8_of_scalar u ++ utf8_encode r)%list
  end.

(** The code units of a string of ASCII characters, such as base64 text. *)
Definition of_ascii (s : string) : code_units := bytes_of_string s.

(** [Buffer.from(s, 'base64')]: the decoder reads each code unit by its low
    byte, then skips, stops and drops as [sextets] and [bytes_of_sextets]
    say. *)
Definition low_bytes (s : code_units) : string :=
  string_of_bytes (map (fun u => u mod 256) s).

Definition Buffer_from_base64 (s : code_units) : result (list Z) :=
  Ok (bytes_of_sextets (sextets (low_bytes s))).

(** [createHmac('sha256', secret).update(body).digest('base64')]. *)
Definition hmac_sha256_base64 (secret body : code_units) : code_units :=
  of_ascii (base64_encode (SHA256.hmac (utf8_encode secret) (utf8_encode body))).

Definition verifyTodoistSignature
    (rawBody : code_units) (signature : option code_units) (clientSecret : code_units)
  : bool :=
  match signature with
  | None | Some [] => false
  | Some signature =>
      let expectedSignature := hmac_sha256_base64 clientSecret rawBody in
      try_catch
        (sigBuffer <- Buffer_from_base64 signature ;;
         expectedBuffer <- Buffer_from_base64 expectedSignature ;;
         if negb (Nat.eqb (List.length sigBuffer) (List.length expectedBuffer))
         then Ok false
         else timingSafeEqual sigBuffer expectedBuffer)
        (fun _ => false)
  end.

(** [crypto.subtle.importKey('raw', keyData, { name: 'HMAC', ... })]
    refuses a key without bytes. *)
Definition importKey (keyData : list Z) : result (list Z) :=
  match keyData with
  | [] => Throw (DOMException "DataError" "Zero-length key is not supported")
  | _ :: _ => Ok keyData
  end.

Definition verifySignature
    (rawBody : code_units) (signature : option code_units) (secret : code_units)
  : result bool :=
  match signature with
  | None | Some [] => Ok false
  | Some signature =>
      key <- importKey (utf8_encode secret) ;;
      let signatureBytes := SHA256.hmac key (utf8_encode rawBody) in
      let expected := of_ascii (base64_encode signatureBytes) in
      Ok (bytes_eqb expected signature)
  end.

(** The digest the verifiers expect. *)
Definition expected_digest (clientSecret rawBody : code_units) : list Z :=
  SHA256.hmac (utf8_encode clientSecret) (utf8_encode rawBody).

(** The string [s] with bit [bit] of its code unit at [pos] inverted. *)
Definition flip_unit (bit : N) (u : Z) : Z := Z.lxor u (2 ^ Z.of_N bit).

Fixpoint flip_bit (pos : nat) (bit : N) (s : code_units) : code_units :=
  match s, pos with
  | [], _ => []
  | u :: r, O => flip_unit bit u :: r
  | u :: r, S pos' => u :: flip_bit pos' bit r
  end.

Definition is_unit (u : Z) : Prop := 0 <= u < 65536.

(** The UTF-8 form of a string. *)
Definition text (s : code_units) : string := string_of_bytes (utf8_encode s).

End Units.

(** ** String primitives of the JavaScript runtime *)

Definition LF : ascii := ascii_of_nat 10.
Definition nl : string := String LF EmptyString.

(** [Array.prototype.push] with one or more items. *)
Definition push {A : Type} (lines items : list A) : list A := (lines ++ items)%list.

(** [Array.prototype.join]. *)
Fixpoint join (sep : string) (l : list string) : string :=
  match l with
  | [] => EmptyString
  | [x] => x
  | x :: r => x ++ sep ++ join sep r
  end.

(** [String.prototype.split] on a one-character separator. *)
Fixpoint split (sep : ascii) (s : string) : list string :=
  match s with
  | EmptyString => [EmptyString]
  | String c r =>
      if Ascii.eqb c sep then EmptyString :: split sep r
      else match split sep r with
           | h :: t => String c h :: t
           | [] => [String c EmptyString]
           end
  end.

(** [String.prototype.trim] removes white space and line terminators:
    TAB, LF, VT, FF, CR, SP, U+00A0, U+1680, U+2000..U+200A, U+2028, U+2029,
    U+202F, U+205F, U+3000 and U+FEFF, here in their UTF-8 encodings. *)
Definition whitespace_encodings : list (list Z) :=
  [ [9]; [10]; [11]; [12]; [13]; [32]; [0xC2; 0xA0]; [0xE1; 0x9A; 0x80];
    [0xE2; 0x80; 0x80]; [0xE2; 0x80; 0x81]; [0xE2; 0x80; 0x82];
    [0xE2; 0x80; 0x83]; [0xE2; 0x80; 0x84]; [0xE2; 0x80; 0x85];
    [0xE2; 0x80; 0x86]; [0xE2; 0x80; 0x87]; [0xE2; 0x80; 0x88];
    [0xE2; 0x80; 0x89]; [0xE2; 0x80; 0x8A]; [0xE2; 0x80; 0xA8];
    [0xE2; 0x80; 0xA9]; [0xE2; 0x80; 0xAF]; [0xE2; 0x81; 0x9F];
    [0xE3; 0x80; 0x80]; [0xEF; 0xBB; 0xBF] ].

Fixpoint strip_prefix (p s : string) : option string :=
  match p, s with
  | EmptyString, _ => Some s
  | String a p', String b s' => if Ascii.eqb a b then strip_prefix p' s' else None
  | String _ _, EmptyString => None
  end.

Fixpoint strip_whitespace (encodings : list (list Z)) (s : string) : option string :=
  match encodings with
  | [] => None
  | e :: r =>
      match strip_prefix (string_of_bytes e) s with
      | Some rest => Some rest
      | None => strip_whitespace r s
      end
  end.

Fixpoint trimStart_fuel (fuel : nat) (s : string) : string :=
  match fuel with
  | O => s
  | S fuel' =>
      match strip_whitespace whitespace_encodings s with
      | Some rest => trimStart_fuel fuel' rest
      | None => s
      end
  end.

Definition trimStart (s : string) : string := trimStart_fuel (String.length s) s.

Fixpoint trimEnd (s : string) : string :=
  match s with
  | EmptyString => EmptyString
  | String c r => if truthy (trimStart s) then String c (trimEnd r) else EmptyString
  end.

Definition trim (s : string) : string := trimEnd (trimStart s).

(** Decimal text of an integer, as [String(n)] renders it. *)
Fixpoint digits_fuel (fuel : nat) (n : Z) (acc : string) : string :=
  match fuel with
  | O => acc
  | S fuel' =>
      let acc' := String (ascii_of_byte (48 + n mod 10)) acc in
      if n / 10 =? 0 then acc' else digits_fuel fuel' (n / 10) acc'
  end%Z.

Definition string_of_nonneg (n : Z) : string :=
  digits_fuel (S (Z.to_nat (Z.log2 n))) n EmptyString.

Definition string_of_Z (n : Z) : string :=
  if (n <? 0)%Z then "-" ++ string_of_nonneg (- n) else string_of_nonneg n.

(** ** lib/types.ts *)

Inductive TodoistPriority : Type := P1 | P2 | P3 | P4.

Definition priority_number (p : TodoistPriority) : Z :=
  match p with P1 => 1 | P2 => 2 | P3 => 3 | P4 => 4 end.

Record TodoistDue : Type := mkDue {
  date : string;
  timezone : option string;
  due_string : option string;
  lang : option string;
  is_recurring : option bool;
  datetime : option string
}.

Record TodoistTask : Type := mkTask {
  task_id : string;
  content : string;
  description : string;
  project_id : string;
  section_id : option string;
  parent_id : option string;
  priority : TodoistPriority;
  due : option TodoistDue;
  labels : list string;
  checked : bool;
  is_deleted : option bool;
  added_at : option string;
  completed_at : option string;
  user_id : option string
}.

(** ** Dates

    [new Date(s)] never throws: an unrecognised string gives the invalid
    date, whose time value is NaN.  [toLocaleString] on the invalid date
    returns the text [Invalid Date]; on a valid date it renders the time
    value for the locale and options.  What the engine recognises and how it
    renders depend on the host (ICU data, time zone), so both are fields of
    the runtime. *)

Record DateRuntime : Type := mkDateRuntime {
  Date_parse : string -> option Z;
  render_en_US_short : Z -> string;
  render_default : Z -> string
}.

Definition Date : Type := option Z.

Definition new_Date (rt : DateRuntime) (s : string) : result Date :=
  Ok (Date_parse rt s).

Definition toLocaleString (render : Z -> string) (d : Date) : result string :=
  match d with
  | None => Ok "Invalid Date"
  | Some t => Ok (render t)
  end.

(** ** lib/todoist.ts: [getPriorityLabel] *)

Definition getPriorityLabel (p : TodoistPriority) : string :=
  match p with
  | P4 => "Urgent"
  | P3 => "High"
  | P2 => "Medium"
  | P1 => "Normal"
  end.

(** ** lib/capacities.ts: the formatter *)

Section Formatter.

Variable rt : DateRuntime.

(** The body of the [try] block. *)
Definition render_date (isoString : string) : result string :=
  date <- new_Date rt isoString ;;
  toLocaleString (render_en_US_short rt) date.

Definition formatDateTime (isoString : string) : string :=
  try_catch (render_date isoString) (fun _ => isoString).

Definition blockquote (text : string) : string :=
  "> " ++ join (nl ++ "> ") (split LF text).

Definition due_recurring (d : TodoistDue) : bool :=
  match is_recurring d with
  | Some true => true
  | _ => false
  end.

(** The statements after the [switch]: the metadata of the kinds that
    carry it, then the separator. *)
Definition push_metadata (task : TodoistTask) (lines : list string) : string :=
  let lines := push lines [EmptyString] in
  let lines :=
    if (priority_number (priority task) >? 1)%Z
    then push lines ["- **Priority:** " ++ getPriorityLabel (priority task)]
    else lines in
  let lines :=
    match due task with
    | Some d =>
        let dueStr :=
          match datetime d with
          | Some dt => if truthy dt then formatDateTime dt else date d
          | None => date d
          end in
        let recurringNote := if due_recurring d then " (recurring)" else EmptyString in
        push lines ["- **Due:** " ++ dueStr ++ recurringNote]
    | None => lines
    end in
  let lines :=
    if Nat.ltb 0 (List.length (labels task))
    then push lines ["- **Labels:** " ++ join ", " (labels task)]
    else lines in
  let lines :=
    if truthy (description task) && truthy (trim (description task))
    then push (push lines [EmptyString]) [blockquote (description task)]
    else lines in
  let lines := push lines [EmptyString] in
  let lines := push lines ["---"] in
  let lines := push lines [EmptyString] in
  join nl lines.

Definition formatTaskAsMarkdown (task : TodoistTask) (eventName : string) : string :=
  let lines : list string := [] in
  if String.eqb eventName "item:added" then
    let lines := push lines ["### New Task Added"] in
    let lines := push lines [EmptyString] in
    let lines := push lines ["**" ++ content task ++ "**"] in
    push_metadata task lines
  else if String.eqb eventName "item:completed" then
    let lines := push lines ["### Task Completed"] in
    let lines := push lines [EmptyString] in
    let lines := push lines ["~~" ++ content task ++ "~~"] in
    let lines :=
      match completed_at task with
      | Some c =>
          if truthy c
          then push (push lines [EmptyString])
                    ["- **Completed:** " ++ formatDateTime c]
          else lines
      | None => lines
      end in
    join nl lines ++ nl ++ nl ++ "---" ++ nl
  else if String.eqb eventName "item:updated" then
    let lines := push lines ["### Task Updated"] in
    let lines := push lines [EmptyString] in
    let lines := push lines ["**" ++ content task ++ "**"] in
    push_metadata task lines
  else if String.eqb eventName "item:uncompleted" then
    let lines := push lines ["### Task Reopened"] in
    let lines := push lines [EmptyString] in
    let lines := push lines ["**" ++ content task ++ "**"] in
    push_metadata task lines
  else if String.eqb eventName "item:deleted" then
    let lines := push lines ["### Task Deleted"] in
    let lines := push lines [EmptyString] in
    let lines := push lines ["~~" ++ content task ++ "~~"] in
    join nl lines ++ nl ++ nl ++ "---" ++ nl
  else
    let lines := push lines ["### Task Event: " ++ eventName] in
    let lines := push lines [EmptyString] in
    let lines := push lines ["**" ++ content task ++ "**"] in
    push_metadata task lines.

(** ** api/webhook.ts, Edge runtime: [getPriorityLabel] on a number and
    [formatTaskMarkdown] *)

Definition edge_getPriorityLabel (p : Z) : string :=
  if (p =? 4)%Z then "Urgent"
  else if (p =? 3)%Z then "High"
  else if (p =? 2)%Z then "Medium"
  else "Normal".

Definition formatTaskMarkdown (task : TodoistTask) (eventName : string)
  : result string :=
  let lines : list string := [] in
  lines <-
    (if String.eqb eventName "item:completed" then
       let lines :=
         push lines ["### Task Completed"; EmptyString; "~~" ++ content task ++ "~~"] in
       match completed_at task with
       | Some c =>
           if truthy c
           then d <- new_Date rt c ;;
                text <- toLocaleString (render_default rt) d ;;
                Ok (push lines [EmptyString; "- **Completed:** " ++ text])
           else Ok lines
       | None => Ok lines
       end
     else if String.eqb eventName "item:added" then
       Ok (push lines ["### New Task Added"; EmptyString; "**" ++ content task ++ "**"])
     else if String.eqb eventName "item:updated" then
       Ok (push lines ["### Task Updated"; EmptyString; "**" ++ content task ++ "**"])
     else
       Ok (push lines ["### Task Event: " ++ eventName; EmptyString;
                       "**" ++ content task ++ "**"])) ;;
  let lines :=
    if negb (String.eqb eventName "item:completed") then
      let lines :=
        if (priority_number (priority task) >? 1)%Z
        then push lines ["- **Priority:** "
                           ++ edge_getPriorityLabel (priority_number (priority task))]
        else lines in
      let lines :=
        match due task with
        | Some d =>
            let dueStr :=
              match datetime d with
              | Some dt => if truthy dt then dt else date d
              | None => date d
              end in
            push lines ["- **Due:** " ++ dueStr
                          ++ (if due_recurring d then " (recurring)" else EmptyString)]
        | None => lines
        end in
      let lines :=
        if Nat.ltb 0 (List.length (labels task))
        then push lines ["- **Labels:** " ++ join ", " (labels task)]
        else lines in
      if truthy (trim (description task))
      then push lines [EmptyString; blockquote (description task)]
      else lines
    else lines in
  let lines := push lines [EmptyString; "---"; EmptyString] in
  Ok (join nl lines).

End Formatter.

(** ** JSON values

    A number is kept as the decimal value [mantissa * 10 ^ exponent] of its
    literal, in normal form (the mantissa has no trailing zero); rounding to
    a double is not modelled, so the model is exact on literals of at most
    fifteen significant digits.  An object is its list of own properties in
    enumeration order. *)

Record number : Type := mkNumber { mantissa : Z; exponent : Z }.

Inductive json : Type :=
| JNull
| JBool (b : bool)
| JNumber (n : number)
| JString (s : string)
| JArray (items : list json)
| JObject (fields : list (string * json)).

Fixpoint normalise_fuel (fuel : nat) (m e : Z) : number :=
  match fuel with
  | O => mkNumber m e
  | S fuel' =>
      if (m =? 0)%Z then mkNumber 0 0
      else if (m mod 10 =? 0)%Z then normalise_fuel fuel' (m / 10) (e + 1)
      else mkNumber m e
  end.

Definition normalise (m e : Z) : number :=
  normalise_fuel (S (Z.to_nat (Z.log2 (Z.abs m)))) m e.

Fixpoint zeros (n : nat) : string :=
  match n with
  | O => EmptyString
  | S n' => String "0" (zeros n')
  end.

(** [Number::toString] in radix 10 (ECMA-262, 6.1.6.1.20) on the decimal
    digits of the value. *)
Definition number_toString (x : number) : string :=
  let m := Z.abs (mantissa x) in
  if (m =? 0)%Z then "0"
  else
    let sign := if (mantissa x <? 0)%Z then "-" else EmptyString in
    let digits := string_of_nonneg m in
    let k := Z.of_nat (String.length digits) in
    let n := (k + exponent x)%Z in
    sign ++
    (if ((k <=? n) && (n <=? 21))%Z then digits ++ zeros (Z.to_nat (n - k))
     else if ((0 <? n) && (n <=? 21))%Z then
       substring 0 (Z.to_nat n) digits ++ "."
         ++ substring (Z.to_nat n) (Z.to_nat (k - n)) digits
     else if ((-6 <? n) && (n <=? 0))%Z then
       "0." ++ zeros (Z.to_nat (- n)) ++ digits
     else
       let e := (n - 1)%Z in
       let exp_sign := if (e <? 0)%Z then "-" else "+" in
       (if (k =? 1)%Z then digits
        else substring 0 1 digits ++ "."
               ++ substring 1 (Z.to_nat (k - 1)) digits)
         ++ "e" ++ exp_sign ++ string_of_nonneg (Z.abs e)).

(** [QuoteJSONString]. *)
Definition dq : string := String (ascii_of_nat 34) EmptyString.
Definition bs : string := String (ascii_of_nat 92) EmptyString.

Definition quote_char (c : ascii) : string :=
  let n := byte_of_ascii c in
  if (n =? 34)%Z then bs ++ dq
  else if (n =? 92)%Z then bs ++ bs
  else if (n =? 8)%Z then bs ++ "b"
  else if (n =? 12)%Z then bs ++ "f"
  else if (n =? 10)%Z then bs ++ "n"
  else if (n =? 13)%Z then bs ++ "r"
  else if (n =? 9)%Z then bs ++ "t"
  else if (n <? 32)%Z then
    bs ++ "u00" ++ String (hex_digit (n / 16)) (String (hex_digit (n mod 16)) EmptyString)
  else String c EmptyString.

Fixpoint quote_body (s : string) : string :=
  match s with
  | EmptyString => EmptyString
  | String c r => quote_char c ++ quote_body r
  end.

Definition quote (s : string) : string := dq ++ quote_body s ++ dq.

(** [JSON.stringify] on a JSON value. *)
Fixpoint JSON_stringify (j : json) : string :=
  match j with
  | JNull => "null"
  | JBool true => "true"
  | JBool false => "false"
  | JNumber n => number_toString n
  | JString s => quote s
  | JArray items => "[" ++ join "," (map JSON_stringify items) ++ "]"
  | JObject fields =>
      "{" ++ join "," (map (fun kv => quote (fst kv) ++ ":" ++ JSON_stringify (snd kv))
                           fields) ++ "}"
  end.

(** Property lookup [o.k] on a parsed value: [undefined] on anything but an
    object that has the property. *)
Fixpoint assoc (k : string) (fields : list (string * json)) : option json :=
  match fields with
  | [] => None
  | (k', v) :: r => if String.eqb k k' then Some v else assoc k r
  end.

Definition get_property (j : json) (k : string) : option json :=
  match j with
  | JObject fields => assoc k fields
  | _ => None
  end.

(** An object literal whose property values may be [undefined]:
    [JSON.stringify] leaves those properties out. *)
Fixpoint defined_properties (l : list (string * option json)) : list (string * json) :=
  match l with
  | [] => []
  | (k, Some v) :: r => (k, v) :: defined_properties r
  | (_, None) :: r => defined_properties r
  end.

Definition object_literal (props : list (string * option json)) : json :=
  JObject (defined_properties props).

(** ** A JSON reader

    [JSON_parse] follows the JSON grammar (ECMA-404).  Own properties are
    created in source order, a repeated key overwrites the earlier value in
    place, and keys that are array indices enumerate first, in ascending
    order, as in a JavaScript object.  An escaped lone surrogate is read as
    U+FFFD, the character its UTF-8 encoding would carry. *)

Module Reader.

Definition is_digit (c : ascii) : bool := in_range "0" "9" c.

Definition is_json_space (c : ascii) : bool :=
  let n := byte_of_ascii c in
  ((n =? 32) || (n =? 9) || (n =? 10) || (n =? 13))%Z.

Fixpoint skip_ws (s : string) : string :=
  match s with
  | String c r => if is_json_space c then skip_ws r else s
  | EmptyString => s
  end.

Fixpoint span_digits (s : string) : string * string :=
  match s with
  | String c r =>
      if is_digit c then let '(d, rest) := span_digits r in (String c d, rest)
      else (EmptyString, s)
  | EmptyString => (EmptyString, s)
  end.

Fixpoint Z_of_digits (acc : Z) (s : string) : Z :=
  match s with
  | String c r => Z_of_digits (acc * 10 + (byte_of_ascii c - 48)) r
  | EmptyString => acc
  end.

(** number = [-] int [frac] [exp]; int has no leading zero. *)
Definition read_number (s : string) : option (number * string) :=
  let '(negative, s1) :=
    match s with
    | String "-" r => (true, r)
    | _ => (false, s)
    end in
  let '(int, s2) := span_digits s1 in
  match int with
  | EmptyString => None
  | String d more =>
      if Ascii.eqb d "0" && truthy more then None
      else
        let frac_part :=
          match s2 with
          | String "." r =>
              let '(frac, s3) := span_digits r in
              if truthy frac then Some (frac, s3) else None
          | _ => Some (EmptyString, s2)
          end in
        match frac_part with
        | None => None
        | Some (frac, s3) =>
            let exp_part :=
              match s3 with
              | String c r =>
                  if Ascii.eqb c "e" || Ascii.eqb c "E" then
                    let '(exp_negative, r1) :=
                      match r with
                      | String "-" r' => (true, r')
                      | String "+" r' => (false, r')
                      | _ => (false, r)
                      end in
                    let '(digits, s4) := span_digits r1 in
                    if truthy digits
                    then Some ((if exp_negative then -1 else 1)
                               * Z_of_digits 0 digits, s4)%Z
                    else None
                  else Some (0%Z, s3)
              | EmptyString => Some (0%Z, s3)
              end in
            match exp_part with
            | None => None
            | Some (e, s4) =>
                let m := Z_of_digits 0 (int ++ frac) in
                Some (normalise (if negative then - m else m)
                                (e - Z.of_nat (String.length frac)), s4)
            end
        end
  end.

Definition hex_value (c : ascii) : option Z :=
  let n := byte_of_ascii c in
  if in_range "0" "9" c then Some (n - 48)
  else if in_range "a" "f" c then Some (n - 87)
  else if in_range "A" "F" c then Some (n - 55)
  else None.

(** The characters of a string literal: bytes copied from the text, or
    UTF-16 code units written as [\uXXXX]. *)
Inductive item : Type :=
| Byte (b : Z)
| Unit (u : Z).

Fixpoint read_items (s : string) : option (list item * string) :=
  match s with
  | EmptyString => None
  | String c r =>
      let n := byte_of_ascii c in
      if (n =? 34)%Z then Some ([], r)
      else if (n <? 32)%Z then None
      else if (n =? 92)%Z then
        match r with
        | String e r1 =>
            let simple (b : Z) :=
              match read_items r1 with
              | Some (l, rest) => Some (Byte b :: l, rest)
              | None => None
              end in
            let en := byte_of_ascii e in
            if (en =? 34)%Z then simple 34
            else if (en =? 92)%Z then simple 92
            else if Ascii.eqb e "/" then simple 47
            else if Ascii.eqb e "b" then simple 8
            else if Ascii.eqb e "f" then simple 12
            else if Ascii.eqb e "n" then simple 10
            else if Ascii.eqb e "r" then simple 13
            else if Ascii.eqb e "t" then simple 9
            else if Ascii.eqb e "u" then
              match r1 with
              | String h1 (String h2 (String h3 (String h4 r2))) =>
                  match hex_value h1, hex_value h2, hex_value h3, hex_value h4 with
                  | Some a, Some b, Some c', Some d =>
                      match read_items r2 with
                      | Some (l, rest) =>
                          Some (Unit (a * 4096 + b * 256 + c' * 16 + d) :: l, rest)
                      | None => None
                      end
                  | _, _, _, _ => None
                  end
              | _ => None
              end
            else None
        | EmptyString => None
        end
      else
        match read_items r with
        | Some (l, rest) => Some (Byte n :: l, rest)
        | None => None
        end
  end.

Definition utf8 (cp : Z) : list Z :=
  if (cp <? 0x80)%Z then [cp]
  else if (cp <? 0x800)%Z then [0xC0 + cp / 64; 0x80 + cp mod 64]
  else if (cp <? 0x10000)%Z then
    [0xE0 + cp / 4096; 0x80 + (cp / 64) mod 64; 0x80 + cp mod 64]
  else
    [0xF0 + cp / 262144; 0x80 + (cp / 4096) mod 64;
     0x80 + (cp / 64) mod 64; 0x80 + cp mod 64].

Definition is_high (u : Z) : bool := ((0xD800 <=? u) && (u <=? 0xDBFF))%Z.
Definition is_low (u : Z) : bool := ((0xDC00 <=? u) && (u <=? 0xDFFF))%Z.

Fixpoint encode_items (l : list item) : list Z :=
  match l with
  | [] => []
  | Byte b :: r => b :: encode_items r
  | Unit hi :: r =>
      match r with
      | Unit lo :: r' =>
          if is_high hi && is_low lo
          then (utf8 (0x10000 + (hi - 0xD800) * 1024 + (lo - 0xDC00))
                  ++ encode_items r')%list
          else ((if is_high hi || is_low hi then utf8 0xFFFD else utf8 hi)
                  ++ encode_items r)%list
      | _ =>
          ((if is_high hi || is_low hi then utf8 0xFFFD else utf8 hi)
             ++ encode_items r)%list
      end
  end.

(** After the opening quote. *)
Definition read_string (s : string) : option (string * string) :=
  match read_items s with
  | Some (l, rest) => Some (string_of_bytes (encode_items l), rest)
  | None => None
  end.

(** Canonical numeric strings below 2^32 - 1 are array indices. *)
Definition array_index (k : string) : option Z :=
  match k with
  | EmptyString => None
  | String d more =>
      let '(digits, rest) := span_digits k in
      if truthy rest then None
      else if Ascii.eqb d "0" && truthy more then None
      else
        let v := Z_of_digits 0 digits in
        if (v <? 4294967295)%Z then Some v else None
  end.

Fixpoint replace_value (k : string) (v : json) (fields : list (string * json))
  : option (list (string * json)) :=
  match fields with
  | [] => None
  | (k', v') :: r =>
      if String.eqb k k' then Some ((k, v) :: r)
      else match replace_value k v r with
           | Some r' => Some ((k', v') :: r')
           | None => None
           end
  end.

Fixpoint insert_index (i : Z) (k : string) (v : json) (fields : list (string * json))
  : list (string * json) :=
  match fields with
  | [] => [(k, v)]
  | (k', v') :: r =>
      match array_index k' with
      | Some i' => if (i' <? i)%Z then (k', v') :: insert_index i k v r
                   else (k, v) :: fields
      | None => (k, v) :: fields
      end
  end.

Definition define_property (fields : list (string * json)) (k : string) (v : json)
  : list (string * json) :=
  match replace_value k v fields with
  | Some fields' => fields'
  | None =>
      match array_index k with
      | Some i => insert_index i k v fields
      | None => (fields ++ [(k, v)])%list
      end
  end.

Fixpoint read_value (fuel : nat) (s : string) : option (json * string) :=
  match fuel with
  | O => None
  | S fuel' =>
      match skip_ws s with
      | EmptyString => None
      | String c r =>
          if Ascii.eqb c "[" then
            match skip_ws r with
            | String "]" r' => Some (JArray [], r')
            | _ => read_elements fuel' r []
            end
          else if Ascii.eqb c "{" then
            match skip_ws r with
            | String "}" r' => Some (JObject [], r')
            | _ => read_members fuel' r []
            end
          else if (byte_of_ascii c =? 34)%Z then
            match read_string r with
            | Some (str, rest) => Some (JString str, rest)
            | None => None
            end
          else if Ascii.eqb c "-" || is_digit c then
            match read_number (String c r) with
            | Some (n, rest) => Some (JNumber n, rest)
            | None => None
            end
          else
            match strip_prefix "null" (String c r) with
            | Some rest => Some (JNull, rest)
            | None =>
                match strip_prefix "true" (String c r) with
                | Some rest => Some (JBool true, rest)
                | None =>
                    match strip_prefix "false" (String c r) with
                    | Some rest => Some (JBool false, rest)
                    | None => None
                    end
                end
            end
      end
  end

with read_elements (fuel : nat) (s : string) (acc : list json)
  : option (json * string) :=
  match fuel with
  | O => None
  | S fuel' =>
      match read_value fuel' s with
      | Some (v, rest) =>
          match skip_ws rest with
          | String "," r => read_elements fuel' r (v :: acc)
          | String "]" r => Some (JArray (rev (v :: acc)), r)
          | _ => None
          end
      | None => None
      end
  end

with read_members (fuel : nat) (s : string) (acc : list (string * json))
  : option (json * string) :=
  match fuel with
  | O => None
  | S fuel' =>
      match skip_ws s with
      | String c r =>
          if (byte_of_ascii c =? 34)%Z then
            match read_string r with
            | Some (k, rest) =>
                match skip_ws rest with
                | String ":" r1 =>
                    match read_value fuel' r1 with
                    | Some (v, rest') =>
                        match skip_ws rest' with
                        | String "," r2 => read_members fuel' r2 (define_property acc k v)
                        | String "}" r2 => Some (JObject (define_property acc k v), r2)
                        | _ => None
                        end
                    | None => None
                    end
                | _ => None
                end
            | None => None
            end
          else None
      | EmptyString => None
      end
  end.

Definition JSON_parse (text : string) : result json :=
  match read_value (2 * String.length text + 2) text with
  | Some (v, rest) =>
      match skip_ws rest with
      | EmptyString => Ok v
      | String _ _ => Throw (SyntaxError "Unexpected non-whitespace character after JSON")
      end
  | None => Throw (SyntaxError "Unexpected token in JSON")
  end.

(** Writes a JSON text with apostrophes for the quotation marks. *)
Fixpoint q (s : string) : string :=
  match s with
  | EmptyString => EmptyString
  | String c r => String (if Ascii.eqb c "'" then ascii_of_nat 34 else c) (q r)
  end.

End Reader.

(** ** The host

    What the program asks of its environment: the JSON reader, the date
    engine and the network.  [fetch] resolves with a response or rejects;
    reading the text of a response may fail as well. *)

Record fetch_request : Type := mkRequest {
  url : string;
  http_method : string;
  request_headers : list (string * string);
  request_body : string
}.

Record fetch_response : Type := mkResponse {
  response_status : Z;
  response_text : result string
}.

(** [Response.ok]: the status is in 200..299. *)
Definition response_ok (r : fetch_response) : bool :=
  ((200 <=? response_status r) && (response_status r <=? 299))%Z.

Record Runtime : Type := mkRuntime {
  dates : DateRuntime;
  JSON_parse : string -> result json;
  fetch : fetch_request -> result fetch_response
}.

(** ** lib/capacities.ts: [saveToDailyNote]

    The function returns or throws, and leaves the list of the requests it
    sent. *)

Definition CAPACITIES_API_URL : string := "https://api.capacities.io/save-to-daily-note".

Definition saveToDailyNote_body (mdText spaceId : string) : json :=
  JObject [("spaceId", JString spaceId); ("mdText", JString mdText);
           ("noTimeStamp", JBool false)].

Definition saveToDailyNote (rt : Runtime) (mdText apiToken spaceId : string)
  : result unit * list fetch_request :=
  let body := saveToDailyNote_body mdText spaceId in
  let request :=
    mkRequest CAPACITIES_API_URL "POST"
      [("Content-Type", "application/json"); ("Authorization", "Bearer " ++ apiToken)]
      (JSON_stringify body) in
  (response <- fetch rt request ;;
   if negb (response_ok response) then
     errorText <- response_text response ;;
     Throw (Error ("Capacities API error " ++ string_of_Z (response_status response)
                     ++ ": " ++ errorText))
   else Ok tt,
   [request]).

(** ** Reading a parsed payload at the declared types

    [JSON.parse(body) as TodoistWebhookPayload] is an unchecked assertion.
    [as_TodoistTask] reads a parsed [event_data] at the interface
    [TodoistTask]; [null] counts as an absent optional property, and an
    absent or [null] [description] or [labels] as the empty one (the code
    only tests them for truthiness).  Properties no code path reads take a
    default when missing.  A value that has no reading is outside the
    declared types. *)

Definition optional_string (o : option json) : option (option string) :=
  match o with
  | None | Some JNull => Some None
  | Some (JString s) => Some (Some s)
  | Some _ => None
  end.

Definition optional_bool (o : option json) : option (option bool) :=
  match o with
  | None | Some JNull => Some None
  | Some (JBool b) => Some (Some b)
  | Some _ => None
  end.

Definition unread_string (o : option json) : string :=
  match o with
  | Some (JString s) => s
  | _ => EmptyString
  end.

Definition unread_optional_string (o : option json) : option string :=
  match o with
  | Some (JString s) => Some s
  | _ => None
  end.

Definition as_priority (o : option json) : option TodoistPriority :=
  match o with
  | Some (JNumber (mkNumber 1 0)) => Some P1
  | Some (JNumber (mkNumber 2 0)) => Some P2
  | Some (JNumber (mkNumber 3 0)) => Some P3
  | Some (JNumber (mkNumber 4 0)) => Some P4
  | _ => None
  end.

Fixpoint as_strings (l : list json) : option (list string) :=
  match l with
  | [] => Some []
  | JString s :: r =>
      match as_strings r with
      | Some r' => Some (s :: r')
      | None => None
      end
  | _ :: _ => None
  end.

Definition as_labels (o : option json) : option (list string) :=
  match o with
  | None | Some JNull => Some []
  | Some (JArray l) => as_strings l
  | Some _ => None
  end.

Definition as_TodoistDue (j : json) : option TodoistDue :=
  match get_property j "date",
        optional_string (get_property j "datetime"),
        optional_bool (get_property j "is_recurring") with
  | Some (JString d), Some dt, Some rec =>
      Some (mkDue d (unread_optional_string (get_property j "timezone"))
                  (unread_optional_string (get_property j "string"))
                  (unread_optional_string (get_property j "lang")) rec dt)
  | _, _, _ => None
  end.

Definition as_due (o : option json) : option (option TodoistDue) :=
  match o with
  | None | Some JNull => Some None
  | Some (JObject f) =>
      match as_TodoistDue (JObject f) with
      | Some d => Some (Some d)
      | None => None
      end
  | Some _ => None
  end.

Definition as_description (o : option json) : option string :=
  match o with
  | None | Some JNull => Some EmptyString
  | Some (JString s) => Some s
  | Some _ => None
  end.

Definition as_TodoistTask (j : json) : option TodoistTask :=
  match j with
  | JObject _ =>
      match get_property j "content",
            as_description (get_property j "description"),
            as_priority (get_property j "priority"),
            as_due (get_property j "due"),
            as_labels (get_property j "labels"),
            optional_string (get_property j "completed_at") with
      | Some (JString c), Some desc, Some p, Some d, Some ls, Some done =>
          Some (mkTask (unread_string (get_property j "id")) c desc
                       (unread_string (get_property j "project_id"))
                       (unread_optional_string (get_property j "section_id"))
                       (unread_optional_string (get_property j "parent_id"))
                       p d ls
                       (match get_property j "checked" with
                        | Some (JBool b) => b
                        | _ => false
                        end)
                       (match get_property j "is_deleted" with
                        | Some (JBool b) => Some b
                        | _ => None
                        end)
                       (unread_optional_string (get_property j "added_at"))
                       done
                       (unread_optional_string (get_property j "user_id")))
      | _, _, _, _, _, _ => None
      end
  | _ => None
  end.

(** ** api/webhook.ts: requests, responses, configuration *)

Inductive chunk : Type :=
| ChunkString (s : string)
| ChunkBuffer (b : list Z).

(** [req.body] as the host exposes it: not set, a [Buffer], or a
    JavaScript value (a string, or what a body parser produced). *)
Inductive request_body_value : Type :=
| BodyUndefined
| BodyBuffer (b : list Z)
| BodyValue (j : json).

Record VercelRequest : Type := mkVercelRequest {
  req_method : string;
  req_headers : headers;
  req_body : request_body_value;
  req_stream : list chunk
}.

(** The Edge [Request]: [headers.get] and the body text. *)
Record EdgeRequest : Type := mkEdgeRequest {
  edge_method : string;
  edge_url : string;
  edge_headers_get : string -> option string;
  edge_text : string
}.

Record response : Type := mkHttpResponse {
  status : Z;
  body : string
}.

Record process_env : Type := mkEnv {
  TODOIST_CLIENT_SECRET : option string;
  CAPACITIES_API_TOKEN : option string;
  CAPACITIES_SPACE_ID : option string
}.

(** How one invocation ends: a response was sent, an exception escaped the
    handler, or the payload has no reading at the declared types.  In the
    last case the run is followed no further: the code goes on with the
    untyped value (it may still format and forward it, or throw), and
    [calls] holds what was sent up to that point. *)
Inductive outcome : Type :=
| Responded (r : response)
| Uncaught (e : error)
| OutsideTypes.

Record run : Type := mkRun {
  ending : outcome;
  calls : list fetch_request
}.

Definition SUPPORTED_EVENTS : list string :=
  ["item:added"; "item:updated"; "item:completed"; "item:uncompleted"; "item:deleted"].

(** [SUPPORTED_EVENTS.has(v)]: only a string can be a member. *)
Definition SUPPORTED_EVENTS_has (v : option json) : bool :=
  match v with
  | Some (JString name) => existsb (String.eqb name) SUPPORTED_EVENTS
  | _ => false
  end.

(** [!v] on a configuration variable. *)
Definition configured (v : option string) : option string :=
  match v with
  | Some s => if truthy s then Some s else None
  | None => None
  end.

Fixpoint Buffer_concat (chunks : list chunk) : list Z :=
  match chunks with
  | [] => []
  | ChunkString s :: r => (bytes_of_string s ++ Buffer_concat r)%list
  | ChunkBuffer b :: r => (b ++ Buffer_concat r)%list
  end.

(** ** api/webhook.ts, Node runtime *)

Definition getRawBody (req : VercelRequest) : string :=
  match req_body req with
  | BodyValue (JString s) => s
  | BodyBuffer b => toString_utf8 b
  | BodyValue (JObject f) => JSON_stringify (JObject f)
  | BodyValue (JArray l) => JSON_stringify (JArray l)
  | _ => toString_utf8 (Buffer_concat (req_stream req))
  end.

(** [res.status(code).json(obj)]. *)
Definition json_response (code : Z) (obj : json) : outcome :=
  Responded (mkHttpResponse code (JSON_stringify obj)).

Definition destructure_error : error :=
  TypeError "Cannot destructure property 'event_name' of 'payload' as it is null.".

Definition handler (rt : Runtime) (env : process_env) (req : VercelRequest) : run :=
  if negb (String.eqb (req_method req) "POST") then
    mkRun (json_response 405 (JObject [("error", JString "Method not allowed")])) []
  else
    match configured (TODOIST_CLIENT_SECRET env),
          configured (CAPACITIES_API_TOKEN env),
          configured (CAPACITIES_SPACE_ID env) with
    | Some clientSecret, Some capacitiesToken, Some spaceId =>
        let rawBody := getRawBody req in
        let signature := getSignatureFromHeaders (req_headers req) in
        if negb (verifyTodoistSignature rawBody signature clientSecret) then
          mkRun (json_response 401 (JObject [("error", JString "Invalid signature")])) []
        else
          match JSON_parse rt rawBody with
          | Throw _ =>
              mkRun (json_response 400 (JObject [("error", JString "Invalid payload")])) []
          | Ok JNull => mkRun (Uncaught destructure_error) []
          | Ok payload =>
              let event_name := get_property payload "event_name" in
              let event_data := get_property payload "event_data" in
              if negb (SUPPORTED_EVENTS_has event_name) then
                mkRun (json_response 200
                         (object_literal [("status", Some (JString "ignored"));
                                          ("event", event_name)])) []
              else
                match event_name, event_data with
                | Some (JString name), Some data =>
                    match as_TodoistTask data with
                    | Some task =>
                        let markdown := formatTaskAsMarkdown (dates rt) task name in
                        let '(saved, sent) :=
                          saveToDailyNote rt markdown capacitiesToken spaceId in
                        match saved with
                        | Ok _ =>
                            mkRun (json_response 200
                                     (JObject [("status", JString "ok");
                                               ("event", JString name)])) sent
                        | Throw _ =>
                            mkRun (json_response 500
                                     (JObject [("error",
                                                JString "Failed to save to Capacities")]))
                                  sent
                        end
                    | None => mkRun OutsideTypes []
                    end
                | _, _ => mkRun OutsideTypes []
                end
          end
    | _, _, _ =>
        mkRun (json_response 500 (JObject [("error", JString "Server configuration error")])) []
    end.

(** ** api/webhook.ts, Edge runtime *)

(** [new Response(JSON.stringify(obj), { status: code })]. *)
Definition new_Response (obj : json) (code : Z) : outcome :=
  Responded (mkHttpResponse code (JSON_stringify obj)).

Definition edge_handler (rt : Runtime) (env : process_env) (request : EdgeRequest) : run :=
  if negb (String.eqb (edge_method request) "POST") then
    mkRun (new_Response (JObject [("error", JString "Method not allowed")]) 405) []
  else
    match configured (TODOIST_CLIENT_SECRET env),
          configured (CAPACITIES_API_TOKEN env),
          configured (CAPACITIES_SPACE_ID env) with
    | Some clientSecret, Some capacitiesToken, Some spaceId =>
        let rawBody := edge_text request in
        let signature := edge_headers_get request "x-todoist-hmac-sha256" in
        (* the result is logged; the test on it is commented out *)
        let isValidSig := verifySignature rawBody signature clientSecret in
        match JSON_parse rt rawBody with
        | Throw _ => mkRun (new_Response (JObject [("error", JString "Invalid JSON")]) 400) []
        | Ok JNull => mkRun (Uncaught destructure_error) []
        | Ok payload =>
            let event_name := get_property payload "event_name" in
            let event_data := get_property payload "event_data" in
            if negb (SUPPORTED_EVENTS_has event_name) then
              mkRun (new_Response
                       (object_literal [("status", Some (JString "ignored"));
                                        ("event", event_name)]) 200) []
            else
              match event_name, event_data with
              | Some (JString name), Some data =>
                  match as_TodoistTask data with
                  | Some task =>
                      match formatTaskMarkdown (dates rt) task name with
                      | Throw e => mkRun (Uncaught e) []
                      | Ok markdown =>
                          let sent :=
                            mkRequest "https://api.capacities.io/save-to-daily-note" "POST"
                              [("Content-Type", "application/json");
                               ("Authorization", "Bearer " ++ capacitiesToken)]
                              (JSON_stringify
                                 (JObject [("spaceId", JString spaceId);
                                           ("mdText", JString markdown)])) in
                          match (res <- fetch rt sent ;;
                                 responseText <- response_text res ;;
                                 Ok (res, responseText)) with
                          | Ok (res, responseText) =>
                              if negb (response_ok res) then
                                mkRun (new_Response
                                         (JObject [("error", JString "Capacities API error");
                                                   ("details", JString responseText)]) 500)
                                      [sent]
                              else
                                mkRun (new_Response
                                         (JObject [("status", JString "ok");
                                                   ("event", JString name)]) 200) [sent]
                          | Throw _ =>
                              mkRun (new_Response
                                       (JObject [("error", JString "Failed to save")]) 500)
                                    [sent]
                          end
                      end
                  | None => mkRun OutsideTypes []
                  end
              | _, _ => mkRun OutsideTypes []
              end
        end
    | _, _, _ =>
        mkRun (new_Response (JObject [("error", JString "Server config error")]) 500) []
    end.

(** ** How the host hands the received bytes to the Node handler

    The bytes on the wire reach [req.body] as the string they decode to, as
    a [Buffer], as the object or array a body parser made of their text, or
    stay unread in the stream. *)
Inductive delivered (rt : Runtime) (wire : list Z) : VercelRequest -> Prop :=
| delivered_text (req : VercelRequest) :
    req_body req = BodyValue (JString (toString_utf8 wire)) -> delivered rt wire req
| delivered_buffer (req : VercelRequest) :
    req_body req = BodyBuffer wire -> delivered rt wire req
| delivered_stream (req : VercelRequest) :
    req_body req = BodyUndefined ->
    Buffer_concat (req_stream req) = wire ->
    delivered rt wire req
| delivered_parsed_object (req : VercelRequest) (f : list (string * json)) :
    JSON_parse rt (toString_utf8 wire) = Ok (JObject f) ->
    req_body req = BodyValue (JObject f) -> delivered rt wire req
| delivered_parsed_array (req : VercelRequest) (l : list json) :
    JSON_parse rt (toString_utf8 wire) = Ok (JArray l) ->
    req_body req = BodyValue (JArray l) -> delivered rt wire req.

Definition preparsed (req : VercelRequest) : bool :=
  match req_body req with
  | BodyValue (JObject _) | BodyValue (JArray _) => true
  | _ => false
  end.

(** ** A reference host

    Used to run the handlers on concrete requests.  Its date engine reads
    the forms [YYYY-MM-DD] and [YYYY-MM-DDTHH:mm:ss], the latter with an
    optional fraction and an optional [Z], in a host whose time zone is UTC,
    and takes any other string as unrecognised; it renders with the en-US
    patterns.  Its JSON reader is [Reader.JSON_parse]. *)

Module Reference.

Definition two_digits (s : string) : option (Z * string) :=
  match s with
  | String a (String b r) =>
      if Reader.is_digit a && Reader.is_digit b
      then Some ((byte_of_ascii a - 48) * 10 + (byte_of_ascii b - 48), r)%Z
      else None
  | _ => None
  end.

Definition four_digits (s : string) : option (Z * string) :=
  match two_digits s with
  | Some (hi, r) =>
      match two_digits r with
      | Some (lo, r') => Some (hi * 100 + lo, r')%Z
      | None => None
      end
  | None => None
  end.

Definition expect (c : ascii) (s : string) : option string :=
  match s with
  | String a r => if Ascii.eqb a c then Some r else None
  | EmptyString => None
  end.

Definition days_from_civil (y m d : Z) : Z :=
  let y' := if (m <=? 2)%Z then (y - 1)%Z else y in
  let era := (y' / 400)%Z in
  let yoe := (y' - era * 400)%Z in
  let doy := ((153 * (if (2 <? m) then m - 3 else m + 9) + 2) / 5 + d - 1)%Z in
  let doe := (yoe * 365 + yoe / 4 - yoe / 100 + doy)%Z in
  (era * 146097 + doe - 719468)%Z.

Definition civil_from_days (days : Z) : Z * Z * Z :=
  let z := (days + 719468)%Z in
  let era := (z / 146097)%Z in
  let doe := (z - era * 146097)%Z in
  let yoe := ((doe - doe / 1460 + doe / 36524 - doe / 146096) / 365)%Z in
  let doy := (doe - (365 * yoe + yoe / 4 - yoe / 100))%Z in
  let mp := ((5 * doy + 2) / 153)%Z in
  let d := (doy - (153 * mp + 2) / 5 + 1)%Z in
  let m := if (mp <? 10)%Z then (mp + 3)%Z else (mp - 9)%Z in
  let y := (yoe + era * 400)%Z in
  ((if (m <=? 2)%Z then y + 1 else y)%Z, m, d).

Definition milliseconds (fraction : string) : Z :=
  Reader.Z_of_digits 0 (substring 0 3 (fraction ++ "00")).

(** After [YYYY-MM-DD]: nothing, or [THH:mm:ss], a fraction, a [Z]; the
    hour is below 24, or the time is [24:00:00], the end of the day. *)
Definition time_of_day (s : string) : option Z :=
  match s with
  | EmptyString => Some 0%Z
  | String c r =>
      if Ascii.eqb c "T" then
        match two_digits r with
        | Some (h, r1) =>
            match expect ":" r1 with
            | Some r2 =>
                match two_digits r2 with
                | Some (mi, r3) =>
                    match expect ":" r3 with
                    | Some r4 =>
                        match two_digits r4 with
                        | Some (sec, r5) =>
                            let '(ms, r6) :=
                              match r5 with
                              | String "." r' =>
                                  let '(f, rest) := Reader.span_digits r' in
                                  (if truthy f then Some (milliseconds f) else None, rest)
                              | _ => (Some 0%Z, r5)
                              end in
                            match ms, r6 with
                            | Some ms, EmptyString
                            | Some ms, String "Z" EmptyString =>
                                if (((h <? 24) && (mi <? 60) && (sec <? 60))
                                    || ((h =? 24) && (mi =? 0) && (sec =? 0) && (ms =? 0)))%Z
                                then Some (((h * 60 + mi) * 60 + sec) * 1000 + ms)%Z
                                else None
                            | _, _ => None
                            end
                        | None => None
                        end
                    | None => None
                    end
                | None => None
                end
            | None => None
            end
        | None => None
        end
      else None
  end.

Definition Date_parse (s : string) : option Z :=
  match four_digits s with
  | Some (y, r1) =>
      match expect "-" r1 with
      | Some r2 =>
          match two_digits r2 with
          | Some (m, r3) =>
              match expect "-" r3 with
              | Some r4 =>
                  match two_digits r4 with
                  | Some (d, r5) =>
                      if ((1 <=? m) && (m <=? 12) && (1 <=? d) && (d <=? 31))%Z then
                        match time_of_day r5 with
                        | Some t => Some (days_from_civil y m d * 86400000 + t)%Z
                        | None => None
                        end
                      else None
                  | None => None
                  end
              | None => None
              end
          | None => None
          end
      | None => None
      end
  | None => None
  end.

Definition weekday_names : list string :=
  ["Sun"; "Mon"; "Tue"; "Wed"; "Thu"; "Fri"; "Sat"].
Definition month_names : list string :=
  ["Jan"; "Feb"; "Mar"; "Apr"; "May"; "Jun"; "Jul"; "Aug"; "Sep"; "Oct"; "Nov"; "Dec"].

Definition pad2 (n : Z) : string :=
  if (n <? 10)%Z then "0" ++ string_of_Z n else string_of_Z n.

Definition hour12 (h : Z) : Z := if (h mod 12 =? 0)%Z then 12%Z else (h mod 12)%Z.
Definition day_period (h : Z) : string := if (h <? 12)%Z then "AM" else "PM".

(** weekday, month, day, year, hour:minute, AM/PM *)
Definition render_en_US_short (t : Z) : string :=
  let days := (t / 86400000)%Z in
  let '(y, m, d) := civil_from_days days in
  let minutes := ((t mod 86400000) / 60000)%Z in
  let h := (minutes / 60)%Z in
  nth (Z.to_nat ((days + 4) mod 7)) weekday_names EmptyString ++ ", "
    ++ nth (Z.to_nat (m - 1)) month_names EmptyString ++ " " ++ string_of_Z d ++ ", "
    ++ string_of_Z y ++ ", " ++ string_of_Z (hour12 h) ++ ":" ++ pad2 (minutes mod 60)
    ++ " " ++ day_period h.

(** month/day/year, hour:minute:second AM/PM *)
Definition render_default (t : Z) : string :=
  let days := (t / 86400000)%Z in
  let '(y, m, d) := civil_from_days days in
  let seconds := ((t mod 86400000) / 1000)%Z in
  let h := (seconds / 3600)%Z in
  string_of_Z m ++ "/" ++ string_of_Z d ++ "/" ++ string_of_Z y ++ ", "
    ++ string_of_Z (hour12 h) ++ ":" ++ pad2 ((seconds / 60) mod 60) ++ ":"
    ++ pad2 (seconds mod 60) ++ " " ++ day_period h.

Definition date_engine : DateRuntime :=
  mkDateRuntime Date_parse render_en_US_short render_default.

(** A note service that answers every request with one status and text. *)
Definition answering (code : Z) (text : string) (_ : fetch_request)
  : result fetch_response :=
  Ok (mkResponse code (Ok text)).

(** A note service that cannot be reached. *)
Definition unreachable (_ : fetch_request) : result fetch_response :=
  Throw (TypeError "fetch failed").

Definition host (network : fetch_request -> result fetch_response) : Runtime :=
  mkRuntime date_engine Reader.JSON_parse network.

End Reference.

(** ** Vocabulary of the properties *)

(** Base64 as RFC 4648, section 4, writes it: groups of four characters of
    the standard alphabet, the last group padded with one or two [=]. *)
Definition standard_char (c : ascii) : bool :=
  in_range "A" "Z" c || in_range "a" "z" c || in_range "0" "9" c
  || Ascii.eqb c "+" || Ascii.eqb c "/".

Fixpoint valid_base64 (s : string) : bool :=
  match s with
  | EmptyString => true
  | String a (String b (String c (String d r))) =>
      standard_char a && standard_char b
      && (match r with
          | EmptyString =>
              (standard_char c && (standard_char d || Ascii.eqb d "="))
              || (Ascii.eqb c "=" && Ascii.eqb d "=")
          | String _ _ => standard_char c && standard_char d && valid_base64 r
          end)
  | _ => false
  end.

(** Well-formed UTF-8, as the Unicode Standard tabulates it (table 3-7):
    00..7F | C2..DF 80..BF | E0 A0..BF 80..BF | E1..EC 80..BF 80..BF
    | ED 80..9F 80..BF | EE..EF 80..BF 80..BF | F0 90..BF 80..BF 80..BF
    | F1..F3 80..BF 80..BF 80..BF | F4 80..8F 80..BF 80..BF. *)
Fixpoint well_formed_utf8 (l : list Z) : bool :=
  match l with
  | [] => true
  | b0 :: r0 =>
      if between 0x00 0x7F b0 then well_formed_utf8 r0
      else
        match r0 with
        | [] => false
        | b1 :: r1 =>
            if between 0xC2 0xDF b0 then between 0x80 0xBF b1 && well_formed_utf8 r1
            else
              match r1 with
              | [] => false
              | b2 :: r2 =>
                  if between 0xE0 0xEF b0 then
                    ((b0 =? 0xE0)%Z && between 0xA0 0xBF b1
                     || between 0xE1 0xEC b0 && between 0x80 0xBF b1
                     || (b0 =? 0xED)%Z && between 0x80 0x9F b1
                     || between 0xEE 0xEF b0 && between 0x80 0xBF b1)
                    && between 0x80 0xBF b2 && well_formed_utf8 r2
                  else
                    match r2 with
                    | [] => false
                    | b3 :: r3 =>
                        ((b0 =? 0xF0)%Z && between 0x90 0xBF b1
                         || between 0xF1 0xF3 b0 && between 0x80 0xBF b1
                         || (b0 =? 0xF4)%Z && between 0x80 0x8F b1)
                        && between 0x80 0xBF b2 && between 0x80 0xBF b3
                        && well_formed_utf8 r3
                    end
              end
        end
  end.

(** The digest [verify] expects: HMAC-SHA256 of the body under the secret. *)
Definition expected_digest (clientSecret rawBody : string) : list Z :=
  SHA256.hmac (bytes_of_string clientSecret) (bytes_of_string rawBody).

(** The lines of a completed block: heading, blank line, struck title and,
    when [completed_at] is truthy, a blank line and the completion time as
    [text] renders it. *)
Definition completed_lines (task : TodoistTask) (text : string -> string) : list string :=
  push ["### Task Completed"; EmptyString; "~~" ++ content task ++ "~~"]
       match completed_at task with
       | Some c => if truthy c then [EmptyString; "- **Completed:** " ++ text c] else []
       | None => []
       end.

(** [new Date(c).toLocaleString()]. *)
Definition default_date_text (rt : DateRuntime) (c : string) : string :=
  match Date_parse rt c with
  | Some t => render_default rt t
  | None => "Invalid Date"
  end.

(** The request [saveToDailyNote] sends. *)
Definition saveToDailyNote_request (mdText apiToken spaceId : string) : fetch_request :=
  mkRequest CAPACITIES_API_URL "POST"
    [("Content-Type", "application/json"); ("Authorization", "Bearer " ++ apiToken)]
    (JSON_stringify (saveToDailyNote_body mdText spaceId)).

(** The responses of the handlers to a request that fails verification and
    to an event kind outside the supported set. *)
Definition unauthorized : run :=
  mkRun (Responded (mkHttpResponse 401
                      (JSON_stringify (JObject [("error", JString "Invalid signature")]))))
        [].

Definition ignored (name : string) : run :=
  mkRun (Responded (mkHttpResponse 200
                      (JSON_stringify (JObject [("status", JString "ignored");
                                                ("event", JString name)]))))
        [].

(** The end of a block: a blank line, the separator, a blank line. *)
Definition terminator : string := nl ++ nl ++ "---" ++ nl.

(** The string [s] with bit [bit] of its character at [pos] inverted. *)
Definition flip_ascii (bit : N) (c : ascii) : ascii :=
  ascii_of_N (N.lxor (N_of_ascii c) (2 ^ bit)).

Fixpoint flip_bit (pos : nat) (bit : N) (s : string) : string :=
  match s, pos with
  | EmptyString, _ => EmptyString
  | String c r, O => String (flip_ascii bit c) r
  | String c r, S pos' => String c (flip_bit pos' bit r)
  end.

(** ** Sample requests *)

Module Sample.

Definition secret : string := "secret".

Definition env : process_env :=
  mkEnv (Some secret) (Some "capacities-token") (Some "space-1").

(** An [item:added] event, as the to-do service posts it. *)
Definition added : string :=
  Reader.q ("{'event_name':'item:added','event_data':"
            ++ "{'content':'Buy milk','priority':4,'labels':['errand']}}").

(** The same event with white space after the separators. *)
Definition added_spaced : string :=
  Reader.q ("{ 'event_name': 'item:added', 'event_data': "
            ++ "{ 'content': 'Buy milk', 'priority': 4, 'labels': ['errand'] } }").

(** An event kind the handlers do not support. *)
Definition archived : string :=
  Reader.q "{'event_name':'item:archived','event_data':{'content':'Buy milk'}}".

Definition task : TodoistTask :=
  mkTask "1" "Buy milk" "2% fat" "p" None None P4
         (Some (mkDue "2024-01-15" None None None (Some true) None))
         ["errand"] false None None (Some "2024-01-15T14:00:00.000000Z") None.

Definition signed_headers (signature : string) : headers :=
  fun name => if String.eqb name TODOIST_HEADER then Some (HString signature) else None.

Definition no_headers : headers := fun _ => None.

Definition post (h : headers) (text : string) : VercelRequest :=
  mkVercelRequest "POST" h (BodyValue (JString text)) [].

(** The request a host hands over after its body parser has run. *)
Definition post_parsed (h : headers) (text : string) : VercelRequest :=
  mkVercelRequest "POST" h
    (match Reader.JSON_parse text with
     | Ok j => BodyValue j
     | Throw _ => BodyUndefined
     end) [].

(** [task] without priority, due date, labels and description. *)
Definition bare_task : TodoistTask :=
  mkTask "1" "Buy milk" EmptyString "p" None None P1 None [] false None None
         (Some "2024-01-15T14:00:00.000000Z") None.

Definition sign (text : string) : string := hmac_sha256_base64 secret text.

(** A host whose note service cannot be reached. *)
Definition offline : Runtime := Reference.host Reference.unreachable.

(** The properties of the object a JSON text denotes. *)
Definition fields_of (text : string) : list (string * json) :=
  match Reader.JSON_parse text with
  | Ok (JObject f) => f
  | _ => []
  end.

Definition edge_post (signature : option string) (text : string) : EdgeRequest :=
  mkEdgeRequest "POST" "https://relay.example/api/webhook"
    (fun name => if String.eqb name "x-todoist-hmac-sha256" then signature else None)
    text.

(** The request of a host that hands the body over as a [Buffer]. *)
Definition post_buffer (h : headers) (received : list Z) : VercelRequest :=
  mkVercelRequest "POST" h (BodyBuffer received) [].

(** A body in ISO 8859-1: the byte E9 (an e with acute accent) is not
    UTF-8. *)
Definition latin1 : list Z :=
  (bytes_of_string (Reader.q "{'event_name':'item:added','event_data':{'content':'Caf")
     ++ [0xE9] ++ bytes_of_string (Reader.q "'}}"))%list.

(** A body that ends in the first half of an emoji (U+1F600 is D83D DE00),
    and the same with the lowest bit of that half inverted. *)
Definition cut_emoji : Units.code_units :=
  (Units.of_ascii (Reader.q "{'content':'") ++ [0xD83D] ++ Units.of_ascii (Reader.q "'}"))%list.

Definition cut_emoji_mutated : Units.code_units :=
  (Units.of_ascii (Reader.q "{'content':'") ++ [0xD83C] ++ Units.of_ascii (Reader.q "'}"))%list.

(** The signature of received bytes, as the sender computes it. *)
Definition sign_bytes (received : list Z) : string :=
  base64_encode (SHA256.hmac (bytes_of_string secret) received).

End Sample.

(** ** scripts/register-webhook.ts

    The registration script: the requests it sends and how the process
    ends.  Of what it prints only the conversions that can throw are kept.
    [URLSearchParams] as a request body is sent in its
    application/x-www-form-urlencoded serialisation. *)

Module Script.

Definition TODOIST_WEBHOOK_API : string := "https://api.todoist.com/sync/v9/webhooks".

Record script_env : Type := mkScriptEnv {
  TODOIST_CLIENT_ID : option string;
  TODOIST_CLIENT_SECRET : option string;
  WEBHOOK_URL : option string
}.

(** The process ends by [process.exit(code)], by returning from the
    command, or on a rejection nothing handles. *)
Inductive process_end : Type :=
| Exit (code : Z)
| Returned
| Unhandled (e : error).

Record script_run : Type := mkScriptRun {
  ended : process_end;
  requests : list fetch_request
}.

Definition upper_hex_digit (d : Z) : ascii :=
  nth (Z.to_nat d) (list_ascii_of_string "0123456789ABCDEF") "0"%char.

(** The bytes the urlencoded serialiser leaves as they are. *)
Definition form_plain (c : ascii) : bool :=
  in_range "A" "Z" c || in_range "a" "z" c || in_range "0" "9" c
  || Ascii.eqb c "*" || Ascii.eqb c "-" || Ascii.eqb c "." || Ascii.eqb c "_".

Definition form_byte (c : ascii) : string :=
  if form_plain c then String c EmptyString
  else if Ascii.eqb c " " then "+"
  else String "%" (String (upper_hex_digit (byte_of_ascii c / 16))
                     (String (upper_hex_digit (byte_of_ascii c mod 16)) EmptyString)).

Fixpoint form_encode (s : string) : string :=
  match s with
  | EmptyString => EmptyString
  | String c r => form_byte c ++ form_encode r
  end.

Definition urlencoded (fields : list (string * string)) : string :=
  join "&" (map (fun kv => form_encode (fst kv) ++ "=" ++ form_encode (snd kv)) fields).

Definition events : list string :=
  ["item:added"; "item:updated"; "item:completed"; "item:uncompleted"; "item:deleted"].

Definition register_request (clientId clientSecret webhookUrl : string) : fetch_request :=
  mkRequest TODOIST_WEBHOOK_API "POST"
    [("Content-Type", "application/x-www-form-urlencoded")]
    (urlencoded [("client_id", clientId); ("client_secret", clientSecret);
                 ("url", webhookUrl);
                 ("events", JSON_stringify (JArray (map JString events)))]).

(** [await response.json()]. *)
Definition response_json (rt : Runtime) (response : fetch_response) : result json :=
  text <- response_text response ;;
  JSON_parse rt text.

(** [String(v)], as a template literal applies it to a parsed value.  An
    object is converted by its [toString] method: [Object.prototype]'s
    gives [[object Object]], but an own property of that name, which in a
    parsed value is never a function, hides it, and the conversion throws
    (the inherited [valueOf] returns the object itself).  An array is
    converted by [join]. *)
Fixpoint ToString (v : json) : result string :=
  match v with
  | JNull => Ok "null"
  | JBool true => Ok "true"
  | JBool false => Ok "false"
  | JNumber n => Ok (number_toString n)
  | JString s => Ok s
  | JArray items =>
      texts <- (fix elements (l : list json) : result (list string) :=
                  match l with
                  | [] => Ok []
                  | x :: r =>
                      text <- match x with
                              | JNull => Ok EmptyString
                              | _ => ToString x
                              end ;;
                      rest <- elements r ;;
                      Ok (text :: rest)
                  end) items ;;
      Ok (join "," texts)
  | JObject fields =>
      match assoc "toString" fields with
      | Some _ => Throw (TypeError "Cannot convert object to primitive value")
      | None => Ok "[object Object]"
      end
  end.

(** [Array.prototype.join] on a parsed array: [null] elements give the
    empty string, the others are converted in turn. *)
Fixpoint Array_texts (items : list json) : result (list string) :=
  match items with
  | [] => Ok []
  | x :: r =>
      text <- match x with
              | JNull => Ok EmptyString
              | _ => ToString x
              end ;;
      rest <- Array_texts r ;;
      Ok (text :: rest)
  end.

Definition Array_join (sep : string) (items : list json) : result string :=
  texts <- Array_texts items ;;
  Ok (join sep texts).

(** [`${v}`] on a property that may be [undefined]. *)
Definition template (v : option json) : result string :=
  match v with
  | None => Ok "undefined"
  | Some j => ToString j
  end.

(** The lines printed after a successful registration read [data.id],
    [data.url] and [data.events?.join(', ')]: reading a property of [null]
    throws, and so does calling [join] on a value that is neither absent,
    [null] nor an array. *)
Definition report (data : json) : result (list string) :=
  match data with
  | JNull => Throw (TypeError "Cannot read properties of null (reading 'id')")
  | _ =>
      id <- template (get_property data "id") ;;
      address <- template (get_property data "url") ;;
      kinds <- match get_property data "events" with
               | None | Some JNull => Ok "undefined"
               | Some (JArray items) => Array_join ", " items
               | Some _ => Throw (TypeError "data.events?.join is not a function")
               end ;;
      Ok [("  Webhook ID: " ++ id)%string; ("  URL: " ++ address)%string;
          ("  Events: " ++ kinds)%string]
  end.

Definition registerWebhook (rt : Runtime) (env : script_env) : script_run :=
  match configured (TODOIST_CLIENT_ID env) with
  | None => mkScriptRun (Exit 1) []
  | Some clientId =>
      match configured (TODOIST_CLIENT_SECRET env) with
      | None => mkScriptRun (Exit 1) []
      | Some clientSecret =>
          match configured (WEBHOOK_URL env) with
          | None => mkScriptRun (Exit 1) []
          | Some webhookUrl =>
              let request := register_request clientId clientSecret webhookUrl in
              match (response <- fetch rt request ;;
                     data <- response_json rt response ;;
                     if negb (response_ok response) then Ok false
                     else _ <- report data ;; Ok true) with
              | Ok true => mkScriptRun Returned [request]
              | Ok false => mkScriptRun (Exit 1) [request]
              | Throw _ => mkScriptRun (Exit 1) [request]
              end
          end
      end
  end.

(** The listing request is a GET without headers or body; the identifier
    and the secret go into the URL as they are. *)
Definition list_request (clientId clientSecret : string) : fetch_request :=
  mkRequest (TODOIST_WEBHOOK_API ++ "?client_id=" ++ clientId
               ++ "&client_secret=" ++ clientSecret)
            "GET" [] EmptyString.

Definition listWebhooks (rt : Runtime) (env : script_env) : script_run :=
  match configured (TODOIST_CLIENT_ID env), configured (TODOIST_CLIENT_SECRET env) with
  | Some clientId, Some clientSecret =>
      let request := list_request clientId clientSecret in
      match (response <- fetch rt request ;; response_json rt response) with
      | Ok _ => mkScriptRun Returned [request]
      | Throw e => mkScriptRun (Unhandled e) [request]
      end
  | _, _ => mkScriptRun (Exit 1) []
  end.

(** [process.argv[2]] chooses the command. *)
Definition main (rt : Runtime) (env : script_env) (command : option string) : script_run :=
  match command with
  | Some c => if String.eqb c "list" then listWebhooks rt env else registerWebhook rt env
  | None => registerWebhook rt env
  end.

End Script.

(** ** Vocabulary of the further properties *)

(** [{ error: message }] with a status. *)
Definition error_response (code : Z) (message : string) : outcome :=
  Responded (mkHttpResponse code (JSON_stringify (JObject [("error", JString message)]))).

(** [{ status: 'ok', event: name }] with status 200. *)
Definition ok_response (name : string) : outcome :=
  Responded (mkHttpResponse 200
               (JSON_stringify (JObject [("status", JString "ok");
                                         ("event", JString name)]))).

(** The request the Edge handler sends. *)
Definition edge_request (markdown capacitiesToken spaceId : string) : fetch_request :=
  mkRequest "https://api.capacities.io/save-to-daily-note" "POST"
    [("Content-Type", "application/json"); ("Authorization", "Bearer " ++ capacitiesToken)]
    (JSON_stringify (JObject [("spaceId", JString spaceId); ("mdText", JString markdown)])).

(** The configuration is complete: the three variables are set and not
    empty. *)
Definition config_of (env : process_env) : option (string * string * string) :=
  match configured (TODOIST_CLIENT_SECRET env),
        configured (CAPACITIES_API_TOKEN env),
        configured (CAPACITIES_SPACE_ID env) with
  | Some clientSecret, Some capacitiesToken, Some spaceId =>
      Some (clientSecret, capacitiesToken, spaceId)
  | _, _, _ => None
  end.


Definition chunk_text (c : chunk) : string :=
  match c with
  | ChunkString s => s
  | ChunkBuffer b => string_of_bytes b
  end.

Fixpoint concat_texts (l : list string) : string :=
  match l with
  | [] => EmptyString
  | x :: r => x ++ concat_texts r
  end.

(** The event of a parsed payload that the handlers forward: its name is
    one of the supported kinds and its data reads as a task. *)
Definition forwarded_event (payload : json) : option (string * TodoistTask) :=
  match payload with
  | JObject _ =>
      match get_property payload "event_name", get_property payload "event_data" with
      | Some (JString name), Some data =>
          if existsb (String.eqb name) SUPPORTED_EVENTS
          then match as_TodoistTask data with
               | Some task => Some (name, task)
               | None => None
               end
          else None
      | _, _ => None
      end
  | _ => None
  end.

(** The request the Node handler sends for an event. *)
Definition forward_request
    (rt : Runtime) (task : TodoistTask) (name capacitiesToken spaceId : string)
  : fetch_request :=
  saveToDailyNote_request (formatTaskAsMarkdown (dates rt) task name) capacitiesToken spaceId.

(** The lines of a block that carries metadata. *)
Definition heading_of (eventName : string) : string :=
  if String.eqb eventName "item:added" then "### New Task Added"
  else if String.eqb eventName "item:updated" then "### Task Updated"
  else if String.eqb eventName "item:uncompleted" then "### Task Reopened"
  else "### Task Event: " ++ eventName.

Definition priority_lines (task : TodoistTask) : list string :=
  match priority task with
  | P1 => []
  | p => ["- **Priority:** " ++ getPriorityLabel p]
  end.

Definition due_lines (rt : DateRuntime) (task : TodoistTask) : list string :=
  match due task with
  | Some d =>
      ["- **Due:** "
         ++ match datetime d with
            | Some dt => if truthy dt then formatDateTime rt dt else date d
            | None => date d
            end
         ++ match is_recurring d with
            | Some true => " (recurring)"
            | _ => EmptyString
            end]
  | None => []
  end.

Definition labels_lines (task : TodoistTask) : list string :=
  match labels task with
  | [] => []
  | _ :: _ => ["- **Labels:** " ++ join ", " (labels task)]
  end.

Definition description_lines (task : TodoistTask) : list string :=
  if truthy (trim (description task))
  then [EmptyString; blockquote (description task)]
  else [].

(** The heading and the due line of the Edge formatter. *)
Definition edge_heading_of (eventName : string) : string :=
  if String.eqb eventName "item:added" then "### New Task Added"
  else if String.eqb eventName "item:updated" then "### Task Updated"
  else "### Task Event: " ++ eventName.

Definition edge_due_lines (task : TodoistTask) : list string :=
  match due task with
  | Some d =>
      ["- **Due:** "
         ++ match datetime d with
            | Some dt => if truthy dt then dt else date d
            | None => date d
            end
         ++ match is_recurring d with
            | Some true => " (recurring)"
            | _ => EmptyString
            end]
  | None => []
  end.

(** No line feed occurs in the string. *)
Fixpoint single_line (s : string) : bool :=
  match s with
  | EmptyString => true
  | String c r => negb (Ascii.eqb c LF) && single_line r
  end.

(** How often a character occurs in a string. *)
Fixpoint count_char (c : ascii) (s : string) : nat :=
  match s with
  | EmptyString => O
  | String a r => (if Ascii.eqb a c then 1 else 0) + count_char c r
  end.

(** The signature a header value stands for: the string itself, or the
    first element of an array. *)
Definition header_signature (v : option header_value) : option string :=
  match v with
  | Some (HString s) => Some s
  | Some (HArray l) => hd_error l
  | None => None
  end.

(** A character [Buffer.from(s, 'base64')] skips. *)
Definition skipped_char (c : ascii) : bool :=
  negb (Ascii.eqb c "=") && match unbase64 c with Some _ => false | None => true end.

(** Further sample requests. *)
Module Cases.

Definition get_request : VercelRequest :=
  mkVercelRequest "GET" Sample.no_headers BodyUndefined [].

Definition edge_get : EdgeRequest :=
  mkEdgeRequest "GET" "https://relay.example/api/webhook" (fun _ => None) EmptyString.

Definition no_token : process_env := mkEnv (Some Sample.secret) (Some EmptyString) (Some "space-1").

Definition signed (text : string) : VercelRequest :=
  Sample.post (Sample.signed_headers (Sample.sign text)) text.

(** The body arrives in two chunks of the stream, a string and a buffer. *)
Definition streamed (h : headers) (first second : string) : VercelRequest :=
  mkVercelRequest "POST" h BodyUndefined
    [ChunkString first; ChunkBuffer (bytes_of_string second)].

Definition upper_headers (signature : string) : headers :=
  fun name =>
    if String.eqb name "X-TODOIST-HMAC-SHA256" then Some (HArray [signature; "other"])
    else if String.eqb name TODOIST_HEADER then Some (HString EmptyString)
    else None.

(** An empty array under the lower-case name, a signature under the next. *)
Definition empty_array_headers (signature : string) : headers :=
  fun name =>
    if String.eqb name TODOIST_HEADER then Some (HArray [])
    else if String.eqb name "X-Todoist-Hmac-SHA256" then Some (HString signature)
    else None.

Definition script_env : Script.script_env :=
  Script.mkScriptEnv (Some "client-1") (Some "s&c=ret") (Some "https://relay.example/api/webhook").

End Cases.

(** * Properties *)

Example sha256_abc :
  hex_of_bytes (SHA256.hash (bytes_of_string "abc"))
  = "ba7816bf8f01cfea414140de5dae2223b00361a396177a9cb410ff61f20015ad".
Proof. vm_compute. reflexivity. Qed.

Example sha256_empty :
  hex_of_bytes (SHA256.hash [])
  = "e3b0c44298fc1c149afbf4c8996fb92427ae41e4649b934ca495991b7852b855".
Proof. vm_compute. reflexivity. Qed.

Example sha256_two_blocks :
  hex_of_bytes (SHA256.hash (bytes_of_string
    "abcdbcdecdefdefgefghfghighijhijkijkljklmklmnlmnomnopnopq"))
  = "248d6a61d20638b8e5c026930c3e6039a33ce45964ff2167f6ecedd419db06c1".
Proof. vm_compute. reflexivity. Qed.

Example hmac_sha256_rfc4231_case2 :
  hex_of_bytes (SHA256.hmac (bytes_of_string "Jefe")
                            (bytes_of_string "what do ya want for nothing?"))
  = "5bdcc146bf60754e6a042426089575c75a003f089d2739839dec58b964ec3843".
Proof. vm_compute. reflexivity. Qed.

Example hmac_sha256_fox :
  hex_of_bytes (SHA256.hmac (bytes_of_string "key")
     (bytes_of_string "The quick brown fox jumps over the lazy dog"))
  = "f7bc83f430538424b13298e6aa6fb143ef4d59a14946175997479dbc2d1a3cd8".
Proof. vm_compute. reflexivity. Qed.

Example base64_vectors :
  base64_encode (bytes_of_string "foobar") = "Zm9vYmFy"
  /\ base64_encode (bytes_of_string "fooba") = "Zm9vYmE="
  /\ base64_encode (bytes_of_string "foob") = "Zm9vYg=="
  /\ Buffer_from_base64 "Zm9v Yg==" = Ok (bytes_of_string "foob")
  /\ Buffer_from_base64 "Zm9vYmE" = Ok (bytes_of_string "fooba").
Proof. vm_compute. repeat split. Qed.

Example node_signature_sample :
  hmac_sha256_base64 "key" "The quick brown fox jumps over the lazy dog"
  = "97yD9DBThCSxMpjmqm+xQ+9NWaFJRhdZl0edvC0aPNg=".
Proof. vm_compute. reflexivity. Qed.

Example JSON_parse_samples :
  Reader.JSON_parse (Reader.q "{ 'b' : [1, 2.50, -3e2, true, null], '1': 'x\ny', 'b': {} }")
  = Ok (JObject [("1", JString ("x" ++ nl ++ "y")); ("b", JObject [])])
  /\ Reader.JSON_parse "[1, 2.50, -3e2, 1e21, 1.5e-7, 0.001]"
     = Ok (JArray [JNumber (mkNumber 1 0); JNumber (mkNumber 25 (-1));
                   JNumber (mkNumber (-3) 2); JNumber (mkNumber 1 21);
                   JNumber (mkNumber 15 (-8)); JNumber (mkNumber 1 (-3))])
  /\ JSON_stringify (JArray [JNumber (mkNumber 1 0); JNumber (mkNumber 25 (-1));
                   JNumber (mkNumber (-3) 2); JNumber (mkNumber 1 21);
                   JNumber (mkNumber 15 (-8)); JNumber (mkNumber 1 (-3));
                   JNumber (mkNumber 12345 (-2)); JNumber (mkNumber 1 20)])
     = "[1,2.5,-300,1e+21,1.5e-7,0.001,123.45,100000000000000000000]"
  /\ Reader.JSON_parse "{'a':1}" = Throw (SyntaxError "Unexpected token in JSON")
  /\ Reader.JSON_parse "01" = Throw (SyntaxError "Unexpected token in JSON")
  /\ Reader.JSON_parse (Reader.q "'\ud83d\ude00\u00e9'")
     = Ok (JString (string_of_bytes [0xF0; 0x9F; 0x98; 0x80; 0xC3; 0xA9])).
Proof. vm_compute. repeat split. Qed.

Example reference_dates :
  Reference.Date_parse "2024-01-15T14:00:00.000000Z" = Some 1705327200000
  /\ formatDateTime Reference.date_engine "2024-01-15T14:00:00.000000Z"
     = "Mon, Jan 15, 2024, 2:00 PM"
  /\ formatDateTime Reference.date_engine "2000-02-29" = "Tue, Feb 29, 2000, 12:00 AM"
  /\ formatDateTime Reference.date_engine "1969-12-31T23:59:59" = "Wed, Dec 31, 1969, 11:59 PM"
  /\ Reference.render_default 1705327200000 = "1/15/2024, 2:00:00 PM"
  /\ Reference.Date_parse "2024-01-15T24:00:00" = Reference.Date_parse "2024-01-16"
  /\ Reference.Date_parse "2024-01-15T24:00:01" = None.
Proof. vm_compute. repeat split. Qed.

(** ** Bytes and strings *)

Lemma Ok_inj (A : Type) (a b : A) : Ok a = Ok b -> a = b.
Proof. intros H. inversion H. reflexivity. Qed.

Lemma ascii_of_byte_of_ascii (c : ascii) : ascii_of_byte (byte_of_ascii c) = c.
Proof.
  unfold ascii_of_byte, byte_of_ascii.
  rewrite N2Z.id. apply ascii_N_embedding.
Qed.

Lemma string_of_bytes_of_string (s : string) : string_of_bytes (bytes_of_string s) = s.
Proof.
  induction s as [|c s IH]; simpl; [reflexivity|].
  now rewrite ascii_of_byte_of_ascii, IH.
Qed.

Lemma bytes_eqb_eq (a b : list Z) : bytes_eqb a b = true <-> a = b.
Proof.
  revert b; induction a as [|x a IH]; intros [|y b]; simpl; split; intro H;
    try reflexivity; try discriminate.
  - apply andb_true_iff in H as [Hxy Hab].
    apply Z.eqb_eq in Hxy. apply IH in Hab. now subst.
  - injection H as -> ->. rewrite Z.eqb_refl. simpl. now apply IH.
Qed.

Lemma land_255_is_byte (x : Z) : is_byte (Z.land x 255).
Proof.
  unfold is_byte. change 255 with (Z.ones 8).
  rewrite Z.land_ones by lia. apply Z.mod_pos_bound. reflexivity.
Qed.

Lemma byte_of_ascii_of_byte (b : Z) : is_byte b -> byte_of_ascii (ascii_of_byte b) = b.
Proof.
  unfold is_byte, byte_of_ascii, ascii_of_byte. intros Hb.
  rewrite N_ascii_embedding by lia. lia.
Qed.

Lemma bytes_of_string_of_bytes (l : list Z) :
  Forall is_byte l -> bytes_of_string (string_of_bytes l) = l.
Proof.
  induction 1 as [|b l Hb _ IH]; simpl; [reflexivity|].
  now rewrite byte_of_ascii_of_byte, IH.
Qed.

(** ** Well-formed UTF-8 is read as it is *)

Lemma between_true (lo hi b : Z) : between lo hi b = true <-> lo <= b <= hi.
Proof. unfold between. rewrite andb_true_iff, !Z.leb_le. reflexivity. Qed.

Lemma between_false (lo hi b : Z) : between lo hi b = false <-> (b < lo \/ hi < b).
Proof. unfold between. rewrite andb_false_iff, !Z.leb_gt. reflexivity. Qed.

Ltac range_facts :=
  repeat match goal with
         | H : _ && _ = true |- _ => apply andb_true_iff in H; destruct H
         | H : _ || _ = true |- _ => apply orb_true_iff in H; destruct H
         | H : between _ _ _ = true |- _ => apply between_true in H
         | H : Z.eqb _ _ = true |- _ => apply Z.eqb_eq in H
         end.

Ltac decide_ranges :=
  unfold second_of_three, second_of_four, continuation;
  repeat match goal with
         | |- context [between ?lo ?hi ?b] =>
             first [ rewrite (proj2 (between_true lo hi b)) by lia
                   | rewrite (proj2 (between_false lo hi b)) by lia ]
         | |- context [Z.eqb ?b ?c] =>
             first [ rewrite (proj2 (Z.eqb_eq b c)) by lia
                   | rewrite (proj2 (Z.eqb_neq b c)) by lia ]
         end.

(** The four shapes of the first character of a well-formed sequence. *)
Lemma well_formed_utf8_cases (b0 : Z) (r0 : list Z) :
  well_formed_utf8 (b0 :: r0) = true ->
  (0 <= b0 <= 0x7F /\ well_formed_utf8 r0 = true)
  \/ (exists b1 r1, r0 = b1 :: r1 /\ 0xC2 <= b0 <= 0xDF /\ 0x80 <= b1 <= 0xBF
                    /\ well_formed_utf8 r1 = true)
  \/ (exists b1 b2 r2, r0 = b1 :: b2 :: r2 /\ 0xE0 <= b0 <= 0xEF
                       /\ second_of_three b0 b1 = true /\ 0x80 <= b2 <= 0xBF
                       /\ well_formed_utf8 r2 = true)
  \/ (exists b1 b2 b3 r3, r0 = b1 :: b2 :: b3 :: r3 /\ 0xF0 <= b0 <= 0xF4
                          /\ second_of_four b0 b1 = true /\ 0x80 <= b2 <= 0xBF
                          /\ 0x80 <= b3 <= 0xBF /\ well_formed_utf8 r3 = true).
Proof.
  cbn [well_formed_utf8].
  destruct (between 0 127 b0) eqn:H0.
  { intros H. left. apply between_true in H0. auto. }
  destruct r0 as [|b1 r1]; [discriminate|].
  destruct (between 194 223 b0) eqn:H1.
  { intros H. right; left. exists b1, r1. range_facts. repeat split; auto; lia. }
  destruct r1 as [|b2 r2]; [discriminate|].
  destruct (between 224 239 b0) eqn:H2.
  { intros H. right; right; left. exists b1, b2, r2.
    apply andb_true_iff in H as [H Hwf]. apply andb_true_iff in H as [H Hb2].
    apply between_true in H2. apply between_true in Hb2.
    assert (second_of_three b0 b1 = true) as Hb1.
    { range_facts; decide_ranges; reflexivity. }
    repeat split; auto; lia. }
  destruct r2 as [|b3 r3]; [discriminate|].
  intros H. right; right; right. exists b1, b2, b3, r3.
  apply andb_true_iff in H as [H Hwf]. apply andb_true_iff in H as [H H3].
  apply andb_true_iff in H as [H Hb2].
  apply between_true in Hb2. apply between_true in H3.
  assert (0xF0 <= b0 <= 0xF4 /\ second_of_four b0 b1 = true) as [Hb0 Hb1].
  { range_facts; (split; [lia|]); decide_ranges; reflexivity. }
  repeat split; auto; lia.
Qed.

Lemma utf8_replace_well_formed (l : list Z) :
  well_formed_utf8 l = true -> utf8_replace l = l.
Proof.
  assert (H : forall n l, (List.length l <= n)%nat ->
                          well_formed_utf8 l = true -> utf8_replace l = l).
  { clear l. induction n as [|n IH]; intros l Hlen Hwf.
    - destruct l; [reflexivity | simpl in Hlen; lia].
    - destruct l as [|b0 r0]; [reflexivity|].
      apply well_formed_utf8_cases in Hwf
        as [(Hb0 & Hwf)
           |[(b1 & r1 & -> & Hb0 & Hb1 & Hwf)
            |[(b1 & b2 & r2 & -> & Hb0 & Hb1 & Hb2 & Hwf)
             |(b1 & b2 & b3 & r3 & -> & Hb0 & Hb1 & Hb2 & Hb3 & Hwf)]]];
        cbn [utf8_replace]; cbn [List.length] in Hlen.
      + decide_ranges. rewrite IH by (auto; lia). reflexivity.
      + decide_ranges. rewrite IH by (auto; lia). reflexivity.
      + rewrite Hb1. decide_ranges. rewrite IH by (auto; lia). reflexivity.
      + rewrite Hb1. decide_ranges. rewrite IH by (auto; lia). reflexivity. }
  intros Hwf. apply (H (List.length l)); auto.
Qed.

Lemma well_formed_utf8_bytes (l : list Z) :
  well_formed_utf8 l = true -> Forall is_byte l.
Proof.
  assert (H : forall n l, (List.length l <= n)%nat ->
                          well_formed_utf8 l = true -> Forall is_byte l).
  { clear l. induction n as [|n IH]; intros l Hlen Hwf.
    - destruct l; [constructor | simpl in Hlen; lia].
    - destruct l as [|b0 r0]; [constructor|].
      apply well_formed_utf8_cases in Hwf
        as [(Hb0 & Hwf)
           |[(b1 & r1 & -> & Hb0 & Hb1 & Hwf)
            |[(b1 & b2 & r2 & -> & Hb0 & Hb1 & Hb2 & Hwf)
             |(b1 & b2 & b3 & r3 & -> & Hb0 & Hb1 & Hb2 & Hb3 & Hwf)]]];
        cbn [List.length] in Hlen.
      + constructor; [unfold is_byte; lia | apply IH; auto; lia].
      + repeat (constructor; [unfold is_byte; lia|]). apply IH; auto; lia.
      + assert (0x80 <= b1 <= 0xBF).
        { unfold second_of_three, continuation in Hb1.
          destruct (Z.eqb b0 0xE0); [|destruct (Z.eqb b0 0xED)];
            apply between_true in Hb1; lia. }
        repeat (constructor; [unfold is_byte; lia|]). apply IH; auto; lia.
      + assert (0x80 <= b1 <= 0xBF).
        { unfold second_of_four, continuation in Hb1.
          destruct (Z.eqb b0 0xF0); [|destruct (Z.eqb b0 0xF4)];
            apply between_true in Hb1; lia. }
        repeat (constructor; [unfold is_byte; lia|]). apply IH; auto; lia. }
  intros Hwf. apply (H (List.length l)); auto.
Qed.

Lemma toString_utf8_well_formed (l : list Z) :
  well_formed_utf8 l = true -> toString_utf8 l = string_of_bytes l.
Proof. intros H. unfold toString_utf8. now rewrite utf8_replace_well_formed. Qed.

Lemma toString_utf8_bytes (l : list Z) :
  well_formed_utf8 l = true -> bytes_of_string (toString_utf8 l) = l.
Proof.
  intros H. rewrite toString_utf8_well_formed by exact H.
  apply bytes_of_string_of_bytes, well_formed_utf8_bytes, H.
Qed.

Example toString_utf8_samples :
  utf8_replace [0x61; 0xFF; 0x62] = [0x61; 0xEF; 0xBF; 0xBD; 0x62]
  /\ utf8_replace [0xE2; 0x82; 0xAC; 0xE2; 0x82; 0x41; 0xF0; 0x9F; 0x98; 0x80]
     = [0xE2; 0x82; 0xAC; 0xEF; 0xBF; 0xBD; 0x41; 0xF0; 0x9F; 0x98; 0x80]
  /\ utf8_replace [0xED; 0xA0; 0x80; 0xC0; 0xAF; 0xF0; 0x9F]
     = (REPLACEMENT ++ REPLACEMENT ++ REPLACEMENT ++ REPLACEMENT ++ REPLACEMENT
          ++ REPLACEMENT)%list
  /\ well_formed_utf8 [0xE2; 0x82; 0xAC; 0xF0; 0x9F; 0x98; 0x80; 0x41; 0xC3; 0xA9] = true
  /\ well_formed_utf8 [0x61; 0xFF; 0x62] = false.
Proof. vm_compute. repeat split. Qed.

(** ** The digest: thirty-two bytes *)

Lemma hash_length (msg : list Z) : List.length (SHA256.hash msg) = 32%nat.
Proof. reflexivity. Qed.

Lemma hash_bytes (msg : list Z) : Forall is_byte (SHA256.hash msg).
Proof.
  unfold SHA256.hash, SHA256.digest_bytes, SHA256.bytes_of_word.
  cbn [app]. repeat (constructor; [apply land_255_is_byte|]). constructor.
Qed.

Lemma hmac_length (key msg : list Z) : List.length (SHA256.hmac key msg) = 32%nat.
Proof. apply hash_length. Qed.

Lemma hmac_bytes (key msg : list Z) : Forall is_byte (SHA256.hmac key msg).
Proof. apply hash_bytes. Qed.

(** ** Base64: decoding an encoding gives the bytes back *)

Lemma list_ind3 (A : Type) (P : list A -> Prop) :
  P [] -> (forall a, P [a]) -> (forall a b, P [a; b]) ->
  (forall a b c r, P r -> P (a :: b :: c :: r)) ->
  forall l, P l.
Proof.
  intros H0 H1 H2 H3 l.
  assert (Hall : forall n l', (List.length l' <= n)%nat -> P l').
  { induction n as [|n IH]; intros l' Hlen.
    - destruct l'; [exact H0 | simpl in Hlen; lia].
    - destruct l' as [|a [|b [|c r]]]; auto.
      apply H3, IH. simpl in Hlen. lia. }
  apply (Hall (List.length l)). lia.
Qed.

Lemma sextet_cases (v : Z) :
  0 <= v < 64 ->
  exists n : nat, (n < 64)%nat /\ v = Z.of_nat n.
Proof. intros Hv. exists (Z.to_nat v). lia. Qed.

Lemma unbase64_base64_char (v : Z) :
  0 <= v < 64 ->
  unbase64 (base64_char v) = Some v /\ Ascii.eqb (base64_char v) "=" = false.
Proof.
  intros Hv. destruct (sextet_cases v Hv) as (n & Hn & ->). clear Hv.
  do 64 (destruct n as [|n]; [vm_compute; split; reflexivity|]).
  lia.
Qed.

Lemma sextets_cons (v : Z) (s : string) :
  0 <= v < 64 -> sextets (String (base64_char v) s) = v :: sextets s.
Proof.
  intros Hv. destruct (unbase64_base64_char v Hv) as [Hu He].
  simpl. now rewrite He, Hu.
Qed.

Ltac sextet_range := unfold is_byte in *; Z.div_mod_to_equations; lia.

Lemma base64_roundtrip (l : list Z) :
  Forall is_byte l -> bytes_of_sextets (sextets (base64_encode l)) = l.
Proof.
  induction l as [|a|a b|a b c r IH] using list_ind3; intros Hl.
  - reflexivity.
  - inversion_clear Hl as [|? ? Ha _].
    cbn [base64_encode].
    rewrite !sextets_cons by sextet_range.
    cbn [sextets Ascii.eqb Bool.eqb bytes_of_sextets]. simpl sextets.
    cbn [bytes_of_sextets]. f_equal. sextet_range.
  - inversion_clear Hl as [|? ? Ha Hl']. inversion_clear Hl' as [|? ? Hb _].
    cbn [base64_encode].
    rewrite !sextets_cons by sextet_range.
    simpl sextets. cbn [bytes_of_sextets].
    f_equal; [|f_equal]; sextet_range.
  - inversion_clear Hl as [|? ? Ha Hl']. inversion_clear Hl' as [|? ? Hb Hl''].
    inversion_clear Hl'' as [|? ? Hc Hr].
    cbn [base64_encode].
    rewrite !sextets_cons by sextet_range.
    cbn [bytes_of_sextets]. rewrite (IH Hr).
    f_equal; [|f_equal; [|f_equal]]; sextet_range.
Qed.

Lemma base64_encode_truthy (l : list Z) : l <> [] -> truthy (base64_encode l) = true.
Proof. destruct l as [|a [|b [|c r]]]; intros H; [congruence| reflexivity ..]. Qed.

Lemma signature_decodes (secret body : string) :
  Buffer_from_base64 (hmac_sha256_base64 secret body) = Ok (expected_digest secret body).
Proof.
  unfold Buffer_from_base64, hmac_sha256_base64, expected_digest.
  now rewrite base64_roundtrip by apply hmac_bytes.
Qed.

Lemma expected_digest_length (secret body : string) :
  List.length (expected_digest secret body) = 32%nat.
Proof. apply hmac_length. Qed.

Lemma signature_truthy (secret body : string) :
  truthy (hmac_sha256_base64 secret body) = true.
Proof.
  apply base64_encode_truthy. intros H.
  pose proof (hmac_length (bytes_of_string secret) (bytes_of_string body)) as Hlen.
  rewrite H in Hlen. discriminate Hlen.
Qed.

(** ** Signature verification *)

Lemma compare_signatures_returns (signature expectedSignature : string) :
  exists b, compare_signatures signature expectedSignature = Ok b.
Proof.
  unfold compare_signatures, Buffer_from_base64, timingSafeEqual. cbn [bind].
  destruct (Nat.eqb _ _); cbn [negb]; eauto.
Qed.

Lemma verifyTodoistSignature_iff (rawBody signature clientSecret : string) :
  verifyTodoistSignature rawBody (Some signature) clientSecret = true
  <-> truthy signature = true
      /\ Buffer_from_base64 signature = Ok (expected_digest clientSecret rawBody).
Proof.
  unfold verifyTodoistSignature.
  destruct (truthy signature); cbn [negb]; [|split; [discriminate | intros [H _]; discriminate]].
  unfold compare_signatures. rewrite signature_decodes.
  unfold Buffer_from_base64, timingSafeEqual. cbn [bind].
  rewrite expected_digest_length.
  destruct (Nat.eqb (List.length (bytes_of_sextets (sextets signature))) 32) eqn:Hlen;
    cbn [negb try_catch].
  - rewrite bytes_eqb_eq. split.
    + intros ->. split; reflexivity.
    + intros [_ H]. apply Ok_inj in H. exact H.
  - split; [discriminate|]. intros [_ H]. apply Ok_inj in H.
    rewrite H, expected_digest_length in Hlen. discriminate.
Qed.

Lemma verifySignature_iff (rawBody signature secret : string) :
  verifySignature rawBody (Some signature) secret = true
  <-> signature = hmac_sha256_base64 secret rawBody.
Proof.
  unfold verifySignature. split.
  - destruct (truthy signature); cbn [negb]; [|discriminate].
    intros H. apply String.eqb_eq in H. now symmetry.
  - intros ->. rewrite signature_truthy. cbn [negb]. apply String.eqb_refl.
Qed.


Lemma utf8_encode_nil (s : Units.code_units) : Units.utf8_encode s = [] -> s = [].
Proof.
  destruct s as [|u r]; [reflexivity|]. cbn [Units.utf8_encode].
  destruct (Units.high_surrogate u).
  - destruct r as [|v r']; [discriminate|].
    destruct (Units.low_surrogate v); [|discriminate].
    unfold Units.utf8_of_scalar.
    repeat match goal with |- context [if ?c then _ else _] => destruct c end; discriminate.
  - destruct (Units.low_surrogate u); [discriminate|].
    unfold Units.utf8_of_scalar.
    repeat match goal with |- context [if ?c then _ else _] => destruct c end; discriminate.
Qed.

Lemma of_ascii_injective (a b : string) : Units.of_ascii a = Units.of_ascii b -> a = b.
Proof.
  unfold Units.of_ascii. intros H.
  rewrite <- (string_of_bytes_of_string a), <- (string_of_bytes_of_string b).
  now rewrite H.
Qed.

Lemma byte_of_ascii_range (c : ascii) : 0 <= byte_of_ascii c < 256.
Proof. unfold byte_of_ascii. pose proof (N_ascii_bounded c). lia. Qed.

(** Base64 text is read by [Buffer.from] as its characters. *)
Lemma low_bytes_of_ascii (s : string) : Units.low_bytes (Units.of_ascii s) = s.
Proof.
  unfold Units.low_bytes, Units.of_ascii.
  induction s as [|c s IH]; [reflexivity|].
  cbn [bytes_of_string map string_of_bytes].
  rewrite Z.mod_small by apply byte_of_ascii_range.
  now rewrite ascii_of_byte_of_ascii, IH.
Qed.




Lemma importKey_returns (keyData : list Z) :
  keyData <> [] -> Units.importKey keyData = Ok keyData.
Proof. destruct keyData; [intros H; now contradiction H | reflexivity]. Qed.




Lemma utf8_of_scalar_bytes (c : Z) :
  0 <= c < 0x110000 -> Forall is_byte (Units.utf8_of_scalar c).
Proof.
  intros Hc. unfold Units.utf8_of_scalar.
  repeat match goal with
         | |- context [if (?a <? ?b)%Z then _ else _] => destruct (Z.ltb_spec a b)
         end;
    repeat (constructor; [unfold is_byte; Z.div_mod_to_equations; lia|]); constructor.
Qed.

Lemma utf8_encode_bytes (s : Units.code_units) :
  Forall Units.is_unit s -> Forall is_byte (Units.utf8_encode s).
Proof.
  assert (Hrep : Forall is_byte REPLACEMENT).
  { repeat (constructor; [unfold is_byte; lia|]). constructor. }
  assert (H : forall n s, (List.length s <= n)%nat -> Forall Units.is_unit s ->
                          Forall is_byte (Units.utf8_encode s)).
  { clear s. induction n as [|n IH]; intros s Hlen Hs.
    - destruct s; [constructor | simpl in Hlen; lia].
    - destruct s as [|u r]; [constructor|].
      inversion_clear Hs as [|? ? Hu Hr]. cbn [Units.utf8_encode]. simpl in Hlen.
      destruct (Units.high_surrogate u) eqn:Hhigh.
      + destruct r as [|v r']; [exact Hrep|].
        inversion_clear Hr as [|? ? Hv Hr']. simpl in Hlen.
        destruct (Units.low_surrogate v) eqn:Hlow.
        * apply Forall_app. split; [|apply IH; auto; lia].
          apply utf8_of_scalar_bytes.
          apply between_true in Hhigh. apply between_true in Hlow. lia.
        * apply Forall_app. split; [exact Hrep|].
          apply IH; [simpl; lia | constructor; assumption].
      + destruct (Units.low_surrogate u).
        * apply Forall_app. split; [exact Hrep | apply IH; auto; lia].
        * apply Forall_app. split; [|apply IH; auto; lia].
          apply utf8_of_scalar_bytes. unfold Units.is_unit in Hu. lia. }
  intros Hs. apply (H (List.length s)); auto.
Qed.

(** The verifiers on code units are the verifiers on text, applied to the
    UTF-8 forms of the body and the secret. *)
Lemma units_agree (rawBody clientSecret : Units.code_units) (signature : string) :
  Forall Units.is_unit rawBody -> Forall Units.is_unit clientSecret ->
  Units.verifyTodoistSignature rawBody (Some (Units.of_ascii signature)) clientSecret
  = verifyTodoistSignature (Units.text rawBody) (Some signature) (Units.text clientSecret)
  /\ (clientSecret <> [] ->
      Units.verifySignature rawBody (Some (Units.of_ascii signature)) clientSecret
      = Ok (verifySignature (Units.text rawBody) (Some signature) (Units.text clientSecret))).
Proof.
  intros Hbody Hsecret. split.
  - unfold Units.verifyTodoistSignature, verifyTodoistSignature, compare_signatures.
    unfold Units.Buffer_from_base64, Buffer_from_base64.
    unfold Units.hmac_sha256_base64, hmac_sha256_base64, Units.text.
    rewrite !bytes_of_string_of_bytes by now apply utf8_encode_bytes.
    destruct signature as [|c s]; [reflexivity|].
    change (Units.of_ascii (String c s)) with (byte_of_ascii c :: Units.of_ascii s).
    change (byte_of_ascii c :: Units.of_ascii s) with (Units.of_ascii (String c s)).
    rewrite !low_bytes_of_ascii. reflexivity.
  - intros Hkey. unfold Units.verifySignature, verifySignature.
    rewrite importKey_returns by (intros H; apply Hkey, utf8_encode_nil, H).
    unfold hmac_sha256_base64, Units.text.
    rewrite !bytes_of_string_of_bytes by now apply utf8_encode_bytes.
    destruct signature as [|c s]; [reflexivity|].
    change (Units.of_ascii (String c s)) with (byte_of_ascii c :: Units.of_ascii s).
    cbn [bind truthy negb]. f_equal.
    change (byte_of_ascii c :: Units.of_ascii s) with (Units.of_ascii (String c s)).
    set (expected := base64_encode _).
    destruct (String.eqb expected (String c s)) eqn:Heq.
    + apply String.eqb_eq in Heq. rewrite Heq. now apply bytes_eqb_eq.
    + apply String.eqb_neq in Heq.
      destruct (bytes_eqb (Units.of_ascii expected) (Units.of_ascii (String c s))) eqn:Hb;
        [|reflexivity].
      apply bytes_eqb_eq, of_ascii_injective in Hb. now contradiction Heq.
Qed.




(** The inputs of the counterexample, written out. *)
Example mutated_bodies :
  Units.flip_bit 12 0 Sample.cut_emoji = Sample.cut_emoji_mutated
  /\ Units.utf8_encode Sample.cut_emoji
     = (bytes_of_string (Reader.q "{'content':'") ++ REPLACEMENT
          ++ bytes_of_string (Reader.q "'}"))%list
  /\ Units.utf8_encode Sample.cut_emoji_mutated = Units.utf8_encode Sample.cut_emoji
  /\ Units.utf8_encode [0x41; 0xE9; 0x20AC; 0xD83D; 0xDE00]
     = [0x41; 0xC3; 0xA9; 0xE2; 0x82; 0xAC; 0xF0; 0x9F; 0x98; 0x80]
  /\ Units.Buffer_from_base64 [0x141; 0x151; 0x13D; 0x41]
     = Buffer_from_base64 "AQ=A".
Proof. vm_compute. repeat split. Qed.

Example mutated_signatures :
  hmac_sha256_base64 Sample.secret Sample.added
  = "hD5+rFuUR5BmBTL3CPSATnJmkU/rUpN+R2XMvG0XSQI="
  /\ flip_bit 43 0 (hmac_sha256_base64 Sample.secret Sample.added)
     = "hD5+rFuUR5BmBTL3CPSATnJmkU/rUpN+R2XMvG0XSQI<"
  /\ flip_bit 42 1 (hmac_sha256_base64 Sample.secret Sample.added)
     = "hD5+rFuUR5BmBTL3CPSATnJmkU/rUpN+R2XMvG0XSQK="
  /\ verifyTodoistSignature Sample.added
       (Some "hD5+rFuUR5BmBTL3CPSATnJmkU/rUpN+R2XMvG0XSQI<") Sample.secret = true
  /\ verifyTodoistSignature Sample.added
       (Some "hD5+rFuUR5BmBTL3CPSATnJmkU/rUpN+R2XMvG0XSQK=") Sample.secret = true
  /\ verifySignature Sample.added
       (Some "hD5+rFuUR5BmBTL3CPSATnJmkU/rUpN+R2XMvG0XSQK=") Sample.secret = false
  /\ verifyTodoistSignature Sample.added
       (Some "hD5+rFuUR5BmBTL3CPSATnJmkU/rUpN+R2XMvG0XSQM=") Sample.secret = false.
Proof. vm_compute. repeat split. Qed.

(** C3, as amended.  [verifyTodoistSignature] never throws: the [try]
    block always returns, and its value is the result.  It returns false
    when the signature is absent or empty and when the decoded signature
    and the decoded expected digest differ in length.  A signature that is
    not valid base64 is decoded leniently, and is rejected exactly when
    the bytes so decoded are not the digest. *)
Theorem C3_verify_total (rawBody clientSecret : string) (signature : option string) :
  (forall sig, signature = Some sig -> truthy sig = true ->
     compare_signatures sig (hmac_sha256_base64 clientSecret rawBody)
     = Ok (verifyTodoistSignature rawBody signature clientSecret))
  /\ (truthy_opt signature = false ->
      verifyTodoistSignature rawBody signature clientSecret = false)
  /\ (forall sig sigBuffer expectedBuffer,
        signature = Some sig ->
        Buffer_from_base64 sig = Ok sigBuffer ->
        Buffer_from_base64 (hmac_sha256_base64 clientSecret rawBody) = Ok expectedBuffer ->
        List.length sigBuffer <> List.length expectedBuffer ->
        verifyTodoistSignature rawBody signature clientSecret = false)
  /\ (forall sig, signature = Some sig -> valid_base64 sig = false ->
        (verifyTodoistSignature rawBody signature clientSecret = false
         <-> Buffer_from_base64 sig <> Ok (expected_digest clientSecret rawBody))).
Proof.
  split; [|split; [|split]].
  - intros sig -> Htruthy. unfold verifyTodoistSignature.
    rewrite Htruthy. cbn [negb].
    destruct (compare_signatures_returns sig (hmac_sha256_base64 clientSecret rawBody))
      as [b Hb].
    rewrite Hb. reflexivity.
  - destruct signature as [sig|]; cbn [truthy_opt]; [|reflexivity].
    intros Hfalsy. unfold verifyTodoistSignature. now rewrite Hfalsy.
  - intros sig sigBuffer expectedBuffer -> Hsig Hexp Hlen.
    destruct (verifyTodoistSignature rawBody (Some sig) clientSecret) eqn:Hv;
      [|reflexivity].
    apply verifyTodoistSignature_iff in Hv as [_ Hv].
    rewrite signature_decodes in Hexp. rewrite Hv in Hsig.
    apply Ok_inj in Hsig. apply Ok_inj in Hexp. subst sigBuffer expectedBuffer.
    now contradiction Hlen.
  - intros sig -> Hinvalid.
    assert (Htruthy : truthy sig = true) by (destruct sig; [discriminate | reflexivity]).
    pose proof (verifyTodoistSignature_iff rawBody sig clientSecret) as Hiff.
    destruct (verifyTodoistSignature rawBody (Some sig) clientSecret).
    + split; [discriminate|]. intros Hne. exfalso. apply Hne. now apply Hiff.
    + split; [|reflexivity]. intros _ Heq.
      assert (false = true) by (apply Hiff; now split). discriminate.
Qed.

Lemma C3_verify_total_witness :
  verifyTodoistSignature Sample.added None Sample.secret = false
  /\ verifyTodoistSignature Sample.added (Some "AAAA") Sample.secret = false
  /\ compare_signatures "AAAA" (hmac_sha256_base64 Sample.secret Sample.added)
     = Ok (verifyTodoistSignature Sample.added (Some "AAAA") Sample.secret)
  /\ (verifyTodoistSignature Sample.added (Some "%%%") Sample.secret = false
      <-> Buffer_from_base64 "%%%" <> Ok (expected_digest Sample.secret Sample.added)).
Proof.
  split; [|split; [|split]].
  - apply (C3_verify_total Sample.added Sample.secret None). reflexivity.
  - apply (proj1 (proj2 (proj2 (C3_verify_total Sample.added Sample.secret (Some "AAAA"))))
             "AAAA" [0; 0; 0] (expected_digest Sample.secret Sample.added)).
    + reflexivity.
    + reflexivity.
    + apply signature_decodes.
    + rewrite expected_digest_length. simpl. lia.
  - apply (proj1 (C3_verify_total Sample.added Sample.secret (Some "AAAA")) "AAAA").
    + reflexivity.
    + reflexivity.
  - apply (proj2 (proj2 (proj2 (C3_verify_total Sample.added Sample.secret (Some "%%%"))))
             "%%%").
    + reflexivity.
    + reflexivity.
Defined.

(** C3 as stated fails: a signature that is not valid base64, here a
    valid one behind a character outside the alphabet, is accepted. *)
Lemma C3_invalid_base64_accepted :
  ~ (forall (rawBody clientSecret signature : string),
        valid_base64 signature = false ->
        verifyTodoistSignature rawBody (Some signature) clientSecret = false).
Proof.
  intros H.
  assert (Haccepted :
            verifyTodoistSignature Sample.added
              (Some ("*" ++ hmac_sha256_base64 Sample.secret Sample.added))
              Sample.secret = true) by (vm_compute; reflexivity).
  rewrite H in Haccepted.
  - discriminate Haccepted.
  - vm_compute. reflexivity.
Qed.

Example lenient_signatures :
  valid_base64 "hD5+rFuUR5BmBTL3CPSATnJmkU/rUpN+R2XMvG0XSQI=" = true
  /\ valid_base64 "*hD5+rFuUR5BmBTL3CPSATnJmkU/rUpN+R2XMvG0XSQI=" = false
  /\ valid_base64 "hD5+rFuUR5BmBTL3CPSATnJmkU/rUpN+R2XMvG0XSQI" = false
  /\ valid_base64 "hD5+rFuUR5Bm BTL3CPSATnJmkU/rUpN+R2XMvG0XSQI=" = false
  /\ verifyTodoistSignature Sample.added
       (Some "*hD5+rFuUR5BmBTL3CPSATnJmkU/rUpN+R2XMvG0XSQI=") Sample.secret = true
  /\ verifyTodoistSignature Sample.added
       (Some "hD5+rFuUR5BmBTL3CPSATnJmkU/rUpN+R2XMvG0XSQI") Sample.secret = true
  /\ verifyTodoistSignature Sample.added
       (Some "hD5+rFuUR5Bm BTL3CPSATnJmkU/rUpN+R2XMvG0XSQI=") Sample.secret = true
  /\ verifyTodoistSignature Sample.added (Some "not base64!") Sample.secret = false.
Proof. vm_compute. repeat split. Qed.

(** ** Lines and blocks *)

Lemma append_assoc (a b c : string) : (a ++ b) ++ c = a ++ b ++ c.
Proof. induction a as [|x a IH]; simpl; [reflexivity | now rewrite IH]. Qed.

Lemma join_cons (sep x : string) (l : list string) :
  l <> [] -> join sep (x :: l) = x ++ sep ++ join sep l.
Proof. destruct l; [congruence | reflexivity]. Qed.

Lemma join_app (sep : string) (l m : list string) :
  l <> [] -> m <> [] ->
  join sep (l ++ m)%list = join sep l ++ sep ++ join sep m.
Proof.
  intros Hl Hm. induction l as [|x l IH]; [congruence|].
  destruct l as [|y l].
  - cbn [app]. now rewrite join_cons.
  - change ((x :: y :: l) ++ m)%list with (x :: ((y :: l) ++ m))%list.
    rewrite join_cons by discriminate.
    rewrite IH by discriminate.
    rewrite (join_cons sep x (y :: l)) by discriminate.
    now rewrite !append_assoc.
Qed.

Lemma join_terminator (l : list string) :
  l <> [] ->
  join nl (l ++ [EmptyString; "---"; EmptyString])%list = join nl l ++ terminator.
Proof. intros Hl. rewrite join_app by (auto; discriminate). reflexivity. Qed.

Lemma push_nonempty (A : Type) (l items : list A) : l <> [] -> push l items <> [].
Proof. destruct l; [congruence | discriminate]. Qed.

Lemma push_push (A : Type) (l a b : list A) : push (push l a) b = push l (a ++ b)%list.
Proof. unfold push. now rewrite app_assoc. Qed.

Lemma split_nonempty (sep : ascii) (s : string) : split sep s <> [].
Proof.
  induction s as [|c s IH]; simpl; [discriminate|].
  destruct (Ascii.eqb c sep); [discriminate|].
  destruct (split sep s); [congruence | discriminate].
Qed.

Lemma split_app (sep : ascii) (a b : string) :
  split sep (a ++ String sep b) = (split sep a ++ split sep b)%list.
Proof.
  induction a as [|c a IH]; simpl.
  - now rewrite Ascii.eqb_refl.
  - destruct (Ascii.eqb c sep); [now rewrite IH|].
    rewrite IH. pose proof (split_nonempty sep a) as Hne.
    destruct (split sep a); [congruence | reflexivity].
Qed.

Lemma split_terminated (prefix : string) :
  split LF (prefix ++ terminator)
  = (split LF prefix ++ [EmptyString; "---"; EmptyString])%list.
Proof. unfold terminator, nl. cbn [append]. now rewrite split_app. Qed.

Lemma push_metadata_terminated (rt : DateRuntime) (task : TodoistTask) (lines : list string) :
  lines <> [] ->
  exists prefix, push_metadata rt task lines = prefix ++ terminator.
Proof.
  intros Hlines. unfold push_metadata. cbv zeta.
  rewrite !push_push. cbn [app].
  match goal with
  | |- context [join nl (push ?L [EmptyString; "---"; EmptyString])] =>
      exists (join nl L); unfold push at 1; apply join_terminator
  end.
  repeat match goal with
         | |- (match ?x with _ => _ end) <> [] => destruct x
         | |- push _ _ <> [] => apply push_nonempty
         end; assumption.
Qed.

(** ** The formatter *)

Lemma formatTaskAsMarkdown_deleted (rt : DateRuntime) (task : TodoistTask) :
  formatTaskAsMarkdown rt task "item:deleted"
  = join nl ["### Task Deleted"; EmptyString; "~~" ++ content task ++ "~~"] ++ terminator.
Proof. reflexivity. Qed.

Lemma join_heading (a b c x : string) (l : list string) :
  join nl (a :: b :: c :: x :: l) = join nl [a; b; c] ++ nl ++ join nl (x :: l).
Proof. apply (join_app nl [a; b; c] (x :: l)); discriminate. Qed.

Lemma formatTaskMarkdown_deleted (rt : DateRuntime) (task : TodoistTask) :
  exists rest,
    formatTaskMarkdown rt task "item:deleted"
    = Ok (join nl ["### Task Event: item:deleted"; EmptyString;
                   "**" ++ content task ++ "**"] ++ rest).
Proof.
  unfold formatTaskMarkdown. cbn [String.eqb Ascii.eqb Bool.eqb negb bind].
  repeat match goal with
         | |- context [match ?x with _ => _ end] => destruct x
         end;
    unfold push; cbn [app]; rewrite join_heading; eexists; reflexivity.
Qed.

(** C5 at the failing input: on a deleted task the Edge formatter writes
    the generic heading, the title in bold and the metadata, where the
    library formatter writes the block the policy asks for. *)
Theorem C5_edge_formatter_misses_deleted :
  formatTaskMarkdown Reference.date_engine Sample.task "item:deleted"
  = Ok ("### Task Event: item:deleted" ++ nl ++ nl ++ "**Buy milk**" ++ nl
        ++ "- **Priority:** Urgent" ++ nl ++ "- **Due:** 2024-01-15 (recurring)" ++ nl
        ++ "- **Labels:** errand" ++ nl ++ nl ++ "> 2% fat" ++ nl ++ nl ++ "---" ++ nl)
  /\ formatTaskAsMarkdown Reference.date_engine Sample.task "item:deleted"
     = "### Task Deleted" ++ nl ++ nl ++ "~~Buy milk~~" ++ nl ++ nl ++ "---" ++ nl.
Proof. split; vm_compute; reflexivity. Qed.

(** C6: the formatter never throws, but a string the date engine does not
    recognise comes back as the text [Invalid Date], not unchanged. *)
Theorem C6_unrecognised_date (rt : DateRuntime) (isoString : string) :
  (exists text, render_date rt isoString = Ok text /\ formatDateTime rt isoString = text)
  /\ (Date_parse rt isoString = None -> formatDateTime rt isoString = "Invalid Date").
Proof.
  unfold formatDateTime, render_date, new_Date, toLocaleString. cbn [bind].
  split.
  - destruct (Date_parse rt isoString); eexists; split; reflexivity.
  - intros ->. reflexivity.
Qed.

Lemma C6_unrecognised_date_witness :
  formatDateTime Reference.date_engine "not-a-date" = "Invalid Date".
Proof.
  apply (proj2 (C6_unrecognised_date Reference.date_engine "not-a-date")).
  reflexivity.
Defined.

(** C7: a completed block holds the heading, the struck title and, when
    the completion timestamp is present (and not empty), the completion
    line, then the terminator; priority, due date, labels and description
    of the task do not reach it, in either formatter. *)
Theorem C7_completed_block (rt : DateRuntime) (task : TodoistTask) :
  formatTaskAsMarkdown rt task "item:completed"
  = join nl (completed_lines task (formatDateTime rt)) ++ terminator
  /\ formatTaskMarkdown rt task "item:completed"
     = Ok (join nl (completed_lines task (default_date_text rt)) ++ terminator)
  /\ (forall task',
        content task' = content task -> completed_at task' = completed_at task ->
        formatTaskAsMarkdown rt task' "item:completed"
        = formatTaskAsMarkdown rt task "item:completed"
        /\ formatTaskMarkdown rt task' "item:completed"
           = formatTaskMarkdown rt task "item:completed").
Proof.
  split; [|split].
  - unfold formatTaskAsMarkdown, completed_lines.
    cbn [String.eqb Ascii.eqb Bool.eqb]. cbv zeta.
    destruct (completed_at task) as [c|]; [destruct (truthy c)|]; reflexivity.
  - unfold formatTaskMarkdown, completed_lines, default_date_text, new_Date, toLocaleString.
    cbn [String.eqb Ascii.eqb Bool.eqb negb]. cbv zeta.
    destruct (completed_at task) as [c|];
      [destruct (truthy c); [destruct (Date_parse rt c)|]|];
      cbn [bind]; unfold push; rewrite join_terminator by discriminate; reflexivity.
  - intros task' Hcontent Hdone.
    unfold formatTaskAsMarkdown, formatTaskMarkdown.
    cbn [String.eqb Ascii.eqb Bool.eqb negb]. cbv zeta.
    rewrite Hcontent, Hdone. split; reflexivity.
Qed.

Lemma C7_completed_block_witness :
  formatTaskAsMarkdown Reference.date_engine Sample.bare_task "item:completed"
  = formatTaskAsMarkdown Reference.date_engine Sample.task "item:completed"
  /\ formatTaskMarkdown Reference.date_engine Sample.bare_task "item:completed"
     = formatTaskMarkdown Reference.date_engine Sample.task "item:completed".
Proof.
  apply (proj2 (proj2 (C7_completed_block Reference.date_engine Sample.task))
           Sample.bare_task).
  - reflexivity.
  - reflexivity.
Defined.

Example completed_sample :
  formatTaskAsMarkdown Reference.date_engine Sample.task "item:completed"
  = "### Task Completed" ++ nl ++ nl ++ "~~Buy milk~~" ++ nl ++ nl
    ++ "- **Completed:** Mon, Jan 15, 2024, 2:00 PM" ++ nl ++ nl ++ "---" ++ nl
  /\ formatTaskMarkdown Reference.date_engine Sample.task "item:completed"
     = Ok ("### Task Completed" ++ nl ++ nl ++ "~~Buy milk~~" ++ nl ++ nl
           ++ "- **Completed:** 1/15/2024, 2:00:00 PM" ++ nl ++ nl ++ "---" ++ nl)
  /\ formatTaskAsMarkdown Reference.date_engine Sample.task "item:added"
     = "### New Task Added" ++ nl ++ nl ++ "**Buy milk**" ++ nl ++ nl
       ++ "- **Priority:** Urgent" ++ nl ++ "- **Due:** 2024-01-15 (recurring)" ++ nl
       ++ "- **Labels:** errand" ++ nl ++ nl ++ "> 2% fat" ++ nl ++ nl ++ "---" ++ nl.
Proof. vm_compute. repeat split. Qed.

(** C8: whatever the task and the event kind, the block of either
    formatter ends with the terminator, so its last three lines are a
    blank line, the separator and a blank line. *)
Theorem C8_block_terminated (rt : DateRuntime) (task : TodoistTask) (eventName : string) :
  (exists prefix,
      formatTaskAsMarkdown rt task eventName = prefix ++ terminator
      /\ split LF (formatTaskAsMarkdown rt task eventName)
         = (split LF prefix ++ [EmptyString; "---"; EmptyString])%list)
  /\ (exists prefix block,
         formatTaskMarkdown rt task eventName = Ok block
         /\ block = prefix ++ terminator
         /\ split LF block = (split LF prefix ++ [EmptyString; "---"; EmptyString])%list).
Proof.
  split.
  - assert (H : exists prefix, formatTaskAsMarkdown rt task eventName = prefix ++ terminator).
    { unfold formatTaskAsMarkdown. cbv zeta.
      repeat match goal with
             | |- context [if String.eqb eventName ?k then _ else _] =>
                 destruct (String.eqb eventName k)
             end;
        try (apply push_metadata_terminated; unfold push; cbn [app]; discriminate);
        eexists; reflexivity. }
    destruct H as [prefix H]. exists prefix. split; [exact H|].
    rewrite H. apply split_terminated.
  - assert (H : exists prefix,
               formatTaskMarkdown rt task eventName = Ok (prefix ++ terminator)).
    { unfold formatTaskMarkdown, new_Date, toLocaleString. cbv zeta.
      match goal with
      | |- context [bind ?m _] =>
          assert (Hm : exists lines, m = Ok lines /\ lines <> [])
      end.
      { repeat match goal with
               | |- context [Date_parse rt ?c] => destruct (Date_parse rt c)
               | |- context [match completed_at task with _ => _ end] =>
                   destruct (completed_at task)
               | |- context [if ?x then _ else _] => destruct x
               end; cbn [bind]; eexists; (split; [reflexivity|]);
          unfold push; discriminate. }
      destruct Hm as (lines & -> & Hlines). cbn [bind].
      match goal with
      | |- context [join nl (push ?L [EmptyString; "---"; EmptyString])] =>
          exists (join nl L); unfold push at 1; rewrite join_terminator; [reflexivity|]
      end.
      repeat match goal with
             | |- (match ?x with _ => _ end) <> [] => destruct x
             | |- push _ _ <> [] => apply push_nonempty
             end; assumption. }
    destruct H as [prefix H]. exists prefix, (prefix ++ terminator).
    split; [exact H|]. split; [reflexivity|]. apply split_terminated.
Qed.

(** ** The outbound call *)

(** C10, as amended.  [saveToDailyNote] sends one request whose JSON body
    carries [noTimeStamp] false.  It returns, with no value, exactly when
    [fetch] resolves with an answer whose status is ok.  On an answer that
    is not ok it throws an [Error] whose message holds the status and the
    text of the answer; when [fetch] rejects, or the text of such an answer
    cannot be read, that rejection reaches the caller as it is. *)
Theorem C10_saveToDailyNote (rt : Runtime) (mdText apiToken spaceId : string) :
  snd (saveToDailyNote rt mdText apiToken spaceId)
  = [saveToDailyNote_request mdText apiToken spaceId]
  /\ get_property (saveToDailyNote_body mdText spaceId) "noTimeStamp" = Some (JBool false)
  /\ request_body (saveToDailyNote_request mdText apiToken spaceId)
     = "{" ++ quote "spaceId" ++ ":" ++ quote spaceId ++ "," ++ quote "mdText" ++ ":"
           ++ quote mdText ++ "," ++ quote "noTimeStamp" ++ ":false}"
  /\ (fst (saveToDailyNote rt mdText apiToken spaceId) = Ok tt
      <-> exists response,
            fetch rt (saveToDailyNote_request mdText apiToken spaceId) = Ok response
            /\ response_ok response = true)
  /\ (forall response errorText,
        fetch rt (saveToDailyNote_request mdText apiToken spaceId) = Ok response ->
        response_ok response = false -> response_text response = Ok errorText ->
        fst (saveToDailyNote rt mdText apiToken spaceId)
        = Throw (Error ("Capacities API error "
                          ++ string_of_Z (response_status response)
                          ++ ": " ++ errorText)))
  /\ (forall e,
        fetch rt (saveToDailyNote_request mdText apiToken spaceId) = Throw e ->
        fst (saveToDailyNote rt mdText apiToken spaceId) = Throw e)
  /\ (forall response e,
        fetch rt (saveToDailyNote_request mdText apiToken spaceId) = Ok response ->
        response_ok response = false -> response_text response = Throw e ->
        fst (saveToDailyNote rt mdText apiToken spaceId) = Throw e).
Proof.
  unfold saveToDailyNote, saveToDailyNote_request. cbn [fst snd].
  split; [reflexivity|]. split; [reflexivity|].
  split.
  { cbn [request_body saveToDailyNote_body JSON_stringify map fst snd join].
    rewrite !append_assoc. reflexivity. }
  split; [|split; [|split]].
  - destruct (fetch rt _) as [response|e]; cbn [bind].
    + destruct (response_ok response) eqn:Hok; cbn [negb].
      * split; [eauto | reflexivity].
      * split.
        -- destruct (response_text response); cbn [bind]; discriminate.
        -- intros (response' & Hsame & Hok').
           apply Ok_inj in Hsame. subst response'.
           rewrite Hok in Hok'. discriminate Hok'.
    + split; [discriminate|]. intros (response & Hnone & _). discriminate Hnone.
  - intros response errorText -> Hok Htext. cbn [bind]. rewrite Hok. cbn [negb].
    rewrite Htext. reflexivity.
  - intros e ->. reflexivity.
  - intros response e -> Hok Htext. cbn [bind]. rewrite Hok. cbn [negb].
    rewrite Htext. reflexivity.
Qed.

Lemma C10_saveToDailyNote_witness :
  fst (saveToDailyNote (Reference.host (Reference.answering 503 "Service Unavailable"))
         "note" "token" "space")
  = Throw (Error "Capacities API error 503: Service Unavailable")
  /\ fst (saveToDailyNote (Reference.host (Reference.answering 200 "ok"))
            "note" "token" "space") = Ok tt
  /\ fst (saveToDailyNote (Reference.host Reference.unreachable) "note" "token" "space")
     = Throw (TypeError "fetch failed").
Proof.
  split; [|split].
  - apply (proj1 (proj2 (proj2 (proj2 (proj2
             (C10_saveToDailyNote
                (Reference.host (Reference.answering 503 "Service Unavailable"))
                "note" "token" "space")))))
             (mkResponse 503 (Ok "Service Unavailable")) "Service Unavailable");
      reflexivity.
  - apply (proj1 (proj2 (proj2 (proj2
             (C10_saveToDailyNote (Reference.host (Reference.answering 200 "ok"))
                "note" "token" "space"))))).
    exists (mkResponse 200 (Ok "ok")). split; reflexivity.
  - apply (proj1 (proj2 (proj2 (proj2 (proj2 (proj2
             (C10_saveToDailyNote (Reference.host Reference.unreachable)
                "note" "token" "space"))))))
             (TypeError "fetch failed")).
    reflexivity.
Defined.

(** C10 as stated fails: when the note service cannot be reached,
    [saveToDailyNote] throws although no answer with a status that is not
    ok has come, and the error carries neither status nor text. *)
Lemma C10_throws_without_answer :
  ~ (forall (rt : Runtime) (mdText apiToken spaceId : string),
        (exists e, fst (saveToDailyNote rt mdText apiToken spaceId) = Throw e)
        <-> (exists response,
               fetch rt (saveToDailyNote_request mdText apiToken spaceId) = Ok response
               /\ response_ok response = false)).
Proof.
  intros H.
  destruct (proj1 (H (Reference.host Reference.unreachable) "note" "token" "space"))
    as (response & Hresponse & _).
  - exists (TypeError "fetch failed"). reflexivity.
  - discriminate Hresponse.
Qed.

Example outbound_body :
  map request_body
      (snd (saveToDailyNote (Reference.host Reference.unreachable)
              ("a " ++ dq ++ "b" ++ dq ++ nl) "token" "space-1"))
  = [Reader.q "{'spaceId':'space-1','mdText':'a \'b\'\n','noTimeStamp':false}"]
  /\ fst (saveToDailyNote (Reference.host Reference.unreachable) "x" "token" "space-1")
     = Throw (TypeError "fetch failed").
Proof. vm_compute. split; reflexivity. Qed.

(** ** The handlers *)

Lemma unsupported_has (name : string) :
  existsb (String.eqb name) SUPPORTED_EVENTS = false ->
  SUPPORTED_EVENTS_has (Some (JString name)) = false.
Proof. intros H. exact H. Qed.

(** The Node handler answers 401 to a request that fails verification,
    before it parses the body or calls the note service. *)
Lemma handler_rejects_invalid_signature
    (rt : Runtime) (env : process_env) (req : VercelRequest)
    (clientSecret capacitiesToken spaceId : string) :
  req_method req = "POST" ->
  configured (TODOIST_CLIENT_SECRET env) = Some clientSecret ->
  configured (CAPACITIES_API_TOKEN env) = Some capacitiesToken ->
  configured (CAPACITIES_SPACE_ID env) = Some spaceId ->
  verifyTodoistSignature (getRawBody req) (getSignatureFromHeaders (req_headers req))
    clientSecret = false ->
  handler rt env req = unauthorized.
Proof.
  intros Hpost Hsecret Htoken Hspace Hverify. unfold handler.
  rewrite Hpost, Hsecret, Htoken, Hspace, Hverify. reflexivity.
Qed.

(** No path of the Edge handler answers 401. *)
Lemma edge_handler_never_unauthorized
    (rt : Runtime) (env : process_env) (request : EdgeRequest) (r : response) :
  ending (edge_handler rt env request) = Responded r -> status r <> 401.
Proof.
  unfold edge_handler, new_Response.
  repeat match goal with
         | |- context [match ?x with _ => _ end] => destruct x
         end;
    cbn [ending]; intros H; inversion H; subst r; cbn [status]; discriminate.
Qed.

(** C1 at the failing input: the Edge handler computes the verdict of
    [verifySignature] and goes on whatever it is.  A POST without any
    signature is parsed, formatted and forwarded, and answered 200. *)
Theorem C1_edge_handler_skips_verification :
  verifySignature Sample.added None Sample.secret = false
  /\ edge_handler (Reference.host (Reference.answering 200 EmptyString)) Sample.env
       (Sample.edge_post None Sample.added)
     = mkRun (Responded (mkHttpResponse 200
                           (Reader.q "{'status':'ok','event':'item:added'}")))
         [mkRequest "https://api.capacities.io/save-to-daily-note" "POST"
            [("Content-Type", "application/json");
             ("Authorization", "Bearer capacities-token")]
            (JSON_stringify
               (JObject [("spaceId", JString "space-1");
                         ("mdText",
                          JString ("### New Task Added" ++ nl ++ nl ++ "**Buy milk**" ++ nl
                                   ++ "- **Priority:** Urgent" ++ nl
                                   ++ "- **Labels:** errand" ++ nl ++ nl ++ "---" ++ nl))]))]
  /\ handler (Reference.host (Reference.answering 200 EmptyString)) Sample.env
       (Sample.post Sample.no_headers Sample.added)
     = unauthorized.
Proof. vm_compute. repeat split. Qed.

(** C9: a POST with the configuration present, a signature that verifies
    and a body that parses to an object whose [event_name] is a string
    outside the supported set is answered 200 with status [ignored] and
    that name, and nothing is sent to the note service; in the Edge handler
    the same holds whatever the signature. *)
Theorem C9_unsupported_event_ignored
    (rt : Runtime) (env : process_env) (req : VercelRequest) (request : EdgeRequest)
    (clientSecret capacitiesToken spaceId name : string) (payload : json) :
  configured (TODOIST_CLIENT_SECRET env) = Some clientSecret ->
  configured (CAPACITIES_API_TOKEN env) = Some capacitiesToken ->
  configured (CAPACITIES_SPACE_ID env) = Some spaceId ->
  get_property payload "event_name" = Some (JString name) ->
  existsb (String.eqb name) SUPPORTED_EVENTS = false ->
  (req_method req = "POST" ->
   verifyTodoistSignature (getRawBody req) (getSignatureFromHeaders (req_headers req))
     clientSecret = true ->
   JSON_parse rt (getRawBody req) = Ok payload ->
   handler rt env req = ignored name)
  /\ (edge_method request = "POST" ->
      JSON_parse rt (edge_text request) = Ok payload ->
      edge_handler rt env request = ignored name).
Proof.
  intros Hsecret Htoken Hspace Hname Hunsupported.
  assert (Hobject : exists f, payload = JObject f).
  { destruct payload; try discriminate Hname. eauto. }
  destruct Hobject as [f ->].
  split.
  - intros Hpost Hverify Hparse. unfold handler.
    rewrite Hpost, Hsecret, Htoken, Hspace, Hverify, Hparse, Hname.
    cbn [negb String.eqb Ascii.eqb Bool.eqb].
    rewrite (unsupported_has name Hunsupported). reflexivity.
  - intros Hpost Hparse. unfold edge_handler.
    rewrite Hpost, Hsecret, Htoken, Hspace, Hparse, Hname.
    cbn [negb String.eqb Ascii.eqb Bool.eqb].
    rewrite (unsupported_has name Hunsupported). reflexivity.
Qed.

Lemma C9_unsupported_event_ignored_witness :
  handler Sample.offline Sample.env
    (Sample.post (Sample.signed_headers (Sample.sign Sample.archived)) Sample.archived)
  = ignored "item:archived"
  /\ edge_handler Sample.offline Sample.env
       (Sample.edge_post (Some (Sample.sign Sample.archived)) Sample.archived)
     = ignored "item:archived".
Proof.
  pose proof (C9_unsupported_event_ignored Sample.offline Sample.env
                (Sample.post (Sample.signed_headers (Sample.sign Sample.archived))
                             Sample.archived)
                (Sample.edge_post (Some (Sample.sign Sample.archived)) Sample.archived)
                Sample.secret "capacities-token" "space-1" "item:archived"
                (JObject [("event_name", JString "item:archived");
                          ("event_data", JObject [("content", JString "Buy milk")])])
                eq_refl eq_refl eq_refl eq_refl eq_refl) as [Hnode Hedge].
  split.
  - apply Hnode.
    + reflexivity.
    + vm_compute. reflexivity.
    + vm_compute. reflexivity.
  - apply Hedge.
    + reflexivity.
    + vm_compute. reflexivity.
Defined.

Example ignored_response :
  ignored "item:archived"
  = mkRun (Responded (mkHttpResponse 200
                        (Reader.q "{'status':'ignored','event':'item:archived'}"))) [].
Proof. vm_compute. reflexivity. Qed.

(** ** The bytes that are verified *)

Lemma handler_unauthorized_iff
    (rt : Runtime) (env : process_env) (req : VercelRequest)
    (clientSecret capacitiesToken spaceId : string) :
  req_method req = "POST" ->
  configured (TODOIST_CLIENT_SECRET env) = Some clientSecret ->
  configured (CAPACITIES_API_TOKEN env) = Some capacitiesToken ->
  configured (CAPACITIES_SPACE_ID env) = Some spaceId ->
  (handler rt env req = unauthorized
   <-> verifyTodoistSignature (getRawBody req) (getSignatureFromHeaders (req_headers req))
         clientSecret = false).
Proof.
  intros Hpost Hsecret Htoken Hspace. split.
  - unfold handler. rewrite Hpost, Hsecret, Htoken, Hspace.
    cbn [negb String.eqb Ascii.eqb Bool.eqb].
    destruct (verifyTodoistSignature _ _ _); [|reflexivity].
    cbn [negb]. unfold unauthorized, json_response.
    repeat match goal with
           | |- context [match ?x with _ => _ end] => destruct x
           end; intros H; inversion H.
  - now apply handler_rejects_invalid_signature with (capacitiesToken := capacitiesToken)
                                                     (spaceId := spaceId).
Qed.

(** C4, as amended.  When the host hands the body over as a string, as a
    [Buffer] or unread in the stream, the Node handler verifies the
    signature over the text the received bytes decode to; when the bytes
    are well-formed UTF-8 these are exactly the bytes received, and the
    handler answers 401 exactly when those bytes fail verification.  When
    the host has already parsed the body into an object or an array, the
    handler verifies over [JSON.stringify] of that value. *)
Theorem C4_verified_bytes
    (rt : Runtime) (env : process_env) (wire : list Z) (req : VercelRequest)
    (clientSecret capacitiesToken spaceId : string) :
  delivered rt wire req ->
  (preparsed req = false -> getRawBody req = toString_utf8 wire)
  /\ (preparsed req = false -> well_formed_utf8 wire = true ->
      bytes_of_string (getRawBody req) = wire)
  /\ (preparsed req = true ->
      exists j, JSON_parse rt (toString_utf8 wire) = Ok j /\ req_body req = BodyValue j
                /\ getRawBody req = JSON_stringify j)
  /\ (req_method req = "POST" ->
      configured (TODOIST_CLIENT_SECRET env) = Some clientSecret ->
      configured (CAPACITIES_API_TOKEN env) = Some capacitiesToken ->
      configured (CAPACITIES_SPACE_ID env) = Some spaceId ->
      preparsed req = false ->
      well_formed_utf8 wire = true ->
      (handler rt env req = unauthorized
       <-> verifyTodoistSignature (string_of_bytes wire)
             (getSignatureFromHeaders (req_headers req)) clientSecret = false)).
Proof.
  intros Hdelivered.
  assert (Hraw : preparsed req = false -> getRawBody req = toString_utf8 wire).
  { unfold preparsed, getRawBody.
    destruct Hdelivered as [req Hb | req Hb | req Hb Hs | req f _ Hb | req l _ Hb];
      rewrite Hb; try discriminate; intros _.
    - reflexivity.
    - reflexivity.
    - now rewrite Hs. }
  split; [exact Hraw|]. split; [|split].
  - intros Hnot Hwf. rewrite (Hraw Hnot). now apply toString_utf8_bytes.
  - unfold preparsed, getRawBody.
    destruct Hdelivered as [req Hb | req Hb | req Hb Hs | req f Hp Hb | req l Hp Hb];
      rewrite Hb; try discriminate; intros _; eauto.
  - intros Hpost Hsecret Htoken Hspace Hnot Hwf.
    rewrite <- (toString_utf8_well_formed wire Hwf), <- (Hraw Hnot).
    now apply handler_unauthorized_iff with (capacitiesToken := capacitiesToken)
                                            (spaceId := spaceId).
Qed.

Lemma C4_verified_bytes_witness :
  bytes_of_string (getRawBody (Sample.post_buffer Sample.no_headers
                                 (bytes_of_string Sample.added_spaced)))
  = bytes_of_string Sample.added_spaced
  /\ (exists j, JSON_parse Sample.offline
                  (toString_utf8 (bytes_of_string Sample.added_spaced)) = Ok j
                /\ req_body (Sample.post_parsed Sample.no_headers Sample.added_spaced)
                   = BodyValue j
                /\ getRawBody (Sample.post_parsed Sample.no_headers Sample.added_spaced)
                   = JSON_stringify j)
  /\ (handler Sample.offline Sample.env (Sample.post Sample.no_headers Sample.added_spaced)
      = unauthorized
      <-> verifyTodoistSignature (string_of_bytes (bytes_of_string Sample.added_spaced))
            (getSignatureFromHeaders Sample.no_headers) Sample.secret = false).
Proof.
  assert (Htext : delivered Sample.offline (bytes_of_string Sample.added_spaced)
                    (Sample.post Sample.no_headers Sample.added_spaced)).
  { apply delivered_text. vm_compute. reflexivity. }
  assert (Hbuffer : delivered Sample.offline (bytes_of_string Sample.added_spaced)
                      (Sample.post_buffer Sample.no_headers
                         (bytes_of_string Sample.added_spaced))).
  { apply delivered_buffer. reflexivity. }
  assert (Hparsed : delivered Sample.offline (bytes_of_string Sample.added_spaced)
                      (Sample.post_parsed Sample.no_headers Sample.added_spaced)).
  { apply (delivered_parsed_object _ _ _ (Sample.fields_of Sample.added_spaced));
      vm_compute; reflexivity. }
  split; [|split].
  - apply (proj1 (proj2 (C4_verified_bytes Sample.offline Sample.env
                    (bytes_of_string Sample.added_spaced)
                    (Sample.post_buffer Sample.no_headers
                       (bytes_of_string Sample.added_spaced))
                    Sample.secret "capacities-token" "space-1" Hbuffer)));
      vm_compute; reflexivity.
  - apply (proj1 (proj2 (proj2 (C4_verified_bytes Sample.offline Sample.env
                    (bytes_of_string Sample.added_spaced)
                    (Sample.post_parsed Sample.no_headers Sample.added_spaced)
                    Sample.secret "capacities-token" "space-1" Hparsed)))).
    vm_compute. reflexivity.
  - apply (proj2 (proj2 (proj2 (C4_verified_bytes Sample.offline Sample.env
                    (bytes_of_string Sample.added_spaced)
                    (Sample.post Sample.no_headers Sample.added_spaced)
                    Sample.secret "capacities-token" "space-1" Htext))));
      vm_compute; reflexivity.
Defined.

(** C4 as stated fails in two ways.  A body the host has parsed reaches
    the verification re-serialised, without the white space it was sent
    with; and a body handed over as a [Buffer] whose bytes are not
    well-formed UTF-8 reaches it with U+FFFD in their place. *)
Lemma C4_verified_bytes_differ :
  ~ (forall (rt : Runtime) (wire : list Z) (req : VercelRequest),
        delivered rt wire req -> well_formed_utf8 wire = true ->
        bytes_of_string (getRawBody req) = wire)
  /\ ~ (forall (rt : Runtime) (wire : list Z) (req : VercelRequest),
          delivered rt wire req -> preparsed req = false ->
          bytes_of_string (getRawBody req) = wire).
Proof.
  split; intros H.
  - specialize (H Sample.offline (bytes_of_string Sample.added_spaced)
                  (Sample.post_parsed Sample.no_headers Sample.added_spaced)).
    assert (Hraw : bytes_eqb
                     (bytes_of_string
                        (getRawBody (Sample.post_parsed Sample.no_headers
                                       Sample.added_spaced)))
                     (bytes_of_string Sample.added_spaced) = false)
      by (vm_compute; reflexivity).
    rewrite H in Hraw.
    + rewrite (proj2 (bytes_eqb_eq _ _) eq_refl) in Hraw. discriminate Hraw.
    + apply (delivered_parsed_object _ _ _ (Sample.fields_of Sample.added_spaced));
        vm_compute; reflexivity.
    + vm_compute. reflexivity.
  - specialize (H Sample.offline Sample.latin1
                  (Sample.post_buffer Sample.no_headers Sample.latin1)).
    assert (Hraw : bytes_eqb
                     (bytes_of_string
                        (getRawBody (Sample.post_buffer Sample.no_headers Sample.latin1)))
                     Sample.latin1 = false)
      by (vm_compute; reflexivity).
    rewrite H in Hraw.
    + rewrite (proj2 (bytes_eqb_eq _ _) eq_refl) in Hraw. discriminate Hraw.
    + apply delivered_buffer. reflexivity.
    + reflexivity.
Qed.

(** A request signed over bytes that are not UTF-8 is rejected, although
    the signature verifies over the bytes received. *)
Example latin1_request_rejected :
  verifyTodoistSignature (string_of_bytes Sample.latin1)
    (Some (Sample.sign_bytes Sample.latin1)) Sample.secret = true
  /\ handler Sample.offline Sample.env
       (Sample.post_buffer (Sample.signed_headers (Sample.sign_bytes Sample.latin1))
                           Sample.latin1)
     = unauthorized
  /\ getRawBody (Sample.post_buffer Sample.no_headers Sample.latin1)
     = Reader.q "{'event_name':'item:added','event_data':{'content':'Caf"
       ++ string_of_bytes REPLACEMENT ++ Reader.q "'}}".
Proof. vm_compute. repeat split. Qed.

(** A correctly signed request is rejected once the host has parsed it,
    and accepted when its text is handed over as received. *)
Example preparsed_request_rejected :
  let rt := Reference.host (Reference.answering 200 EmptyString) in
  let signature := hmac_sha256_base64 Sample.secret Sample.added_spaced in
  verifyTodoistSignature Sample.added_spaced (Some signature) Sample.secret = true
  /\ handler rt Sample.env
       (Sample.post_parsed (Sample.signed_headers signature) Sample.added_spaced)
     = unauthorized
  /\ ending (handler rt Sample.env
               (Sample.post (Sample.signed_headers signature) Sample.added_spaced))
     = Responded (mkHttpResponse 200 (Reader.q "{'status':'ok','event':'item:added'}")).
Proof. vm_compute. repeat split. Qed.

(** ** Further runs of the formatter and of the handlers *)

Example added_normal_priority :
  formatTaskAsMarkdown Reference.date_engine
    (mkTask "2" "Call Ann" (" " ++ nl ++ string_of_bytes [0xC2; 0xA0]) "p" None None P1
            (Some (mkDue "2024-03-01" None None None None (Some "2024-03-01T09:30:00")))
            [] false None None None None)
    "item:added"
  = "### New Task Added" ++ nl ++ nl ++ "**Call Ann**" ++ nl ++ nl
    ++ "- **Due:** Fri, Mar 1, 2024, 9:30 AM" ++ nl ++ nl ++ "---" ++ nl.
Proof. vm_compute. reflexivity. Qed.

Example description_blockquote :
  formatTaskAsMarkdown Reference.date_engine
    (mkTask "3" "Plan" ("first" ++ nl ++ "second") "p" None None P2 None
            ["a"; "b"] false None None None None)
    "item:uncompleted"
  = "### Task Reopened" ++ nl ++ nl ++ "**Plan**" ++ nl ++ nl
    ++ "- **Priority:** Medium" ++ nl ++ "- **Labels:** a, b" ++ nl ++ nl
    ++ "> first" ++ nl ++ "> second" ++ nl ++ nl ++ "---" ++ nl.
Proof. vm_compute. reflexivity. Qed.

Example node_handler_runs :
  let rt := Reference.host (Reference.answering 503 "down") in
  ending (handler rt Sample.env
            (Sample.post (Sample.signed_headers (Sample.sign Sample.added)) Sample.added))
  = Responded (mkHttpResponse 500 (Reader.q "{'error':'Failed to save to Capacities'}"))
  /\ ending (handler rt Sample.env
               (Sample.post (Sample.signed_headers (Sample.sign "{oops")) "{oops"))
     = Responded (mkHttpResponse 400 (Reader.q "{'error':'Invalid payload'}"))
  /\ ending (handler rt Sample.env
               (mkVercelRequest "GET" Sample.no_headers BodyUndefined []))
     = Responded (mkHttpResponse 405 (Reader.q "{'error':'Method not allowed'}"))
  /\ ending (handler rt (mkEnv (Some Sample.secret) None (Some "space-1"))
               (Sample.post Sample.no_headers Sample.added))
     = Responded (mkHttpResponse 500 (Reader.q "{'error':'Server configuration error'}"))
  /\ ending (edge_handler rt Sample.env (Sample.edge_post None Sample.added))
     = Responded (mkHttpResponse 500
                    (Reader.q "{'error':'Capacities API error','details':'down'}")).
Proof. vm_compute. repeat split. Qed.

(** * Further properties *)

(** ** The guards of the handlers *)

Lemma config_of_Some (env : process_env) (clientSecret capacitiesToken spaceId : string) :
  config_of env = Some (clientSecret, capacitiesToken, spaceId)
  <-> configured (TODOIST_CLIENT_SECRET env) = Some clientSecret
      /\ configured (CAPACITIES_API_TOKEN env) = Some capacitiesToken
      /\ configured (CAPACITIES_SPACE_ID env) = Some spaceId.
Proof.
  unfold config_of.
  destruct (configured (TODOIST_CLIENT_SECRET env)), (configured (CAPACITIES_API_TOKEN env)),
    (configured (CAPACITIES_SPACE_ID env)); split; intros H;
    try discriminate H; try (destruct H as (H1 & H2 & H3); discriminate).
  - inversion H. auto.
  - destruct H as (H1 & H2 & H3). inversion H1. inversion H2. inversion H3. reflexivity.
Qed.

Lemma not_POST (m : string) : m <> "POST" -> String.eqb m "POST" = false.
Proof. intros H. now apply String.eqb_neq. Qed.

(** X1: both handlers answer 405 to any method but POST, before they look
    at the configuration, the headers or the body, and send nothing. *)
Theorem X1_method_guard
    (rt : Runtime) (env : process_env) (req : VercelRequest) (request : EdgeRequest) :
  (req_method req <> "POST" ->
   handler rt env req = mkRun (error_response 405 "Method not allowed") [])
  /\ (edge_method request <> "POST" ->
      edge_handler rt env request = mkRun (error_response 405 "Method not allowed") []).
Proof.
  split; intros H; [unfold handler | unfold edge_handler];
    rewrite (not_POST _ H); reflexivity.
Qed.

Lemma X1_method_guard_witness :
  handler Sample.offline (mkEnv None None None) Cases.get_request
  = mkRun (error_response 405 "Method not allowed") []
  /\ edge_handler Sample.offline (mkEnv None None None) Cases.edge_get
     = mkRun (error_response 405 "Method not allowed") [].
Proof.
  split.
  - apply (proj1 (X1_method_guard Sample.offline (mkEnv None None None)
                    Cases.get_request Cases.edge_get)).
    discriminate.
  - apply (proj2 (X1_method_guard Sample.offline (mkEnv None None None)
                    Cases.get_request Cases.edge_get)).
    discriminate.
Defined.

(** X2: a POST is answered 500 when one of the three configuration
    variables is unset or empty, whatever its signature and body, and
    nothing is sent; the message does not say which variable is missing. *)
Theorem X2_configuration_guard
    (rt : Runtime) (env : process_env) (req : VercelRequest) (request : EdgeRequest) :
  config_of env = None ->
  (req_method req = "POST" ->
   handler rt env req = mkRun (error_response 500 "Server configuration error") [])
  /\ (edge_method request = "POST" ->
      edge_handler rt env request = mkRun (error_response 500 "Server config error") []).
Proof.
  unfold config_of. intros Hconfig.
  split; intros Hpost; [unfold handler | unfold edge_handler]; rewrite Hpost;
    cbn [String.eqb Ascii.eqb Bool.eqb negb];
    destruct (configured (TODOIST_CLIENT_SECRET env)),
      (configured (CAPACITIES_API_TOKEN env)), (configured (CAPACITIES_SPACE_ID env));
    try discriminate Hconfig; reflexivity.
Qed.

Lemma X2_configuration_guard_witness :
  handler Sample.offline Cases.no_token (Cases.signed Sample.added)
  = mkRun (error_response 500 "Server configuration error") []
  /\ edge_handler Sample.offline Cases.no_token (Sample.edge_post None Sample.added)
     = mkRun (error_response 500 "Server config error") [].
Proof.
  split.
  - apply (proj1 (X2_configuration_guard Sample.offline Cases.no_token
                    (Cases.signed Sample.added) (Sample.edge_post None Sample.added)
                    eq_refl)).
    reflexivity.
  - apply (proj2 (X2_configuration_guard Sample.offline Cases.no_token
                    (Cases.signed Sample.added) (Sample.edge_post None Sample.added)
                    eq_refl)).
    reflexivity.
Defined.

(** X3: a body that is not JSON is answered 400 and nothing is sent: by the
    Node handler once the signature has verified, by the Edge handler
    whatever the signature. *)
Theorem X3_unparsable_body
    (rt : Runtime) (env : process_env) (req : VercelRequest) (request : EdgeRequest)
    (clientSecret capacitiesToken spaceId : string) (e e' : error) :
  config_of env = Some (clientSecret, capacitiesToken, spaceId) ->
  (req_method req = "POST" ->
   verifyTodoistSignature (getRawBody req) (getSignatureFromHeaders (req_headers req))
     clientSecret = true ->
   JSON_parse rt (getRawBody req) = Throw e ->
   handler rt env req = mkRun (error_response 400 "Invalid payload") [])
  /\ (edge_method request = "POST" ->
      JSON_parse rt (edge_text request) = Throw e' ->
      edge_handler rt env request = mkRun (error_response 400 "Invalid JSON") []).
Proof.
  intros Hconfig. apply config_of_Some in Hconfig as (Hs & Ht & Hp).
  split.
  - intros Hpost Hverify Hparse. unfold handler.
    rewrite Hpost, Hs, Ht, Hp, Hverify, Hparse. reflexivity.
  - intros Hpost Hparse. unfold edge_handler.
    rewrite Hpost, Hs, Ht, Hp, Hparse. reflexivity.
Qed.

Lemma X3_unparsable_body_witness :
  handler Sample.offline Sample.env (Cases.signed "{oops")
  = mkRun (error_response 400 "Invalid payload") []
  /\ edge_handler Sample.offline Sample.env (Sample.edge_post None "{oops")
     = mkRun (error_response 400 "Invalid JSON") [].
Proof.
  pose proof (X3_unparsable_body Sample.offline Sample.env (Cases.signed "{oops")
                (Sample.edge_post None "{oops") Sample.secret "capacities-token" "space-1"
                (SyntaxError "Unexpected token in JSON")
                (SyntaxError "Unexpected token in JSON") eq_refl) as [Hnode Hedge].
  split.
  - apply Hnode.
    + reflexivity.
    + vm_compute. reflexivity.
    + vm_compute. reflexivity.
  - apply Hedge.
    + reflexivity.
    + vm_compute. reflexivity.
Defined.

(** ** What the handlers forward *)

Lemma forwarded_event_inv (payload : json) (name : string) (task : TodoistTask) :
  forwarded_event payload = Some (name, task) ->
  exists f data,
    payload = JObject f
    /\ assoc "event_name" f = Some (JString name)
    /\ assoc "event_data" f = Some data
    /\ existsb (String.eqb name) SUPPORTED_EVENTS = true
    /\ as_TodoistTask data = Some task.
Proof.
  unfold forwarded_event. destruct payload as [| | | | |f]; try discriminate.
  cbn [get_property].
  destruct (assoc "event_name" f) as [[| | |n| |]|] eqn:Hname; try discriminate.
  destruct (assoc "event_data" f) as [data|] eqn:Hdata; try discriminate.
  destruct (existsb (String.eqb n) SUPPORTED_EVENTS) eqn:Hin; try discriminate.
  destruct (as_TodoistTask data) as [t|] eqn:Htask; try discriminate.
  intros H. inversion H. subst. exists f, data.
  split; [reflexivity|]. split; [exact Hname|]. split; [exact Hdata|].
  split; assumption.
Qed.

Lemma handler_forwards
    (rt : Runtime) (env : process_env) (req : VercelRequest)
    (clientSecret capacitiesToken spaceId name : string)
    (payload : json) (task : TodoistTask) :
  req_method req = "POST" ->
  config_of env = Some (clientSecret, capacitiesToken, spaceId) ->
  verifyTodoistSignature (getRawBody req) (getSignatureFromHeaders (req_headers req))
    clientSecret = true ->
  JSON_parse rt (getRawBody req) = Ok payload ->
  forwarded_event payload = Some (name, task) ->
  handler rt env req
  = mkRun (match fst (saveToDailyNote rt (formatTaskAsMarkdown (dates rt) task name)
                        capacitiesToken spaceId) with
           | Ok _ => ok_response name
           | Throw _ => error_response 500 "Failed to save to Capacities"
           end)
          [forward_request rt task name capacitiesToken spaceId].
Proof.
  intros Hpost Hconfig Hverify Hparse Hevent.
  apply config_of_Some in Hconfig as (Hs & Ht & Hp).
  apply forwarded_event_inv in Hevent as (f & data & -> & Hname & Hdata & Hin & Htask).
  unfold handler. rewrite Hpost, Hs, Ht, Hp, Hverify, Hparse.
  cbn [negb String.eqb Ascii.eqb Bool.eqb get_property].
  rewrite Hname, Hdata. unfold SUPPORTED_EVENTS_has. rewrite Hin, Htask.
  cbn [negb]. unfold saveToDailyNote, forward_request, saveToDailyNote_request.
  cbn [fst].
  match goal with
  | |- context [bind ?m ?k] => destruct (bind m k)
  end; reflexivity.
Qed.



(** X5: for a verified, supported event the Node handler sends the one
    request and answers 200 with status [ok] and the event name exactly
    when the note service answers with an ok status; when the service
    answers otherwise or cannot be reached, the answer is 500 with a fixed
    message, which carries nothing of the upstream response. *)
Theorem X5_node_forwarding_outcome
    (rt : Runtime) (env : process_env) (req : VercelRequest)
    (clientSecret capacitiesToken spaceId name : string)
    (payload : json) (task : TodoistTask) :
  req_method req = "POST" ->
  config_of env = Some (clientSecret, capacitiesToken, spaceId) ->
  verifyTodoistSignature (getRawBody req) (getSignatureFromHeaders (req_headers req))
    clientSecret = true ->
  JSON_parse rt (getRawBody req) = Ok payload ->
  forwarded_event payload = Some (name, task) ->
  calls (handler rt env req) = [forward_request rt task name capacitiesToken spaceId]
  /\ (forall response,
        fetch rt (forward_request rt task name capacitiesToken spaceId) = Ok response ->
        response_ok response = true ->
        ending (handler rt env req) = ok_response name)
  /\ (forall response,
        fetch rt (forward_request rt task name capacitiesToken spaceId) = Ok response ->
        response_ok response = false ->
        ending (handler rt env req) = error_response 500 "Failed to save to Capacities")
  /\ (forall e,
        fetch rt (forward_request rt task name capacitiesToken spaceId) = Throw e ->
        ending (handler rt env req) = error_response 500 "Failed to save to Capacities").
Proof.
  intros Hpost Hconfig Hverify Hparse Hevent.
  rewrite (handler_forwards rt env req clientSecret capacitiesToken spaceId name payload task
             Hpost Hconfig Hverify Hparse Hevent).
  cbn [calls ending].
  unfold saveToDailyNote, forward_request, saveToDailyNote_request. cbn [fst].
  split; [reflexivity|]. split; [|split].
  - intros response -> Hok. cbn [bind]. rewrite Hok. reflexivity.
  - intros response -> Hok. cbn [bind]. rewrite Hok. cbn [negb].
    destruct (response_text response); reflexivity.
  - intros e ->. reflexivity.
Qed.

Lemma X5_node_forwarding_outcome_witness :
  ending (handler (Reference.host (Reference.answering 200 "saved")) Sample.env
            (Cases.signed Sample.added))
  = ok_response "item:added"
  /\ ending (handler (Reference.host (Reference.answering 503 "down")) Sample.env
               (Cases.signed Sample.added))
     = error_response 500 "Failed to save to Capacities"
  /\ ending (handler Sample.offline Sample.env (Cases.signed Sample.added))
     = error_response 500 "Failed to save to Capacities".
Proof.
  assert (H : forall network,
             let rt := Reference.host network in
             req_method (Cases.signed Sample.added) = "POST"
             /\ config_of Sample.env = Some (Sample.secret, "capacities-token", "space-1")
             /\ verifyTodoistSignature (getRawBody (Cases.signed Sample.added))
                  (getSignatureFromHeaders (req_headers (Cases.signed Sample.added)))
                  Sample.secret = true
             /\ JSON_parse rt (getRawBody (Cases.signed Sample.added))
                = Ok (JObject (Sample.fields_of Sample.added))
             /\ forwarded_event (JObject (Sample.fields_of Sample.added))
                = Some ("item:added",
                        mkTask EmptyString "Buy milk" EmptyString EmptyString None None P4
                               None ["errand"] false None None None None)).
  { intros network. cbv zeta. repeat split; vm_compute; reflexivity. }
  split; [|split].
  - destruct (H (Reference.answering 200 "saved")) as (H1 & H2 & H3 & H4 & H5).
    apply (proj1 (proj2 (X5_node_forwarding_outcome _ _ _ _ _ _ _ _ _ H1 H2 H3 H4 H5))
             (mkResponse 200 (Ok "saved")));
      reflexivity.
  - destruct (H (Reference.answering 503 "down")) as (H1 & H2 & H3 & H4 & H5).
    apply (proj1 (proj2 (proj2 (X5_node_forwarding_outcome _ _ _ _ _ _ _ _ _
                                  H1 H2 H3 H4 H5)))
             (mkResponse 503 (Ok "down")));
      reflexivity.
  - destruct (H Reference.unreachable) as (H1 & H2 & H3 & H4 & H5).
    apply (proj2 (proj2 (proj2 (X5_node_forwarding_outcome _ _ _ _ _ _ _ _ _
                                  H1 H2 H3 H4 H5)))
             (TypeError "fetch failed")).
    reflexivity.
Defined.

Lemma formatTaskMarkdown_returns (rt : DateRuntime) (task : TodoistTask) (name : string) :
  exists markdown, formatTaskMarkdown rt task name = Ok markdown.
Proof.
  unfold formatTaskMarkdown, new_Date, toLocaleString.
  repeat match goal with
         | |- context [Date_parse rt ?c] => destruct (Date_parse rt c)
         | |- context [match completed_at task with _ => _ end] =>
             destruct (completed_at task)
         | |- context [if String.eqb name ?k then _ else _] =>
             destruct (String.eqb name k)
         | |- context [if truthy ?c then _ else _] => destruct (truthy c)
         end; cbn [bind]; eexists; reflexivity.
Qed.

Lemma edge_handler_forwards
    (rt : Runtime) (env : process_env) (request : EdgeRequest)
    (clientSecret capacitiesToken spaceId name markdown : string)
    (payload : json) (task : TodoistTask) :
  edge_method request = "POST" ->
  config_of env = Some (clientSecret, capacitiesToken, spaceId) ->
  JSON_parse rt (edge_text request) = Ok payload ->
  forwarded_event payload = Some (name, task) ->
  formatTaskMarkdown (dates rt) task name = Ok markdown ->
  edge_handler rt env request
  = mkRun (match (res <- fetch rt (edge_request markdown capacitiesToken spaceId) ;;
                  responseText <- response_text res ;;
                  Ok (res, responseText)) with
           | Ok (res, responseText) =>
               if negb (response_ok res)
               then new_Response (JObject [("error", JString "Capacities API error");
                                           ("details", JString responseText)]) 500
               else ok_response name
           | Throw _ => error_response 500 "Failed to save"
           end)
          [edge_request markdown capacitiesToken spaceId].
Proof.
  intros Hpost Hconfig Hparse Hevent Hformat.
  apply config_of_Some in Hconfig as (Hs & Ht & Hp).
  apply forwarded_event_inv in Hevent as (f & data & -> & Hname & Hdata & Hin & Htask).
  unfold edge_handler. rewrite Hpost, Hs, Ht, Hp, Hparse.
  cbn [negb String.eqb Ascii.eqb Bool.eqb get_property].
  rewrite Hname, Hdata. unfold SUPPORTED_EVENTS_has. rewrite Hin, Htask, Hformat.
  cbn [negb]. unfold edge_request.
  match goal with
  | |- context [bind ?m ?k] => destruct (bind m k) as [[res text]|]
  end; [destruct (response_ok res)|]; reflexivity.
Qed.

(** X6: for a supported event the Edge handler, whatever the signature,
    sends one request whose JSON body has the space identifier and the
    block of [formatTaskMarkdown] (and no [noTimeStamp]).  It answers 200
    on an ok answer of the note service; on another answer it answers 500
    and passes the text of that answer on under [details]; when the
    service cannot be reached or its text cannot be read it answers 500
    with a fixed message. *)
Theorem X6_edge_forwarding_outcome
    (rt : Runtime) (env : process_env) (request : EdgeRequest)
    (clientSecret capacitiesToken spaceId name : string)
    (payload : json) (task : TodoistTask) :
  edge_method request = "POST" ->
  config_of env = Some (clientSecret, capacitiesToken, spaceId) ->
  JSON_parse rt (edge_text request) = Ok payload ->
  forwarded_event payload = Some (name, task) ->
  exists markdown,
    formatTaskMarkdown (dates rt) task name = Ok markdown
    /\ calls (edge_handler rt env request)
       = [edge_request markdown capacitiesToken spaceId]
    /\ (forall response text,
          fetch rt (edge_request markdown capacitiesToken spaceId) = Ok response ->
          response_text response = Ok text ->
          ending (edge_handler rt env request)
          = if response_ok response then ok_response name
            else new_Response (JObject [("error", JString "Capacities API error");
                                        ("details", JString text)]) 500)
    /\ (forall response e,
          fetch rt (edge_request markdown capacitiesToken spaceId) = Ok response ->
          response_text response = Throw e ->
          ending (edge_handler rt env request) = error_response 500 "Failed to save")
    /\ (forall e,
          fetch rt (edge_request markdown capacitiesToken spaceId) = Throw e ->
          ending (edge_handler rt env request) = error_response 500 "Failed to save").
Proof.
  intros Hpost Hconfig Hparse Hevent.
  destruct (formatTaskMarkdown_returns (dates rt) task name) as [markdown Hformat].
  exists markdown. split; [exact Hformat|].
  rewrite (edge_handler_forwards rt env request clientSecret capacitiesToken spaceId name
             markdown payload task Hpost Hconfig Hparse Hevent Hformat).
  cbn [calls ending]. split; [reflexivity|]. split; [|split].
  - intros response text -> Htext. cbn [bind]. rewrite Htext. cbn [bind].
    destruct (response_ok response); reflexivity.
  - intros response e -> Htext. cbn [bind]. rewrite Htext. reflexivity.
  - intros e ->. reflexivity.
Qed.

Lemma X6_edge_forwarding_outcome_witness :
  exists markdown,
    formatTaskMarkdown Reference.date_engine
      (mkTask EmptyString "Buy milk" EmptyString EmptyString None None P4 None
              ["errand"] false None None None None) "item:added" = Ok markdown
    /\ calls (edge_handler (Reference.host (Reference.answering 503 "down")) Sample.env
                (Sample.edge_post None Sample.added))
       = [edge_request markdown "capacities-token" "space-1"]
    /\ ending (edge_handler (Reference.host (Reference.answering 503 "down")) Sample.env
                 (Sample.edge_post None Sample.added))
       = new_Response (JObject [("error", JString "Capacities API error");
                                ("details", JString "down")]) 500.
Proof.
  destruct (X6_edge_forwarding_outcome
              (Reference.host (Reference.answering 503 "down")) Sample.env
              (Sample.edge_post None Sample.added)
              Sample.secret "capacities-token" "space-1" "item:added"
              (JObject (Sample.fields_of Sample.added))
              (mkTask EmptyString "Buy milk" EmptyString EmptyString None None P4 None
                      ["errand"] false None None None None)
              eq_refl eq_refl
              ltac:(vm_compute; reflexivity) ltac:(vm_compute; reflexivity))
    as (markdown & Hformat & Hcalls & Hanswer & _).
  exists markdown. split; [exact Hformat|]. split; [exact Hcalls|].
  apply (Hanswer (mkResponse 503 (Ok "down")) "down"); reflexivity.
Defined.

(** ** Responses *)




(** X8: a body that is the JSON text [null] passes [JSON.parse], and the
    destructuring of the payload then throws outside any [try]: both
    handlers end without a response and without a call. *)
Theorem X8_null_payload_escapes
    (rt : Runtime) (env : process_env) (req : VercelRequest) (request : EdgeRequest)
    (clientSecret capacitiesToken spaceId : string) :
  config_of env = Some (clientSecret, capacitiesToken, spaceId) ->
  (req_method req = "POST" ->
   verifyTodoistSignature (getRawBody req) (getSignatureFromHeaders (req_headers req))
     clientSecret = true ->
   JSON_parse rt (getRawBody req) = Ok JNull ->
   handler rt env req = mkRun (Uncaught destructure_error) [])
  /\ (edge_method request = "POST" ->
      JSON_parse rt (edge_text request) = Ok JNull ->
      edge_handler rt env request = mkRun (Uncaught destructure_error) []).
Proof.
  intros Hconfig. apply config_of_Some in Hconfig as (Hs & Ht & Hp).
  split.
  - intros Hpost Hverify Hparse. unfold handler.
    rewrite Hpost, Hs, Ht, Hp, Hverify, Hparse. reflexivity.
  - intros Hpost Hparse. unfold edge_handler.
    rewrite Hpost, Hs, Ht, Hp, Hparse. reflexivity.
Qed.

Lemma X8_null_payload_escapes_witness :
  handler Sample.offline Sample.env (Cases.signed " null ")
  = mkRun (Uncaught destructure_error) []
  /\ edge_handler Sample.offline Sample.env (Sample.edge_post None " null ")
     = mkRun (Uncaught destructure_error) [].
Proof.
  pose proof (X8_null_payload_escapes Sample.offline Sample.env (Cases.signed " null ")
                (Sample.edge_post None " null ") Sample.secret "capacities-token" "space-1"
                eq_refl) as [Hnode Hedge].
  split.
  - apply Hnode.
    + reflexivity.
    + vm_compute. reflexivity.
    + vm_compute. reflexivity.
  - apply Hedge.
    + reflexivity.
    + vm_compute. reflexivity.
Defined.

(** X9: a payload without an [event_name] (an object that lacks the
    property, or an array, a string, a number, a boolean) is acknowledged
    with 200 and the body [{"status":"ignored"}], without an [event]
    property; an [event_name] that is not a string is ignored and echoed
    as it is.  Nothing is sent. *)
Theorem X9_payload_without_event_name
    (rt : Runtime) (env : process_env) (req : VercelRequest) (request : EdgeRequest)
    (clientSecret capacitiesToken spaceId : string) (payload : json) :
  config_of env = Some (clientSecret, capacitiesToken, spaceId) ->
  payload <> JNull ->
  (forall name, get_property payload "event_name" <> Some (JString name)) ->
  (req_method req = "POST" ->
   verifyTodoistSignature (getRawBody req) (getSignatureFromHeaders (req_headers req))
     clientSecret = true ->
   JSON_parse rt (getRawBody req) = Ok payload ->
   handler rt env req
   = mkRun (json_response 200
              (JObject (("status", JString "ignored")
                          :: match get_property payload "event_name" with
                             | Some v => [("event", v)]
                             | None => []
                             end))) [])
  /\ (edge_method request = "POST" ->
      JSON_parse rt (edge_text request) = Ok payload ->
      edge_handler rt env request
      = mkRun (json_response 200
                 (JObject (("status", JString "ignored")
                             :: match get_property payload "event_name" with
                                | Some v => [("event", v)]
                                | None => []
                                end))) []).
Proof.
  intros Hconfig Hnull Hname. apply config_of_Some in Hconfig as (Hs & Ht & Hp).
  assert (Hhas : SUPPORTED_EVENTS_has (get_property payload "event_name") = false).
  { destruct (get_property payload "event_name") as [[| | |n| |]|]; try reflexivity.
    now contradiction (Hname n). }
  split.
  - intros Hpost Hverify Hparse. unfold handler.
    rewrite Hpost, Hs, Ht, Hp, Hverify, Hparse.
    cbn [negb String.eqb Ascii.eqb Bool.eqb].
    destruct payload; try (now contradiction Hnull); rewrite Hhas; cbn [negb];
      unfold object_literal; cbn [defined_properties];
      destruct (get_property _ "event_name"); reflexivity.
  - intros Hpost Hparse. unfold edge_handler.
    rewrite Hpost, Hs, Ht, Hp, Hparse.
    cbn [negb String.eqb Ascii.eqb Bool.eqb].
    destruct payload; try (now contradiction Hnull); rewrite Hhas; cbn [negb];
      unfold object_literal, new_Response, json_response; cbn [defined_properties];
      destruct (get_property _ "event_name"); reflexivity.
Qed.

Lemma X9_payload_without_event_name_witness :
  handler Sample.offline Sample.env (Cases.signed "[1,2]")
  = mkRun (Responded (mkHttpResponse 200 (Reader.q "{'status':'ignored'}"))) []
  /\ edge_handler Sample.offline Sample.env
       (Sample.edge_post None (Reader.q "{'event_name':7}"))
     = mkRun (Responded (mkHttpResponse 200 (Reader.q "{'status':'ignored','event':7}")))
             [].
Proof.
  split.
  - apply (proj1 (X9_payload_without_event_name Sample.offline Sample.env
                    (Cases.signed "[1,2]") (Sample.edge_post None "[1,2]")
                    Sample.secret "capacities-token" "space-1"
                    (JArray [JNumber (mkNumber 1 0); JNumber (mkNumber 2 0)])
                    eq_refl ltac:(discriminate) ltac:(discriminate))).
    + reflexivity.
    + vm_compute. reflexivity.
    + vm_compute. reflexivity.
  - apply (proj2 (X9_payload_without_event_name Sample.offline Sample.env
                    (Cases.signed "[1,2]")
                    (Sample.edge_post None (Reader.q "{'event_name':7}"))
                    Sample.secret "capacities-token" "space-1"
                    (JObject [("event_name", JNumber (mkNumber 7 0))])
                    eq_refl ltac:(discriminate) ltac:(discriminate))).
    + reflexivity.
    + vm_compute. reflexivity.
Defined.

(** ** The raw body and the signature header *)

Lemma string_of_bytes_app (a b : list Z) :
  string_of_bytes (a ++ b)%list = string_of_bytes a ++ string_of_bytes b.
Proof. induction a as [|x a IH]; simpl; [reflexivity | now rewrite IH]. Qed.

Lemma Buffer_concat_text (chunks : list chunk) :
  string_of_bytes (Buffer_concat chunks) = concat_texts (map chunk_text chunks).
Proof.
  induction chunks as [|[s|b] chunks IH]; simpl; [reflexivity| |];
    rewrite string_of_bytes_app, IH; [now rewrite string_of_bytes_of_string | reflexivity].
Qed.

(** X10: when [req.body] is not set, the raw body is read from the bytes
    of all chunks together, so it does not depend on where the stream was
    cut, not even inside a character; when those bytes are well-formed
    UTF-8 it is the texts of the chunks one after the other, string chunks
    and buffer chunks alike.  The run of the Node handler depends on the
    request only through its method, the signature
    [getSignatureFromHeaders] finds and the raw body. *)
Theorem X10_raw_body_decides
    (rt : Runtime) (env : process_env) (req req' : VercelRequest) :
  (req_body req = BodyUndefined -> req_body req' = BodyUndefined ->
   Buffer_concat (req_stream req) = Buffer_concat (req_stream req') ->
   getRawBody req = getRawBody req')
  /\ (req_body req = BodyUndefined ->
      well_formed_utf8 (Buffer_concat (req_stream req)) = true ->
      getRawBody req = concat_texts (map chunk_text (req_stream req)))
  /\ (req_method req = req_method req' ->
      getSignatureFromHeaders (req_headers req) = getSignatureFromHeaders (req_headers req') ->
      getRawBody req = getRawBody req' ->
      handler rt env req = handler rt env req').
Proof.
  split; [|split].
  - intros Hbody Hbody' Hbytes. unfold getRawBody. now rewrite Hbody, Hbody', Hbytes.
  - intros Hbody Hwf. unfold getRawBody. rewrite Hbody.
    rewrite toString_utf8_well_formed by exact Hwf. apply Buffer_concat_text.
  - intros Hmethod Hsignature Hraw. unfold handler.
    rewrite Hmethod, Hsignature, Hraw. reflexivity.
Qed.

Lemma X10_raw_body_decides_witness :
  getRawBody (Cases.streamed Sample.no_headers "caf" (string_of_bytes [0xC3; 0xA9]))
  = getRawBody (mkVercelRequest "POST" Sample.no_headers BodyUndefined
                  [ChunkBuffer [0x63; 0x61; 0x66; 0xC3]; ChunkBuffer [0xA9]])
  /\ getRawBody (Cases.streamed Sample.no_headers "{'a':" "1}") = "{'a':1}"
  /\ handler Sample.offline Sample.env
       (Cases.streamed (Sample.signed_headers (Sample.sign "[1,2]")) "[1" ",2]")
     = handler Sample.offline Sample.env (Cases.signed "[1,2]").
Proof.
  split; [|split].
  - apply (proj1 (X10_raw_body_decides Sample.offline Sample.env
                    (Cases.streamed Sample.no_headers "caf" (string_of_bytes [0xC3; 0xA9]))
                    (mkVercelRequest "POST" Sample.no_headers BodyUndefined
                       [ChunkBuffer [0x63; 0x61; 0x66; 0xC3]; ChunkBuffer [0xA9]])));
      reflexivity.
  - apply (proj1 (proj2 (X10_raw_body_decides Sample.offline Sample.env
                    (Cases.streamed Sample.no_headers "{'a':" "1}")
                    (Cases.signed "[1,2]"))));
      reflexivity.
  - apply (proj2 (proj2 (X10_raw_body_decides Sample.offline Sample.env
                    (Cases.streamed (Sample.signed_headers (Sample.sign "[1,2]")) "[1" ",2]")
                    (Cases.signed "[1,2]")))); reflexivity.
Defined.

(** A character cut in two by the stream is read whole; a buffer that is
    not UTF-8 is read with U+FFFD. *)
Example streamed_bodies :
  getRawBody (mkVercelRequest "POST" Sample.no_headers BodyUndefined
                [ChunkBuffer [0x63; 0x61; 0x66; 0xC3]; ChunkBuffer [0xA9]])
  = string_of_bytes [0x63; 0x61; 0x66; 0xC3; 0xA9]
  /\ getRawBody (mkVercelRequest "POST" Sample.no_headers BodyUndefined
                   [ChunkBuffer [0x63; 0x61; 0x66; 0xE9]])
     = "caf" ++ string_of_bytes REPLACEMENT.
Proof. vm_compute. repeat split. Qed.

(** X11: [getSignatureFromHeaders] takes the value under the lower-case
    name when it is truthy (a non-empty string, or any array), otherwise
    the value under [X-Todoist-Hmac-SHA256] when that is truthy, otherwise
    the value under [X-TODOIST-HMAC-SHA256]; of a string it returns the
    string and of an array the first element, so an empty array under an
    earlier name gives no signature even when a later name holds one. *)
Theorem X11_signature_header_lookup (h : headers) :
  (header_truthy (h TODOIST_HEADER) = true ->
   getSignatureFromHeaders h = header_signature (h TODOIST_HEADER))
  /\ (header_truthy (h TODOIST_HEADER) = false ->
      header_truthy (h "X-Todoist-Hmac-SHA256") = true ->
      getSignatureFromHeaders h = header_signature (h "X-Todoist-Hmac-SHA256"))
  /\ (header_truthy (h TODOIST_HEADER) = false ->
      header_truthy (h "X-Todoist-Hmac-SHA256") = false ->
      getSignatureFromHeaders h = header_signature (h "X-TODOIST-HMAC-SHA256")).
Proof.
  unfold getSignatureFromHeaders, header_or, header_signature.
  split; [|split].
  - intros ->. destruct (h TODOIST_HEADER) as [[s|[|x l]]|]; reflexivity.
  - intros -> ->. destruct (h "X-Todoist-Hmac-SHA256") as [[s|[|x l]]|]; reflexivity.
  - intros -> ->. destruct (h "X-TODOIST-HMAC-SHA256") as [[s|[|x l]]|]; reflexivity.
Qed.

Lemma X11_signature_header_lookup_witness :
  getSignatureFromHeaders (Sample.signed_headers "abc") = Some "abc"
  /\ getSignatureFromHeaders (Cases.empty_array_headers "abc") = None
  /\ getSignatureFromHeaders (Cases.upper_headers "abc") = Some "abc".
Proof.
  split; [|split].
  - apply (proj1 (X11_signature_header_lookup (Sample.signed_headers "abc"))).
    reflexivity.
  - apply (proj1 (X11_signature_header_lookup (Cases.empty_array_headers "abc"))).
    reflexivity.
  - apply (proj2 (proj2 (X11_signature_header_lookup (Cases.upper_headers "abc"))));
      reflexivity.
Defined.

(** X12: a configured POST that carries no signature under any of the
    three header names, or an empty array under the first name that is
    set, is answered 401 by the Node handler, whatever its body. *)
Theorem X12_missing_signature_rejected
    (rt : Runtime) (env : process_env) (req : VercelRequest)
    (clientSecret capacitiesToken spaceId : string) :
  req_method req = "POST" ->
  config_of env = Some (clientSecret, capacitiesToken, spaceId) ->
  getSignatureFromHeaders (req_headers req) = None ->
  handler rt env req = unauthorized.
Proof.
  intros Hpost Hconfig Hsignature.
  apply config_of_Some in Hconfig as (Hs & Ht & Hp).
  unfold handler. rewrite Hpost, Hs, Ht, Hp, Hsignature. reflexivity.
Qed.

Lemma X12_missing_signature_rejected_witness :
  handler Sample.offline Sample.env
    (Sample.post (Cases.empty_array_headers (Sample.sign Sample.added)) Sample.added)
  = unauthorized.
Proof.
  apply (X12_missing_signature_rejected Sample.offline Sample.env
           (Sample.post (Cases.empty_array_headers (Sample.sign Sample.added)) Sample.added)
           Sample.secret "capacities-token" "space-1");
    reflexivity.
Defined.

(** ** The two verifiers *)

(** X13: a signature the Edge verifier accepts is accepted by the Node
    verifier (the converse fails, see [mutated_signatures]); and both
    reject an absent and an empty signature. *)
Theorem X13_edge_verdict_implies_node (rawBody secret : string) (signature : option string) :
  (verifySignature rawBody signature secret = true ->
   verifyTodoistSignature rawBody signature secret = true)
  /\ (truthy_opt signature = false ->
      verifySignature rawBody signature secret = false
      /\ verifyTodoistSignature rawBody signature secret = false).
Proof.
  split.
  - destruct signature as [sig|]; [|discriminate].
    intros H. apply verifySignature_iff in H. subst sig.
    apply verifyTodoistSignature_iff. split.
    + apply signature_truthy.
    + apply signature_decodes.
  - destruct signature as [sig|]; cbn [truthy_opt]; [|split; reflexivity].
    intros H. unfold verifySignature, verifyTodoistSignature. rewrite H. split; reflexivity.
Qed.

Lemma X13_edge_verdict_implies_node_witness :
  verifyTodoistSignature Sample.added (Some (Sample.sign Sample.added)) Sample.secret = true
  /\ verifySignature Sample.added (Some EmptyString) Sample.secret = false.
Proof.
  split.
  - apply (proj1 (X13_edge_verdict_implies_node Sample.added Sample.secret
                    (Some (Sample.sign Sample.added)))).
    vm_compute. reflexivity.
  - apply (proj2 (X13_edge_verdict_implies_node Sample.added Sample.secret
                    (Some EmptyString))).
    reflexivity.
Defined.

(** ** Blocks that carry metadata *)

Lemma description_test (d : string) :
  truthy d && truthy (trim d) = truthy (trim d).
Proof. destruct d; reflexivity. Qed.

(** X14: for every kind but Completed and Deleted the library formatter
    writes the heading of the kind (New Task Added, Task Updated, Task
    Reopened, or Task Event with the name of any other kind), a blank line,
    the title in bold and a blank line; then, in this order, the priority
    line unless the priority is Normal, the due line if the task has a due
    specification (the rendered date-time if there is one, else the date,
    with the recurring mark), the labels line if there is a label, and a
    blank line with the quoted description unless it is blank; then the
    terminator lines. *)
Theorem X14_metadata_block (rt : DateRuntime) (task : TodoistTask) (eventName : string) :
  eventName <> "item:completed" -> eventName <> "item:deleted" ->
  formatTaskAsMarkdown rt task eventName
  = join nl ([heading_of eventName; EmptyString; ("**" ++ content task ++ "**")%string;
                         EmptyString]
             ++ priority_lines task ++ due_lines rt task ++ labels_lines task
             ++ description_lines task ++ [EmptyString; "---"; EmptyString])%list.
Proof.
  intros Hcompleted Hdeleted.
  apply String.eqb_neq in Hcompleted. apply String.eqb_neq in Hdeleted.
  unfold formatTaskAsMarkdown, heading_of. rewrite Hcompleted, Hdeleted.
  assert (Hblock : forall heading,
             push_metadata rt task
               (push (push (push [] [heading]) [EmptyString])
                     ["**" ++ content task ++ "**"])
             = join nl ([heading; EmptyString; ("**" ++ content task ++ "**")%string;
                         EmptyString]
                        ++ priority_lines task ++ due_lines rt task ++ labels_lines task
                        ++ description_lines task
                        ++ [EmptyString; "---"; EmptyString])%list).
  { intros heading.
    unfold push_metadata, priority_lines, due_lines, labels_lines, description_lines,
      due_recurring.
    rewrite description_test.
    destruct (priority task), (due task) as [d|], (labels task),
      (truthy (trim (description task)));
      try destruct (is_recurring d) as [[|]|]; reflexivity. }
  cbv zeta.
  destruct (String.eqb eventName "item:added");
    [|destruct (String.eqb eventName "item:updated");
      [|destruct (String.eqb eventName "item:uncompleted")]];
    apply Hblock.
Qed.

Lemma X14_metadata_block_witness :
  formatTaskAsMarkdown Reference.date_engine Sample.task "item:archived"
  = join nl ["### Task Event: item:archived"; EmptyString; "**Buy milk**"; EmptyString;
             "- **Priority:** Urgent"; "- **Due:** 2024-01-15 (recurring)";
             "- **Labels:** errand"; EmptyString; "> 2% fat";
             EmptyString; "---"; EmptyString].
Proof.
  apply (X14_metadata_block Reference.date_engine Sample.task "item:archived");
    discriminate.
Defined.

(** X15: every kind but Completed goes through the metadata of the Edge
    formatter: the heading (New Task Added, Task Updated, or Task Event
    with the name of any other kind, Uncompleted and Deleted among them), a
    blank line and the title in bold, then without a blank line the
    priority line, the due line with the date-time as it was received, the
    labels line and the quoted description, then the terminator lines. *)
Theorem X15_edge_metadata_block (rt : DateRuntime) (task : TodoistTask) (eventName : string) :
  eventName <> "item:completed" ->
  formatTaskMarkdown rt task eventName
  = Ok (join nl ([edge_heading_of eventName; EmptyString;
                  ("**" ++ content task ++ "**")%string]
                 ++ priority_lines task ++ edge_due_lines task ++ labels_lines task
                 ++ description_lines task ++ [EmptyString; "---"; EmptyString])%list).
Proof.
  intros Hcompleted. apply String.eqb_neq in Hcompleted.
  unfold formatTaskMarkdown, edge_heading_of. rewrite Hcompleted. cbn [negb].
  unfold priority_lines, edge_due_lines, labels_lines, description_lines, due_recurring.
  destruct (String.eqb eventName "item:added");
    [|destruct (String.eqb eventName "item:updated")];
    cbn [bind];
    destruct (priority task), (due task) as [d|], (labels task),
      (truthy (trim (description task)));
    try destruct (is_recurring d) as [[|]|]; reflexivity.
Qed.

Lemma X15_edge_metadata_block_witness :
  formatTaskMarkdown Reference.date_engine Sample.task "item:uncompleted"
  = Ok (join nl ["### Task Event: item:uncompleted"; EmptyString; "**Buy milk**";
                 "- **Priority:** Urgent"; "- **Due:** 2024-01-15 (recurring)";
                 "- **Labels:** errand"; EmptyString; "> 2% fat";
                 EmptyString; "---"; EmptyString]).
Proof.
  apply (X15_edge_metadata_block Reference.date_engine Sample.task "item:uncompleted").
  discriminate.
Defined.

(** ** The quoted description *)

Lemma split_single_line (s : string) : single_line s = true -> split LF s = [s].
Proof.
  induction s as [|c s IH]; [reflexivity|].
  cbn [single_line split]. intros H. apply andb_true_iff in H as [Hc Hs].
  apply negb_true_iff in Hc. rewrite Hc, (IH Hs). reflexivity.
Qed.

Lemma split_parts_single_line (s : string) :
  Forall (fun part => single_line part = true) (split LF s).
Proof.
  induction s as [|c s IH]; cbn [split].
  - constructor; [reflexivity | constructor].
  - destruct (Ascii.eqb c LF) eqn:Hc.
    + constructor; [reflexivity | exact IH].
    + destruct (split LF s) as [|h t]; [constructor; [|constructor]|].
      * cbn [single_line]. now rewrite Hc.
      * inversion_clear IH as [|? ? Hh Ht]. constructor; [|exact Ht].
        cbn [single_line]. now rewrite Hc, Hh.
Qed.

Lemma quoted_lines (parts : list string) :
  parts <> [] -> Forall (fun part => single_line part = true) parts ->
  split LF ("> " ++ join (nl ++ "> ") parts) = map (fun line => "> " ++ line) parts.
Proof.
  induction parts as [|x parts IH]; [congruence|]. intros _ Hall.
  inversion_clear Hall as [|? ? Hx Hparts].
  destruct parts as [|y parts].
  - cbn [join map]. apply split_single_line. exact Hx.
  - rewrite join_cons by discriminate.
    change ("> " ++ x ++ (nl ++ "> ") ++ join (nl ++ "> ") (y :: parts))
      with ("> " ++ x ++ String LF ("> " ++ join (nl ++ "> ") (y :: parts))).
    rewrite <- append_assoc, split_app, IH by (discriminate || assumption).
    rewrite split_single_line by exact Hx. reflexivity.
Qed.

(** X16: the quoted description has as many lines as the description, and
    each of them is the line of the description behind the quote marker. *)
Theorem X16_blockquote_lines (text : string) :
  split LF (blockquote text) = map (fun line => "> " ++ line) (split LF text).
Proof.
  unfold blockquote. apply quoted_lines.
  - apply split_nonempty.
  - apply split_parts_single_line.
Qed.

(** X17: the priority label of the Edge handler, which takes any number,
    agrees with the one of the library on the four priorities, and is
    Normal for every other number. *)
Theorem X17_priority_labels_agree (p : TodoistPriority) (n : Z) :
  edge_getPriorityLabel (priority_number p) = getPriorityLabel p
  /\ (n <> 2 -> n <> 3 -> n <> 4 -> edge_getPriorityLabel n = "Normal").
Proof.
  split.
  - destruct p; reflexivity.
  - intros H2 H3 H4. unfold edge_getPriorityLabel.
    apply Z.eqb_neq in H2, H3, H4. now rewrite H4, H3, H2.
Qed.

Lemma X17_priority_labels_agree_witness : edge_getPriorityLabel 7 = "Normal".
Proof.
  apply (proj2 (X17_priority_labels_agree P1 7)); discriminate.
Defined.

(** ** The outbound body is JSON that reads back *)

Lemma encode_items_control (u : Z) (l : list Reader.item) :
  Reader.is_high u = false -> Reader.is_low u = false ->
  Reader.encode_items (Reader.Unit u :: l) = (Reader.utf8 u ++ Reader.encode_items l)%list.
Proof.
  intros Hh Hl. cbn [Reader.encode_items].
  destruct l as [|[b|lo] r]; rewrite Hh, Hl; reflexivity.
Qed.

Lemma read_items_quote_char (c : ascii) (tail rest : string) (l : list Reader.item) :
  Reader.read_items tail = Some (l, rest) ->
  exists l',
    Reader.read_items (quote_char c ++ tail) = Some (l', rest)
    /\ Reader.encode_items l' = byte_of_ascii c :: Reader.encode_items l.
Proof.
  intros Htail.
  destruct c as [b0 b1 b2 b3 b4 b5 b6 b7].
  destruct b0, b1, b2, b3, b4, b5, b6, b7;
    cbn -[Reader.encode_items]; rewrite Htail; eexists; (split; [reflexivity|]);
    first [ reflexivity | apply encode_items_control; reflexivity ].
Qed.

Lemma read_items_quote (s rest : string) :
  exists l,
    Reader.read_items (quote_body s ++ dq ++ rest) = Some (l, rest)
    /\ Reader.encode_items l = bytes_of_string s.
Proof.
  induction s as [|c s (l & Hl & Henc)].
  - exists []. split; reflexivity.
  - cbn [quote_body bytes_of_string]. rewrite append_assoc.
    destruct (read_items_quote_char c _ rest l Hl) as (l' & Hl' & Henc').
    exists l'. split; [exact Hl'|]. now rewrite Henc', Henc.
Qed.

Lemma read_string_quote (s rest : string) :
  Reader.read_string (quote_body s ++ dq ++ rest) = Some (s, rest).
Proof.
  unfold Reader.read_string.
  destruct (read_items_quote s rest) as (l & -> & ->).
  now rewrite string_of_bytes_of_string.
Qed.

Lemma read_value_string (fuel : nat) (s rest : string) :
  Reader.read_value (S fuel) (quote s ++ rest) = Some (JString s, rest).
Proof.
  unfold quote. rewrite !append_assoc.
  change (dq ++ quote_body s ++ dq ++ rest)
    with (String (ascii_of_nat 34) (quote_body s ++ dq ++ rest)).
  cbn [Reader.read_value Reader.skip_ws]. cbn -[Reader.read_string quote_body append].
  now rewrite read_string_quote.
Qed.

Lemma read_member_step
    (fuel : nat) (key value_text : string) (acc : list (string * json)) :
  Reader.read_members (S fuel) (quote key ++ String ":" value_text) acc
  = match Reader.read_value fuel value_text with
    | Some (v, rest) =>
        match Reader.skip_ws rest with
        | String "," r => Reader.read_members fuel r (Reader.define_property acc key v)
        | String "}" r => Some (JObject (Reader.define_property acc key v), r)
        | _ => None
        end
    | None => None
    end.
Proof.
  unfold quote. rewrite !append_assoc.
  change (dq ++ quote_body key ++ dq ++ String ":" value_text)
    with (String (ascii_of_nat 34) (quote_body key ++ dq ++ String ":" value_text)).
  cbn [Reader.read_members Reader.skip_ws].
  cbn -[Reader.read_string Reader.read_value Reader.read_members Reader.define_property
        quote_body append].
  rewrite read_string_quote. reflexivity.
Qed.

Lemma read_object_start (fuel : nat) (key rest : string) :
  Reader.read_value (S fuel) (String "{" (quote key ++ rest))
  = Reader.read_members fuel (quote key ++ rest) [].
Proof. reflexivity. Qed.

Lemma read_value_false (fuel : nat) :
  Reader.read_value (S fuel) "false}" = Some (JBool false, "}").
Proof. reflexivity. Qed.

Lemma JSON_parse_complete (text : string) (v : json) :
  (forall fuel, Reader.read_value (5 + fuel) text = Some (v, EmptyString)) ->
  (2 <= String.length text)%nat ->
  Reader.JSON_parse text = Ok v.
Proof.
  intros Hread Hlen. unfold Reader.JSON_parse.
  replace (2 * String.length text + 2)%nat
    with (5 + (2 * String.length text - 3))%nat by lia.
  rewrite Hread. reflexivity.
Qed.

(** X18: the body [saveToDailyNote] sends and the body the Edge handler
    sends are JSON texts that read back as the object they were made from:
    the space identifier and the markdown arrive unchanged whatever
    characters they hold (quotation marks, backslashes, line feeds, other
    control characters), with [noTimeStamp] false in the first and absent
    from the second. *)
Theorem X18_outbound_body_reads_back (mdText apiToken spaceId : string) :
  Reader.JSON_parse (request_body (saveToDailyNote_request mdText apiToken spaceId))
  = Ok (JObject [("spaceId", JString spaceId); ("mdText", JString mdText);
                 ("noTimeStamp", JBool false)])
  /\ Reader.JSON_parse (request_body (edge_request mdText apiToken spaceId))
     = Ok (JObject [("spaceId", JString spaceId); ("mdText", JString mdText)]).
Proof.
  split.
  - apply JSON_parse_complete.
    + intros fuel.
      cbn [request_body saveToDailyNote_request saveToDailyNote_body JSON_stringify map
           fst snd join Nat.add].
      rewrite !append_assoc. cbn [append].
      rewrite read_object_start, read_member_step, read_value_string.
      cbn -[Reader.read_members quote append].
      rewrite read_member_step, read_value_string.
      cbn -[Reader.read_members quote append].
      rewrite read_member_step, read_value_false.
      reflexivity.
    + cbn [request_body saveToDailyNote_request saveToDailyNote_body JSON_stringify map
           fst snd join].
      rewrite !append_assoc. unfold quote at 1, dq at 1.
      cbn [append String.length]. lia.
  - apply JSON_parse_complete.
    + intros fuel.
      cbn [request_body edge_request JSON_stringify map fst snd join Nat.add].
      rewrite !append_assoc. cbn [append].
      rewrite read_object_start, read_member_step, read_value_string.
      cbn -[Reader.read_members quote append].
      rewrite read_member_step, read_value_string.
      reflexivity.
    + cbn [request_body edge_request JSON_stringify map fst snd join].
      rewrite !append_assoc. unfold quote at 1, dq at 1.
      cbn [append String.length]. lia.
Qed.

(** ** The registration script *)

(** X19: the script checks its environment before it sends anything:
    [registerWebhook] ends with exit code 1 and without a request when the
    client identifier, the client secret or the webhook URL is unset or
    empty, and [listWebhooks] when the identifier or the secret is. *)
Theorem X19_script_environment_guard (rt : Runtime) (env : Script.script_env) :
  (configured (Script.TODOIST_CLIENT_ID env) = None
   \/ configured (Script.TODOIST_CLIENT_SECRET env) = None
   \/ configured (Script.WEBHOOK_URL env) = None ->
   Script.registerWebhook rt env = Script.mkScriptRun (Script.Exit 1) [])
  /\ (configured (Script.TODOIST_CLIENT_ID env) = None
      \/ configured (Script.TODOIST_CLIENT_SECRET env) = None ->
      Script.listWebhooks rt env = Script.mkScriptRun (Script.Exit 1) []).
Proof.
  unfold Script.registerWebhook, Script.listWebhooks.
  split; intros H;
    destruct (configured (Script.TODOIST_CLIENT_ID env)),
      (configured (Script.TODOIST_CLIENT_SECRET env));
    try destruct (configured (Script.WEBHOOK_URL env));
    try reflexivity; destruct H as [H|H]; try discriminate H;
    destruct H as [H|H]; discriminate H.
Qed.

Lemma X19_script_environment_guard_witness :
  Script.registerWebhook Sample.offline
    (Script.mkScriptEnv (Some "client-1") (Some "secret") (Some EmptyString))
  = Script.mkScriptRun (Script.Exit 1) []
  /\ Script.listWebhooks Sample.offline (Script.mkScriptEnv (Some "client-1") None None)
     = Script.mkScriptRun (Script.Exit 1) [].
Proof.
  split.
  - apply (proj1 (X19_script_environment_guard Sample.offline
                    (Script.mkScriptEnv (Some "client-1") (Some "secret")
                                        (Some EmptyString)))).
    right. right. reflexivity.
  - apply (proj2 (X19_script_environment_guard Sample.offline
                    (Script.mkScriptEnv (Some "client-1") None None))).
    right. reflexivity.
Defined.

(** X20: with its environment set, [registerWebhook] sends one POST with
    the four form fields and returns exactly when the service answers with
    an ok status and a JSON body whose [id], [url] and [events] the final
    report can print; in every other case (the service cannot be reached,
    the body is not JSON, the status is not ok, the body is [null], its
    [events] is not an array, a printed value cannot be converted to a
    string) it ends with exit code 1.  [listWebhooks] sends one GET and
    does not look at the status: it returns whenever the answer has a JSON
    body, and otherwise the rejection is left unhandled. *)
Theorem X20_script_outcomes
    (rt : Runtime) (env : Script.script_env) (clientId clientSecret webhookUrl : string) :
  configured (Script.TODOIST_CLIENT_ID env) = Some clientId ->
  configured (Script.TODOIST_CLIENT_SECRET env) = Some clientSecret ->
  (configured (Script.WEBHOOK_URL env) = Some webhookUrl ->
   Script.requests (Script.registerWebhook rt env)
   = [Script.register_request clientId clientSecret webhookUrl]
   /\ (Script.ended (Script.registerWebhook rt env) = Script.Returned
       <-> exists response data lines,
           fetch rt (Script.register_request clientId clientSecret webhookUrl) = Ok response
           /\ Script.response_json rt response = Ok data
           /\ response_ok response = true
           /\ Script.report data = Ok lines)
   /\ (Script.ended (Script.registerWebhook rt env) <> Script.Returned ->
       Script.ended (Script.registerWebhook rt env) = Script.Exit 1)
   /\ (forall response,
         fetch rt (Script.register_request clientId clientSecret webhookUrl) = Ok response ->
         Script.response_json rt response = Ok JNull ->
         Script.ended (Script.registerWebhook rt env) = Script.Exit 1))
  /\ (Script.requests (Script.listWebhooks rt env)
      = [Script.list_request clientId clientSecret]
      /\ (Script.ended (Script.listWebhooks rt env) = Script.Returned
          <-> exists response data,
              fetch rt (Script.list_request clientId clientSecret) = Ok response
              /\ Script.response_json rt response = Ok data)
      /\ (Script.ended (Script.listWebhooks rt env) <> Script.Returned ->
          exists e, Script.ended (Script.listWebhooks rt env) = Script.Unhandled e)).
Proof.
  intros Hid Hsecret. split.
  - intros Hurl. unfold Script.registerWebhook. rewrite Hid, Hsecret, Hurl.
    destruct (fetch rt (Script.register_request clientId clientSecret webhookUrl))
      as [response|e]; cbn [bind].
    + destruct (Script.response_json rt response) as [data|e] eqn:Hjson; cbn [bind].
      * destruct (response_ok response) eqn:Hok; cbn [negb].
        -- destruct (Script.report data) as [lines|e] eqn:Hreport;
             cbn [bind Script.requests Script.ended].
           ++ split; [reflexivity|]. split; [|split].
              ** split; [intros _; exists response, data, lines; auto | reflexivity].
              ** intros H. now contradiction H.
              ** intros r Hr Hnull. apply Ok_inj in Hr. subst r.
                 rewrite Hjson in Hnull. apply Ok_inj in Hnull. subst data.
                 discriminate Hreport.
           ++ split; [reflexivity|]. split; [|split].
              ** split; [discriminate|].
                 intros (r & d & l & Hr & Hd & _ & Hl).
                 apply Ok_inj in Hr. subst r. rewrite Hjson in Hd.
                 apply Ok_inj in Hd. subst d.
                 rewrite Hreport in Hl. discriminate Hl.
              ** reflexivity.
              ** reflexivity.
        -- cbn [Script.requests Script.ended]. split; [reflexivity|]. split; [|split].
           ++ split; [discriminate|].
              intros (r & d & l & Hr & _ & Hok' & _). apply Ok_inj in Hr. subst r.
              rewrite Hok in Hok'. discriminate Hok'.
           ++ reflexivity.
           ++ reflexivity.
      * cbn [Script.requests Script.ended]. split; [reflexivity|]. split; [|split].
        -- split; [discriminate|].
           intros (r & d & l & Hr & Hd & _). apply Ok_inj in Hr. subst r.
           rewrite Hjson in Hd. discriminate Hd.
        -- reflexivity.
        -- reflexivity.
    + cbn [Script.requests Script.ended]. split; [reflexivity|]. split; [|split].
      * split; [discriminate | intros (r & d & l & Hr & _); discriminate Hr].
      * reflexivity.
      * reflexivity.
  - unfold Script.listWebhooks. rewrite Hid, Hsecret.
    destruct (fetch rt (Script.list_request clientId clientSecret)) as [response|e];
      cbn [bind].
    + destruct (Script.response_json rt response) as [data|e] eqn:Hjson;
        cbn [Script.requests Script.ended].
      * split; [reflexivity|]. split.
        -- split; [intros _; exists response, data; repeat split; (reflexivity || assumption)
                  | reflexivity].
        -- intros H. now contradiction H.
      * split; [reflexivity|]. split.
        -- split; [discriminate|].
           intros (r & d & Hr & Hd). apply Ok_inj in Hr. subst r.
           rewrite Hjson in Hd. discriminate Hd.
        -- intros _. eauto.
    + cbn [Script.requests Script.ended]. split; [reflexivity|]. split.
      * split; [discriminate | intros (r & d & Hr & _); discriminate Hr].
      * intros _. eauto.
Qed.

Lemma X20_script_outcomes_witness :
  Script.ended (Script.registerWebhook
                  (Reference.host (Reference.answering 403 (Reader.q "{'error':'forbidden'}")))
                  Cases.script_env)
  = Script.Exit 1
  /\ Script.ended (Script.registerWebhook
                     (Reference.host (Reference.answering 200 "null")) Cases.script_env)
     = Script.Exit 1
  /\ Script.ended (Script.registerWebhook
                     (Reference.host
                        (Reference.answering 200
                           (Reader.q "{'id':7,'url':'u','events':['item:added',null]}")))
                     Cases.script_env)
     = Script.Returned
  /\ Script.ended (Script.listWebhooks
                     (Reference.host (Reference.answering 403 (Reader.q "{'error':'x'}")))
                     Cases.script_env)
     = Script.Returned.
Proof.
  split; [|split; [|split]].
  - apply (proj1 (proj2 (proj2 (proj1
             (X20_script_outcomes
                (Reference.host (Reference.answering 403 (Reader.q "{'error':'forbidden'}")))
                Cases.script_env "client-1" "s&c=ret" "https://relay.example/api/webhook"
                eq_refl eq_refl) eq_refl)))).
    vm_compute. discriminate.
  - apply (proj2 (proj2 (proj2 (proj1
             (X20_script_outcomes (Reference.host (Reference.answering 200 "null"))
                Cases.script_env "client-1" "s&c=ret" "https://relay.example/api/webhook"
                eq_refl eq_refl) eq_refl)))
             (mkResponse 200 (Ok "null")));
      vm_compute; reflexivity.
  - apply (proj1 (proj2 (proj1
             (X20_script_outcomes
                (Reference.host
                   (Reference.answering 200
                      (Reader.q "{'id':7,'url':'u','events':['item:added',null]}")))
                Cases.script_env "client-1" "s&c=ret" "https://relay.example/api/webhook"
                eq_refl eq_refl) eq_refl))).
    exists (mkResponse 200 (Ok (Reader.q "{'id':7,'url':'u','events':['item:added',null]}"))),
           (JObject [("id", JNumber (mkNumber 7 0)); ("url", JString "u");
                     ("events", JArray [JString "item:added"; JNull])]),
           ["  Webhook ID: 7"; "  URL: u"; "  Events: item:added, "].
    repeat split; vm_compute; reflexivity.
  - apply (proj1 (proj2 (proj2
             (X20_script_outcomes
                (Reference.host (Reference.answering 403 (Reader.q "{'error':'x'}")))
                Cases.script_env "client-1" "s&c=ret" "https://relay.example/api/webhook"
                eq_refl eq_refl)))).
    exists (mkResponse 403 (Ok (Reader.q "{'error':'x'}"))),
           (JObject [("error", JString "x")]).
    split; [reflexivity | vm_compute; reflexivity].
Defined.

(** What the final report of [registerWebhook] can and cannot print. *)
Example script_reports :
  Script.report (JObject []) = Ok ["  Webhook ID: undefined"; "  URL: undefined";
                                   "  Events: undefined"]
  /\ Script.report (JString "done") = Ok ["  Webhook ID: undefined"; "  URL: undefined";
                                          "  Events: undefined"]
  /\ Script.report (JObject [("id", JArray [JNumber (mkNumber 1 0); JNull; JObject []])])
     = Ok ["  Webhook ID: 1,,[object Object]"; "  URL: undefined"; "  Events: undefined"]
  /\ Script.report JNull
     = Throw (TypeError "Cannot read properties of null (reading 'id')")
  /\ Script.report (JObject [("events", JString "item:added")])
     = Throw (TypeError "data.events?.join is not a function")
  /\ Script.report (JObject [("id", JObject [("toString", JNull)])])
     = Throw (TypeError "Cannot convert object to primitive value").
Proof. vm_compute. repeat split. Qed.

Lemma count_char_app (c : ascii) (a b : string) :
  count_char c (a ++ b) = (count_char c a + count_char c b)%nat.
Proof. induction a as [|x a IH]; simpl; [reflexivity | rewrite IH; lia]. Qed.

Lemma form_byte_separators (c : ascii) :
  count_char "&" (Script.form_byte c) = O /\ count_char "=" (Script.form_byte c) = O.
Proof.
  destruct c as [b0 b1 b2 b3 b4 b5 b6 b7].
  destruct b0, b1, b2, b3, b4, b5, b6, b7; split; reflexivity.
Qed.

Lemma form_encode_separators (s : string) :
  count_char "&" (Script.form_encode s) = O /\ count_char "=" (Script.form_encode s) = O.
Proof.
  induction s as [|c s [IHa IHe]]; [split; reflexivity|].
  cbn [Script.form_encode]. rewrite !count_char_app, IHa, IHe.
  destruct (form_byte_separators c) as [-> ->]. split; reflexivity.
Qed.

(** X21: whatever characters the identifier, the secret and the URL hold,
    the form body of [registerWebhook] has exactly three field separators
    and four equals signs, so it always carries exactly its four fields.
    The URL of [listWebhooks], which takes the identifier and the secret as
    they are, has one more separator for each [&] in them. *)
Theorem X21_form_fields (clientId clientSecret webhookUrl : string) :
  count_char "&" (request_body (Script.register_request clientId clientSecret webhookUrl))
  = 3%nat
  /\ count_char "=" (request_body (Script.register_request clientId clientSecret webhookUrl))
     = 4%nat
  /\ count_char "&" (url (Script.list_request clientId clientSecret))
     = (1 + count_char "&" clientId + count_char "&" clientSecret)%nat.
Proof.
  unfold Script.register_request, Script.list_request, Script.urlencoded.
  cbn [request_body url map fst snd join].
  rewrite !count_char_app.
  destruct (form_encode_separators clientId) as [-> ->].
  destruct (form_encode_separators clientSecret) as [-> ->].
  destruct (form_encode_separators webhookUrl) as [-> ->].
  split; [|split]; try (vm_compute; reflexivity).
  unfold Script.TODOIST_WEBHOOK_API. cbn [count_char Ascii.eqb Bool.eqb]. lia.
Qed.

Example script_requests :
  request_body (Script.register_request "client-1" "s&c=ret" "https://relay.example/a b")
  = "client_id=client-1&client_secret=s%26c%3Dret&url=https%3A%2F%2Frelay.example%2Fa+b"
    ++ "&events=%5B%22item%3Aadded%22%2C%22item%3Aupdated%22%2C%22item%3Acompleted%22"
    ++ "%2C%22item%3Auncompleted%22%2C%22item%3Adeleted%22%5D"
  /\ url (Script.list_request "client-1" "s&c=ret")
     = "https://api.todoist.com/sync/v9/webhooks?client_id=client-1&client_secret=s&c=ret"
  /\ Script.main Sample.offline Cases.script_env (Some "List")
     = Script.registerWebhook Sample.offline Cases.script_env.
Proof. vm_compute. repeat split. Qed.
